(** * LinkedIn profile scraper: the extraction pipeline

    A shallow embedding of [scraper.py] (class [LinkedInScraper]) and
    [ai_parser.py] (class [GeminiProfileParser]).

    Python [str] values are modelled as [string]: a character is a code
    point below 256, and [str.isspace], [str.isdigit] and the regular
    expression class [\s] are given on that range.  Python [int] values
    are [Z].  The browser, the hosted model, the HTML and JSON libraries
    and the file system are capabilities of the environment; every call
    made to them, and every sleep, is recorded in a trace.  Functions
    that can raise return an [outcome]; the [while] loop of
    [smooth_scroll] runs on fuel.  A [print] can raise: the standard
    output encodes the text or raises [UnicodeEncodeError]; see
    [py_print]. *)

From Stdlib Require Import String Ascii List ZArith NArith Lia Bool.
From Stdlib Require Import DecimalString.
Import ListNotations.
Local Open Scope string_scope.
Local Open Scope Z_scope.

(** ** Characters and strings as Python has them *)

Definition LF : ascii := "010"%char.
Definition DQUOTE : ascii := "034"%char.
Definition SQUOTE : ascii := "039"%char.

Definition chr (c : ascii) : string := String c "".
Definition NL : string := chr LF.
Definition DQ : string := chr DQUOTE.

(** [str.isspace] on one character. *)
Definition py_isspace (c : ascii) : bool :=
  let n := N_of_ascii c in
  (((9 <=? n) && (n <=? 13)) || ((28 <=? n) && (n <=? 32))
   || (n =? 133) || (n =? 160))%N.

(** [str.isdigit] on one character: the decimal digits and the
    superscripts one, two and three. *)
Definition py_isdigit_char (c : ascii) : bool :=
  let n := N_of_ascii c in
  (((48 <=? n) && (n <=? 57)) || (n =? 178) || (n =? 179) || (n =? 185))%N.

Definition len (s : string) : Z := Z.of_nat (String.length s).

(** [str(n)] for an [int]. *)
Definition str_int (n : Z) : string := NilZero.string_of_int (Z.to_int n).

Fixpoint lstrip (s : string) : string :=
  match s with
  | String c r => if py_isspace c then lstrip r else s
  | EmptyString => EmptyString
  end.

Fixpoint rstrip (s : string) : string :=
  match s with
  | EmptyString => EmptyString
  | String c r =>
      match rstrip r with
      | EmptyString => if py_isspace c then EmptyString else chr c
      | r' => String c r'
      end
  end.

(** [s.strip()] *)
Definition strip (s : string) : string := rstrip (lstrip s).

Fixpoint all_chars (p : ascii -> bool) (s : string) : bool :=
  match s with
  | EmptyString => true
  | String c r => p c && all_chars p r
  end.

(** [s.isdigit()]: false on the empty string. *)
Definition isdigit (s : string) : bool :=
  match s with
  | EmptyString => false
  | _ => all_chars py_isdigit_char s
  end.

(** [s.startswith(p)] *)
Definition startswith (p s : string) : bool := String.prefix p s.

(** [sub in s] *)
Fixpoint contains (sub s : string) : bool :=
  String.prefix sub s
  || match s with
     | EmptyString => false
     | String _ r => contains sub r
     end.

(** [s[:n]] for a non-negative [n]. *)
Fixpoint take (n : nat) (s : string) : string :=
  match n, s with
  | S k, String c r => String c (take k r)
  | _, _ => EmptyString
  end.

Definition slice_to (n : Z) (s : string) : string := take (Z.to_nat n) s.

(** [s.split(c)] for a one-character separator. *)
Fixpoint split_char (sep : ascii) (s : string) : list string :=
  match s with
  | EmptyString => [EmptyString]
  | String c r =>
      if Ascii.eqb c sep then EmptyString :: split_char sep r
      else match split_char sep r with
           | h :: t => String c h :: t
           | [] => [chr c]
           end
  end.

(** [sep.join(l)] *)
Definition join (sep : string) (l : list string) : string :=
  String.concat sep l.

(** [s.replace(a, b)] for one-character [a] and [b]. *)
Fixpoint replace_char (a b : ascii) (s : string) : string :=
  match s with
  | EmptyString => EmptyString
  | String c r => String (if Ascii.eqb c a then b else c) (replace_char a b r)
  end.

(** ** The Normalizer's line filter ([html_to_clean_text], the loop) *)

(** Membership in the source's set of special characters: the braces,
    the square brackets, the double quote, the colon and the comma. *)
Definition is_special (c : ascii) : bool :=
  let n := N_of_ascii c in
  ((n =? 123) || (n =? 125) || (n =? 91) || (n =? 93)
   || (n =? 34) || (n =? 58) || (n =? 44))%N.

(** [sum(1 for c in line if c in SPECIAL)] *)
Fixpoint special_char_count (line : string) : Z :=
  match line with
  | EmptyString => 0
  | String c r => (if is_special c then 1 else 0) + special_char_count r
  end.

(** [special_char_count > len(line) * 0.3].  Python compares the integer
    with the double exactly; the double product [n * 0.3] equals [3n/10]
    when ten divides [n] and otherwise stays within [0.1] of it for every
    length below [10^15], so the test is the integer comparison below. *)
Definition too_many_special (line : string) : bool :=
  3 * len line <? 10 * special_char_count line.

(** The [continue] conditions of the loop, in the order of the source,
    on a line that has been stripped. *)
Definition skip_line (line : string) : bool :=
  if String.eqb line "" then true
  else if isdigit line then true
  else if len line <=? 2 then true
  else if startswith "{" line || startswith "[" line
          || contains "urn:li:" line then true
  else if too_many_special line then true
  else false.

Definition clean_lines (text : string) : list string :=
  filter (fun line => negb (skip_line line))
         (map strip (split_char LF text)).

Definition MAX_CLEAN : Z := 40000.

(** [clean_text = '\n'.join(lines)], cut to its first 40000 characters
    when longer. *)
Definition limit_text (joined : string) : string :=
  if len joined >? MAX_CLEAN then slice_to MAX_CLEAN joined else joined.

Definition clean_text_of (text : string) : string :=
  limit_text (join NL (clean_lines text)).

(** ** Python values, dictionaries and exceptions *)

#[local] Set Warnings "-register-all".

(** The values [json.loads] can return.  A [float] is kept as its
    IEEE 754 binary64 bit pattern. *)
Inductive pyval : Type :=
| PNone
| PBool (b : bool)
| PInt (n : Z)
| PFloat (bits : Z)
| PStr (s : string)
| PList (l : list pyval)
| PDict (d : list (string * pyval)).

(** A [dict] with string keys, in insertion order. *)
Definition dict : Type := list (string * pyval).

(** [d.get(k)] *)
Fixpoint dict_get (d : dict) (k : string) : option pyval :=
  match d with
  | [] => None
  | (k', v) :: r => if String.eqb k' k then Some v else dict_get r k
  end.

(** [d.get(k, default)] *)
Definition get_or (d : dict) (k : string) (default : pyval) : pyval :=
  match dict_get d k with
  | Some v => v
  | None => default
  end.

(** [d[k] = v] *)
Fixpoint dict_set (d : dict) (k : string) (v : pyval) : dict :=
  match d with
  | [] => [(k, v)]
  | (k', v') :: r =>
      if String.eqb k' k then (k', v) :: r else (k', v') :: dict_set r k v
  end.

(** [bool(v)] *)
Definition py_truthy (v : pyval) : bool :=
  match v with
  | PNone => false
  | PBool b => b
  | PInt n => negb (n =? 0)
  | PFloat bits => negb (Z.land bits (Z.ones 63) =? 0)
  | PStr s => negb (String.eqb s "")
  | PList l => match l with [] => false | _ => true end
  | PDict d => match d with [] => false | _ => true end
  end.

Definition py_type_name (v : pyval) : string :=
  match v with
  | PNone => "NoneType"
  | PBool _ => "bool"
  | PInt _ => "int"
  | PFloat _ => "float"
  | PStr _ => "str"
  | PList _ => "list"
  | PDict _ => "dict"
  end.

(** The exception classes the handlers of the source tell apart; all of
    them derive from [Exception], and [JSONDecodeError] and
    [UnicodeEncodeError] derive from [ValueError]. *)
Inductive exn_class : Type :=
| ImportError | ValueError | JSONDecodeError | UnicodeEncodeError | TypeError
| UnboundLocalError | OtherError.

Record exn : Type := Exn { exn_cls : exn_class; exn_msg : string }.

Definition is_ImportError (e : exn) : bool :=
  match exn_cls e with ImportError => true | _ => false end.

Definition is_ValueError (e : exn) : bool :=
  match exn_cls e with
  | ValueError | JSONDecodeError | UnicodeEncodeError => true
  | _ => false
  end.

Definition is_JSONDecodeError (e : exn) : bool :=
  match exn_cls e with JSONDecodeError => true | _ => false end.

Inductive outcome (A : Type) : Type :=
| Ret (a : A)
| Raise (e : exn).
Arguments Ret {A} a.
Arguments Raise {A} e.

(** [len(v)]: a [TypeError] on a value that has no length. *)
Definition py_len (v : pyval) : outcome Z :=
  match v with
  | PStr s => Ret (len s)
  | PList l => Ret (Z.of_nat (length l))
  | PDict d => Ret (Z.of_nat (length d))
  | _ => Raise (Exn TypeError
                  ("object of type '" ++ py_type_name v ++ "' has no len()"))
  end.

(** [v[:n]] *)
Definition py_slice_to (n : nat) (v : pyval) : outcome pyval :=
  match v with
  | PStr s => Ret (PStr (take n s))
  | PList l => Ret (PList (firstn n l))
  | PDict _ => Raise (Exn TypeError "unhashable type: 'slice'")
  | _ => Raise (Exn TypeError
                  ("'" ++ py_type_name v ++ "' object is not subscriptable"))
  end.

(** ** The ProfileRecord *)

Definition failure_record (profile_url : string) (error : pyval) : dict :=
  [("profile_url", PStr profile_url); ("error", error);
   ("success", PBool false)].

Definition NA : pyval := PStr "N/A".

Definition EXPERIENCES_DEFAULT : pyval :=
  PList [PDict [("title", NA); ("company", NA); ("duration", NA)]].
Definition EDUCATIONS_DEFAULT : pyval :=
  PList [PDict [("school", NA); ("degree", NA); ("field", NA)]].
Definition SKILLS_DEFAULT : pyval := PList [NA].

(** [if not d.get(k) or len(d.get(k, [])) == 0: d[k] = default] *)
Definition set_default_if_empty (k : string) (default : pyval) (d : dict)
  : outcome dict :=
  match dict_get d k with
  | None => Ret (dict_set d k default)
  | Some v =>
      if negb (py_truthy v) then Ret (dict_set d k default)
      else match py_len v with
           | Ret n => if n =? 0 then Ret (dict_set d k default) else Ret d
           | Raise e => Raise e
           end
  end.

Definition obind {A B : Type} (o : outcome A) (f : A -> outcome B)
  : outcome B :=
  match o with
  | Ret a => f a
  | Raise e => Raise e
  end.

(** [extract_structured_data_with_gemini], the three assignments after
    the parse and the three defaults (lines 262 to 274): the parsed value
    becomes the record.  The summary that is printed next is
    [print_summary]. *)
Definition finalize_record (parsed : pyval) (profile_url : string)
  : outcome dict :=
  match parsed with
  | PDict d0 =>
      let d1 := dict_set d0 "profile_url" (PStr profile_url) in
      let d2 := dict_set d1 "success" (PBool true) in
      let d3 := dict_set d2 "error" PNone in
      obind (set_default_if_empty "experiences" EXPERIENCES_DEFAULT d3)
        (fun d4 =>
      obind (set_default_if_empty "educations" EDUCATIONS_DEFAULT d4)
        (fun d5 =>
      set_default_if_empty "skills" SKILLS_DEFAULT d5))
  | PList _ =>
      Raise (Exn TypeError "list indices must be integers or slices, not str")
  | _ =>
      Raise (Exn TypeError
               ("'" ++ py_type_name parsed
                ++ "' object does not support item assignment"))
  end.

(** ** Cleaning the model's reply and repairing JSON *)

(** [s.split(sep)] for a separator of one character or more; [skip]
    counts the characters of a matched separator still to pass over. *)
Fixpoint split_str_from (sep : string) (skip : nat) (s : string)
  : list string :=
  match s with
  | EmptyString => [EmptyString]
  | String c r =>
      match skip with
      | S k => split_str_from sep k r
      | O =>
          if String.prefix sep s
          then EmptyString :: split_str_from sep (String.length sep - 1) r
          else match split_str_from sep 0 r with
               | h :: t => String c h :: t
               | [] => [chr c]
               end
      end
  end.

Definition split_str (sep s : string) : list string :=
  split_str_from sep 0 s.

Definition has_char (c : ascii) (s : string) : bool := contains (chr c) s.

(** [s[s.index(c):]], for [c in s]. *)
Fixpoint from_first (c : ascii) (s : string) : string :=
  match s with
  | EmptyString => EmptyString
  | String a r => if Ascii.eqb a c then s else from_first c r
  end.

(** [s[:s.rindex(c)+1]], for [c in s]. *)
Fixpoint upto_last (c : ascii) (s : string) : string :=
  match s with
  | EmptyString => EmptyString
  | String a r =>
      if has_char c r then String a (upto_last c r)
      else if Ascii.eqb a c then chr a else EmptyString
  end.

Definition FENCE : string := "```".
Definition FENCE_JSON : string := "```json".

(** The markdown fence and the text around the outermost braces are
    removed. *)
Definition clean_response (response_text : string) : string :=
  let t1 :=
    if contains FENCE_JSON response_text
    then strip (nth 0 (split_str FENCE
                         (nth 1 (split_str FENCE_JSON response_text) ""))
                      "")
    else if contains FENCE response_text
    then strip (nth 0 (split_str FENCE
                         (nth 1 (split_str FENCE response_text) "")) "")
    else response_text in
  let t2 := if has_char "{"%char t1 then from_first "{"%char t1 else t1 in
  if has_char "}"%char t2 then upto_last "}"%char t2 else t2.

(** Does the text start with [\s*[}\]]]? *)
Fixpoint closes_after_space (s : string) : bool :=
  match s with
  | EmptyString => false
  | String c r =>
      if Ascii.eqb c "}"%char || Ascii.eqb c "]"%char then true
      else if py_isspace c then closes_after_space r
      else false
  end.

(** [re.sub(r',(\s*[}\]])', r'\1', s)].  A match is a comma followed by
    white space and a closing brace or bracket; the substitution keeps
    the group and drops the comma.  The group holds no comma, so
    resuming the scan right after the dropped comma copies the group
    unchanged, as resuming after the match does. *)
Fixpoint strip_trailing_commas (s : string) : string :=
  match s with
  | EmptyString => EmptyString
  | String c r =>
      if Ascii.eqb c ","%char && closes_after_space r
      then strip_trailing_commas r
      else String c (strip_trailing_commas r)
  end.

(** The two repairs applied after a failed parse. *)
Definition json_repair (response_text : string) : string :=
  strip_trailing_commas (replace_char SQUOTE DQUOTE response_text).

(** ** The extraction prompt *)

Definition q (s : string) : string := DQ ++ s ++ DQ.

Definition PROMPT_HEAD : string :=
  join NL
    ["You are a data extraction AI. Extract LinkedIn profile information from the text below.";
     "";
     "IMPORTANT: You MUST return a valid JSON object with ALL these fields filled in (use the actual data from the profile):";
     "";
     "{";
     "  " ++ q "name" ++ ": " ++ q "Person's full name from the profile" ++ ",";
     "  " ++ q "headline" ++ ": " ++ q "Professional headline (what they do)" ++ ",";
     "  " ++ q "location" ++ ": " ++ q "City, State/Country" ++ ",";
     "  " ++ q "about" ++ ": " ++ q "Summary/About section text" ++ ",";
     "  " ++ q "current_position" ++ ": " ++ q "Current job title" ++ ",";
     "  " ++ q "current_company" ++ ": " ++ q "Current company name" ++ ",";
     "  " ++ q "experiences" ++ ": [";
     "    {";
     "      " ++ q "title" ++ ": " ++ q "Job title" ++ ",";
     "      " ++ q "company" ++ ": " ++ q "Company name" ++ ",";
     "      " ++ q "duration" ++ ": " ++ q "Jan 2020 - Present";
     "    }";
     "  ],";
     "  " ++ q "educations" ++ ": [";
     "    {";
     "      " ++ q "school" ++ ": " ++ q "University/School name" ++ ",";
     "      " ++ q "degree" ++ ": " ++ q "Degree name" ++ ",";
     "      " ++ q "field" ++ ": " ++ q "Field of study";
     "    }";
     "  ],";
     "  " ++ q "skills" ++ ": [" ++ q "skill1" ++ ", " ++ q "skill2" ++ ", " ++ q "skill3" ++ "]";
     "}";
     "";
     "RULES:";
     "- Extract ALL available information from the profile text";
     "- For experiences: Include up to 5 most recent jobs";
     "- For education: Include up to 3 schools";
     "- For skills: Include up to 15 skills";
     "- If a field is truly missing, use " ++ q "N/A" ++ " for strings or [] for arrays";
     "- Return ONLY the JSON object, no other text";
     "- Do NOT use markdown code blocks";
     "- Make sure the JSON is valid and parseable";
     "";
     "PROFILE TEXT:"].

Definition extraction_prompt (clean_text : string) : string :=
  PROMPT_HEAD ++ NL ++ slice_to 20000 clean_text ++ NL ++ NL
  ++ "JSON OUTPUT:".

(** ** The environment: capabilities, trace and the pipeline monad *)

(** What the hosted model returns: the [text] accessor (which may raise),
    the candidates, and [str(response)].  A candidate is the list of its
    content parts when [content] has [parts]; a part is its text when it
    has one. *)
Record response : Type := Response {
  resp_text : outcome string;
  resp_candidates : list (option (list (option string)));
  resp_repr : string
}.

(** Calls made to the environment, newest first in the trace.  A sleep
    is recorded with the bounds of its duration in milliseconds:
    [time.sleep(2)] is [EvSleep 2000 2000] and
    [time.sleep(random.uniform(4, 6))] is [EvSleep 4000 6000]. *)
Inductive event : Type :=
| EvGet (url : string)
| EvSleep (min_ms max_ms : Z)
| EvWaitHeading
| EvScrollHeight
| EvScrollTo (top : Z)
| EvImportParser
| EvConfigure
| EvPageSource
| EvGenerate (prompt : string)
| EvWrite (file content : string).

Definition is_generate (ev : event) : bool :=
  match ev with
  | EvGenerate _ => true
  | _ => false
  end.

(** How many times the hosted model has been called. *)
Definition llm_calls (t : list event) : nat := length (filter is_generate t).

(** The capabilities, over a world [W] that the model does not look
    into; a call to one of them returns or raises.  [wait_for_heading] is
    the [WebDriverWait] under a bare [except]; [scroll_height] and
    [scroll_to] are the two scripts that [smooth_scroll] executes;
    [soup_get_text] is the BeautifulSoup parse, the removal of script,
    style and noscript elements, the choice of the main content and
    [get_text(separator=LF, strip=True)].

    The last three are the standard output, whose encoding does not
    change during a run.  Many texts the program prints open with a
    pictograph; an encoding has all of these or none
    ([stdout_pictographs]: UTF-8 has them, ASCII, Latin-1 and cp1252 have
    none).  [stdout_takes] tells which values of a record the encoding
    can write, and [stdout_error] is the message of the
    [UnicodeEncodeError] that a refused text raises. *)
Inductive pictograph : Type :=
| CHECK_MARK | CROSS_MARK | WARNING_SIGN | PAGE | FLOPPY_DISK | ROBOT
| ROCKET | MEMO.

Record Caps (W : Type) : Type := {
  driver_get : string -> W -> outcome unit * W;
  driver_current_url : W -> outcome string;
  driver_page_source : W -> outcome string;
  wait_for_heading : W -> W;
  scroll_height : W -> outcome Z * W;
  scroll_to : Z -> W -> outcome unit * W;
  import_ai_parser : W -> outcome unit * W;
  getenv_GEMINI_API_KEY : W -> option string;
  genai_configure : string -> W -> outcome unit * W;
  generate_content : string -> W -> outcome response * W;
  soup_get_text : string -> outcome string;
  json_loads : string -> outcome pyval;
  write_file : string -> string -> W -> outcome unit * W;
  format_exc : exn -> string;
  stdout_pictographs : bool;
  stdout_takes : pyval -> bool;
  stdout_error : option pictograph -> string -> list pyval -> string
}.
Arguments driver_get {W}.
Arguments driver_current_url {W}.
Arguments driver_page_source {W}.
Arguments wait_for_heading {W}.
Arguments scroll_height {W}.
Arguments scroll_to {W}.
Arguments import_ai_parser {W}.
Arguments getenv_GEMINI_API_KEY {W}.
Arguments genai_configure {W}.
Arguments generate_content {W}.
Arguments soup_get_text {W}.
Arguments json_loads {W}.
Arguments write_file {W}.
Arguments format_exc {W}.
Arguments stdout_pictographs {W}.
Arguments stdout_takes {W}.
Arguments stdout_error {W}.

Record state (W : Type) : Type := State {
  world : W;
  trace : list event
}.
Arguments State {W}.
Arguments world {W}.
Arguments trace {W}.

(** State passing with exceptions; the state survives a raise. *)
Definition M (W A : Type) : Type := state W -> outcome A * state W.

Definition ret {W A : Type} (a : A) : M W A := fun s => (Ret a, s).

Definition raise {W A : Type} (e : exn) : M W A := fun s => (Raise e, s).

Definition bind {W A B : Type} (m : M W A) (f : A -> M W B) : M W B :=
  fun s =>
    match m s with
    | (Ret a, s') => f a s'
    | (Raise e, s') => (Raise e, s')
    end.

(** [try: m  except Exception as e: h e] *)
Definition try_except {W A : Type} (m : M W A) (h : exn -> M W A) : M W A :=
  fun s =>
    match m s with
    | (Ret a, s') => (Ret a, s')
    | (Raise e, s') => h e s'
    end.

(** [m] guarded by the handler [h], then [k] outside the guard. *)
Definition try_then {W A B : Type} (m : M W A) (h : exn -> M W B)
  (k : A -> M W B) : M W B :=
  fun s =>
    match m s with
    | (Ret a, s') => k a s'
    | (Raise e, s') => h e s'
    end.

Definition lift {W A : Type} (o : outcome A) : M W A := fun s => (o, s).

Definition log {W : Type} (ev : event) : M W unit :=
  fun s => (Ret tt, State (world s) (ev :: trace s)).

(** A call that changes the world. *)
Definition call {W A : Type} (ev : event) (f : W -> outcome A * W) : M W A :=
  fun s =>
    let (o, w) := f (world s) in (o, State w (ev :: trace s)).

(** A call that only reads the world. *)
Definition read {W A : Type} (f : W -> outcome A) : M W A :=
  fun s => (f (world s), s).

(** A call that cannot fail. *)
Definition step {W : Type} (ev : event) (f : W -> W) : M W unit :=
  fun s => (Ret tt, State (f (world s)) (ev :: trace s)).

Declare Scope py_scope.
Delimit Scope py_scope with py.
Notation "x <- m ;; k" := (bind m (fun x => k))
  (at level 61, m at next level, right associativity) : py_scope.
Notation "m ;; k" := (bind m (fun _ => k))
  (at level 61, right associativity) : py_scope.
Local Open Scope py_scope.

(** A run that may go through a [while] loop: it is given fuel, one unit
    for each iteration, and [None] is a run whose loop has not ended
    when the fuel is spent. *)
Definition P (W A : Type) : Type := state W -> option (outcome A * state W).

(** A run without a loop. *)
Definition finite {W A : Type} (m : M W A) : P W A := fun s => Some (m s).

Definition out_of_fuel {W A : Type} : P W A := fun _ => None.

Definition pbind {W A B : Type} (m : P W A) (f : A -> P W B) : P W B :=
  fun s =>
    match m s with
    | Some (Ret a, s') => f a s'
    | Some (Raise e, s') => Some (Raise e, s')
    | None => None
    end.

(** [try: m  except Exception as e: h e], around a run. *)
Definition ptry_except {W A : Type} (m : P W A) (h : exn -> P W A) : P W A :=
  fun s =>
    match m s with
    | Some (Ret a, s') => Some (Ret a, s')
    | Some (Raise e, s') => h e s'
    | None => None
    end.

Declare Scope run_scope.
Delimit Scope run_scope with run.
Notation "x <- m ;; k" := (pbind m (fun x => k))
  (at level 61, m at next level, right associativity) : run_scope.
Notation "m ;; k" := (pbind m (fun _ => k))
  (at level 61, right associativity) : run_scope.

Section Pipeline.

Context {W : Type} (env : Caps W).

(** *** [ai_parser.py] *)

Definition KEY_PLACEHOLDER : string := "your_gemini_key_here".

Definition KEY_MISSING : string :=
  "GEMINI_API_KEY not found. This parser requires Gemini AI. Get FREE API key from: https://makersuite.google.com/app/apikey"
  ++ NL ++ "Add to .env file: GEMINI_API_KEY=your_key_here".

(** [print]: [symbol] is the pictograph that opens the text, if there is
    one, [text] is what follows it, with the messages of exceptions and
    the numbers formatted in, and [values] are the values of a record
    or of the reply formatted into it.  The print raises when the
    encoding of the standard output lacks the pictograph or refuses a
    value; what is written is not part of the state.  Texts made of
    ASCII literals, URLs, numbers and messages of exceptions alone are
    taken to be writable on every output, and the prints of such texts
    are left out; failures of the stream other than of its encoding (a
    closed or broken pipe) are not modelled.  [traceback.print_exc]
    writes to the standard error, which escapes what it cannot encode. *)
Definition py_print (symbol : option pictograph) (text : string)
  (values : list pyval) : M W unit :=
  if match symbol with
     | Some _ => stdout_pictographs env
     | None => true
     end && forallb (stdout_takes env) values
  then ret tt
  else raise (Exn UnicodeEncodeError (stdout_error env symbol text values)).

(** [d.get(k, default)] inside a printed text, where the default is an
    ASCII literal: the value under [k], when there is one. *)
Definition reply_value (d : dict) (k : string) : list pyval :=
  match dict_get d k with
  | Some v => [v]
  | None => []
  end.

(** [GeminiProfileParser.__init__] *)
Definition GeminiProfileParser : M W unit :=
  fun s =>
    match getenv_GEMINI_API_KEY env (world s) with
    | None => raise (Exn ValueError KEY_MISSING) s
    | Some key =>
        if String.eqb key "" || String.eqb key KEY_PLACEHOLDER
        then raise (Exn ValueError KEY_MISSING) s
        else try_except
               (call EvConfigure (genai_configure env key) ;;
                py_print (Some CHECK_MARK)
                  "Gemini AI configured (gemini-2.5-pro)" [])
               (fun e => raise (Exn ValueError
                                  ("Failed to configure Gemini: "
                                   ++ exn_msg e))) s
    end.

(** [get_page_html] *)
Definition get_page_html : M W string :=
  log EvPageSource ;; read (driver_page_source env).

Definition save (file content : string) : M W unit :=
  call (EvWrite file content) (write_file env file content).

(** [html_to_clean_text]: the Normalizer.  The print at line 77 belongs
    to the choice of the main content, inside [soup_get_text]; it
    follows the print at line 50, and an output that has written that
    one writes it too. *)
Definition html_to_clean_text (html_content : string) : M W (option string) :=
  try_except
    (py_print (Some PAGE) "Converting HTML to clean text..." [] ;;
     text <- lift (soup_get_text env html_content) ;;
     let lines := clean_lines text in
     let joined := join NL lines in
     (if len joined >? MAX_CLEAN
      then py_print (Some WARNING_SIGN)
             ("Text too long (" ++ str_int (len joined)
              ++ " chars), truncating to 40000...") []
      else ret tt) ;;
     let clean_text := limit_text joined in
     py_print (Some CHECK_MARK)
       ("Extracted clean text (" ++ str_int (len clean_text) ++ " chars, "
        ++ str_int (Z.of_nat (length lines)) ++ " lines)") [] ;;
     save "debug_clean_preview.txt" (slice_to 3000 clean_text) ;;
     py_print (Some FLOPPY_DISK)
       "Saved text preview to debug_clean_preview.txt" [] ;;
     ret (Some clean_text))
    (fun e =>
       py_print (Some CROSS_MARK)
         ("HTML to text conversion error: " ++ exn_msg e) [] ;;
       ret None).

(** The text of every part of every candidate, in order. *)
Definition parts_text_of (candidates : list (option (list (option string))))
  : list string :=
  flat_map (fun candidate =>
              match candidate with
              | Some parts =>
                  flat_map (fun part => match part with
                                        | Some t => [t]
                                        | None => []
                                        end) parts
              | None => []
              end) candidates.

(** The reply text: [response.text.strip()], or the parts joined when the
    accessor raises a [ValueError].  [None] is the early [return None]. *)
Definition response_text_of (r : response) : M W (option string) :=
  match resp_text r with
  | Ret t => ret (Some (strip t))
  | Raise e =>
      if is_ValueError e then
        py_print (Some WARNING_SIGN)
          "Complex response detected, extracting from parts..." [] ;;
        match resp_candidates r with
        | [] =>
            py_print (Some CROSS_MARK)
              "No candidates in response - likely blocked by safety filters"
              [] ;;
            ret None
        | candidates =>
            match parts_text_of candidates with
            | [] =>
                py_print (Some CROSS_MARK)
                  "No text found in response parts" [] ;;
                save "debug_gemini_full_response.txt" (resp_repr r) ;;
                py_print (Some FLOPPY_DISK)
                  "Saved full response to debug_gemini_full_response.txt"
                  [] ;;
                ret None
            | parts_text =>
                py_print (Some CHECK_MARK)
                  ("Extracted " ++ str_int (Z.of_nat (length parts_text))
                   ++ " parts from response") [] ;;
                ret (Some (strip (join NL parts_text)))
            end
        end
      else raise e
  end.

Definition UNBOUND_RESPONSE_TEXT : exn :=
  Exn UnboundLocalError
    "cannot access local variable 'response_text' where it is not associated with a value".

(** The two handlers that close [extract_structured_data_with_gemini];
    [response_text] is the local variable at the raise, if bound. *)
Definition extraction_handlers (response_text : option string)
  (clean_text : string) (e : exn) : M W (option dict) :=
  if is_JSONDecodeError e then
    py_print (Some CROSS_MARK)
      ("Failed to parse Gemini response as JSON: " ++ exn_msg e) [] ;;
    match response_text with
    | None => raise UNBOUND_RESPONSE_TEXT
    | Some t =>
        py_print None "Full response: " [PStr t] ;;
        save "debug_gemini_failed.txt"
          ("Error: " ++ exn_msg e ++ NL ++ NL ++ "Response:" ++ NL ++ t) ;;
        ret None
    end
  else
    py_print (Some CROSS_MARK)
      ("Gemini extraction error: " ++ exn_msg e) [] ;;
    save "debug_gemini_error.txt"
      ("Error: " ++ exn_msg e ++ NL ++ NL ++ "Traceback:" ++ NL
       ++ format_exc env e ++ NL ++ NL
       ++ "Clean text preview (first 1000 chars):" ++ NL
       ++ (if String.eqb clean_text "" then "No clean text"
           else slice_to 1000 clean_text)) ;;
    py_print (Some FLOPPY_DISK)
      "Saved error details to debug_gemini_error.txt" [] ;;
    ret None.

(** The parse of the cleaned reply, with one repair after a decode
    error: the local [response_text] after the statement, and what the
    statement produced. *)
Definition parse_reply (response_text : string) : string * outcome pyval :=
  match json_loads env response_text with
  | Ret profile_data => (response_text, Ret profile_data)
  | Raise e =>
      if is_JSONDecodeError e then
        let repaired := json_repair response_text in
        (repaired, json_loads env repaired)
      else (response_text, Raise e)
  end.

(** The print that opens the handler of the first parse (line 255),
    before the repair and the second parse. *)
Definition print_parse_error (response_text : string) : M W unit :=
  match json_loads env response_text with
  | Ret _ => ret tt
  | Raise e =>
      if is_JSONDecodeError e
      then py_print (Some CROSS_MARK) ("JSON parse error: " ++ exn_msg e) []
      else ret tt
  end.

(** The summary printed before the record is returned (lines 277 to
    283), with the slice and the three lengths it evaluates. *)
Definition print_summary (profile_data : dict) : M W unit :=
  py_print (Some CHECK_MARK) "Gemini extraction successful:" [] ;;
  py_print None "   Name: " (reply_value profile_data "name") ;;
  headline <- lift (match dict_get profile_data "headline" with
                    | Some h => obind (py_slice_to 50 h) (fun v => Ret [v])
                    | None => Ret []
                    end) ;;
  py_print None "   Headline: " headline ;;
  py_print None "   Location: " (reply_value profile_data "location") ;;
  lift (py_len (get_or profile_data "experiences" (PList []))) ;;
  lift (py_len (get_or profile_data "educations" (PList []))) ;;
  lift (py_len (get_or profile_data "skills" (PList []))) ;;
  ret tt.

(** [extract_structured_data_with_gemini]: the Prompter. *)
Definition extract_structured_data_with_gemini
  (clean_text profile_url : string) : M W (option dict) :=
  let prompt := extraction_prompt clean_text in
  try_then
    (py_print (Some ROBOT) "Using Gemini AI for structured extraction..." [] ;;
     r <- call (EvGenerate prompt) (generate_content env prompt) ;;
     response_text_of r)
    (extraction_handlers None clean_text)
    (fun bound =>
       match bound with
       | None => ret None
       | Some raw =>
           try_then
             (save "debug_gemini_response.txt" raw ;;
              py_print (Some FLOPPY_DISK)
                "Saved Gemini response to debug_gemini_response.txt" [])
             (extraction_handlers (Some raw) clean_text)
             (fun _ =>
                let cleaned := clean_response raw in
                try_then
                  (py_print (Some MEMO)
                     "Cleaned response (first 200 chars): "
                     [PStr (slice_to 200 cleaned)] ;;
                   print_parse_error cleaned)
                  (extraction_handlers (Some cleaned) clean_text)
                  (fun _ =>
                     let (response_text, parsed) := parse_reply cleaned in
                     try_then
                       (profile_data <- lift parsed ;;
                        d <- lift (finalize_record profile_data
                                     profile_url) ;;
                        print_summary d ;;
                        ret d)
                       (extraction_handlers (Some response_text) clean_text)
                       (fun d => ret (Some d))))
       end).

(** [extract_structured_data] *)
Definition extract_structured_data (clean_text profile_url : string)
  : M W dict :=
  let failed :=
    py_print (Some WARNING_SIGN) "Gemini extraction failed" [] ;;
    ret (failure_record profile_url (PStr "Gemini extraction failed")) in
  try_except
    (result <- extract_structured_data_with_gemini clean_text profile_url ;;
     match result with
     | Some d => if py_truthy (PDict d) then ret d else failed
     | None => failed
     end)
    (fun e =>
       py_print (Some CROSS_MARK) ("Extraction error: " ++ exn_msg e) [] ;;
       ret (failure_record profile_url (PStr (exn_msg e)))).

Definition NO_TEXT : string := "Failed to extract text from HTML".

(** [parse_profile] *)
Definition parse_profile (profile_url : string) : M W dict :=
  try_except
    (py_print (Some ROCKET) "Using Gemini AI for LLM-based extraction" [] ;;
     log (EvSleep 2000 2000) ;;
     py_print (Some PAGE) "Extracting page HTML..." [] ;;
     html_content <- get_page_html ;;
     clean_text <- html_to_clean_text html_content ;;
     match clean_text with
     | None => ret (failure_record profile_url (PStr NO_TEXT))
     | Some clean_text =>
         if String.eqb clean_text "" || (len clean_text <? 100)
         then ret (failure_record profile_url (PStr NO_TEXT))
         else
           save "debug_clean_text.txt" clean_text ;;
           py_print (Some FLOPPY_DISK)
             "Saved clean text to debug_clean_text.txt" [] ;;
           profile_data <- extract_structured_data clean_text profile_url ;;
           if negb (py_truthy (PDict profile_data))
              || negb (match dict_get profile_data "success" with
                       | Some v => py_truthy v
                       | None => false
                       end)
           then ret (failure_record profile_url
                       (match dict_get profile_data "error" with
                        | Some v => v
                        | None => PStr "Failed to extract structured data"
                        end))
           else
             py_print (Some CHECK_MARK) "Successfully parsed profile: "
               (reply_value profile_data "name") ;;
             ret profile_data
     end)
    (fun e =>
       py_print (Some CROSS_MARK) ("Error parsing profile: " ++ exn_msg e)
         [] ;;
       ret (failure_record profile_url (PStr (exn_msg e)))).

(** *** [scraper.py] *)

Local Open Scope run_scope.

(** [human_like_delay] *)
Definition human_like_delay (min_seconds max_seconds : Z) : M W unit :=
  log (EvSleep (1000 * min_seconds) (1000 * max_seconds)).

Definition SCROLL_INCREMENT : Z := 400.

(** The [while current_position < last_height] loop of [smooth_scroll];
    the pause is [random.uniform(0.8, 1.5)]. *)
Fixpoint scroll_to_bottom (fuel : nat) (current_position last_height : Z)
  : P W unit :=
  if current_position <? last_height then
    match fuel with
    | O => out_of_fuel
    | S fuel =>
        let current_position := current_position + SCROLL_INCREMENT in
        finite (call (EvScrollTo current_position)
                 (scroll_to env current_position)) ;;
        finite (log (EvSleep 800 1500)) ;;
        new_height <- finite (call EvScrollHeight (scroll_height env)) ;;
        let last_height :=
          if new_height >? last_height then new_height else last_height in
        scroll_to_bottom fuel current_position last_height
    end
  else finite (ret tt).

(** One pass of the [for scroll_pass in range(3)] loop. *)
Definition scroll_pass (fuel : nat) : P W unit :=
  last_height <- finite (call EvScrollHeight (scroll_height env)) ;;
  scroll_to_bottom fuel 0 last_height ;;
  finite (log (EvSleep 1000 1000)).

(** [smooth_scroll] *)
Definition smooth_scroll (fuel : nat) : P W unit :=
  ptry_except
    (finite (log (EvSleep 2000 2000)) ;;
     scroll_pass fuel ;;
     scroll_pass fuel ;;
     scroll_pass fuel ;;
     finite (call (EvScrollTo 0) (scroll_to env 0)) ;;
     finite (log (EvSleep 1000 1000)))
    (fun _ => finite (ret tt)).

Definition CAPTCHA : string := "CAPTCHA or authentication required".
Definition LOGIN_REDIRECT : string :=
  "Redirected to login - session may have expired".

(** [navigate_to_profile] *)
Definition navigate_to_profile (fuel : nat) (profile_url : string)
  : P W (bool * string) :=
  ptry_except
    (finite (call (EvGet profile_url) (driver_get env profile_url)) ;;
     finite (human_like_delay 4 6) ;;
     current_url <- finite (read (driver_current_url env)) ;;
     if contains "checkpoint" current_url || contains "authwall" current_url
     then finite (ret (false, CAPTCHA))
     else if contains "login" current_url
     then finite (ret (false, LOGIN_REDIRECT))
     else
       finite (step EvWaitHeading (wait_for_heading env)) ;;
       smooth_scroll fuel ;;
       finite (ret (true, "Success")))
    (fun e => finite (ret (false, exn_msg e))).

(** [extract_profile_data]: one URL.  The import and the construction of
    the parser are guarded by [except ImportError] only, and the prints
    stand outside every guard. *)
Definition extract_profile_data (fuel : nat) (profile_url : string)
  : P W dict :=
  nav <- navigate_to_profile fuel profile_url ;;
  let (success, message) := nav : bool * string in
  if negb success
  then finite
         (py_print (Some CROSS_MARK) ("Failed to navigate: " ++ message)
            [] ;;
          ret (failure_record profile_url (PStr message)))%py
  else
    finite
      (try_then
         (call EvImportParser (import_ai_parser env) ;;
          GeminiProfileParser)%py
         (fun e =>
            if is_ImportError e
            then (py_print (Some CROSS_MARK)
                    ("Failed to import AI parser: " ++ exn_msg e) [] ;;
                  ret (failure_record profile_url
                         (PStr ("AI parser import failed: " ++ exn_msg e))))%py
            else raise e)
         (fun _ =>
            (profile_data <- parse_profile profile_url ;;
             (if match dict_get profile_data "success" with
                 | Some v => py_truthy v
                 | None => false
                 end
              then py_print (Some CHECK_MARK)
                     "Successfully extracted data for: "
                     (reply_value profile_data "name")
              else py_print (Some CROSS_MARK) "Failed to extract data: "
                     (reply_value profile_data "error")) ;;
             ret profile_data)%py)).

(** A progress callback, when the caller supplies one. *)
Definition callback : Type := Z -> Z -> string -> M W unit.

(** The loop of [scrape_multiple_profiles], from index [idx]. *)
Fixpoint scrape_from (fuel : nat) (progress_callback : option callback)
  (total idx : Z) (profile_urls : list string) (results : list dict)
  : P W (list dict) :=
  match profile_urls with
  | [] => finite (ret results)
  | url :: rest =>
      finite (match progress_callback with
             | Some f => f idx total url
             | None => ret tt
             end) ;;
      profile_data <- extract_profile_data fuel url ;;
      let results := (results ++ [profile_data])%list in
      finite (if idx <? total then human_like_delay 6 10 else ret tt) ;;
      scrape_from fuel progress_callback total (idx + 1) rest results
  end.

(** [scrape_multiple_profiles] *)
Definition scrape_multiple_profiles (fuel : nat) (profile_urls : list string)
  (progress_callback : option callback) : P W (list dict) :=
  scrape_from fuel progress_callback (Z.of_nat (length profile_urls)) 1
    profile_urls [].

End Pipeline.

Arguments callback : clear implicits.

(** ** A reference JSON reader and a simulated environment

    [json.loads] belongs to the Python library.  The reader below follows
    the JSON grammar on the fragment without fractions, exponents,
    unicode escapes and the constants [NaN] and [Infinity], and reports a
    decode error elsewhere; the message of the error is not reproduced.
    It stands for [json.loads] in the concrete runs of this file. *)

Definition is_json_space (c : ascii) : bool :=
  let n := N_of_ascii c in ((n =? 32) || (n =? 9) || (n =? 10) || (n =? 13))%N.

Fixpoint skip_space (s : string) : string :=
  match s with
  | String c r => if is_json_space c then skip_space r else s
  | EmptyString => EmptyString
  end.

Definition unescape (c : ascii) : option ascii :=
  let n := N_of_ascii c in
  if (n =? 34)%N then Some DQUOTE
  else if (n =? 92)%N then Some "\"%char
  else if (n =? 47)%N then Some "/"%char
  else if (n =? 98)%N then Some "008"%char
  else if (n =? 102)%N then Some "012"%char
  else if (n =? 110)%N then Some LF
  else if (n =? 114)%N then Some "013"%char
  else if (n =? 116)%N then Some "009"%char
  else None.

(** The characters of a string literal after its opening quote, and the
    text after its closing quote. *)
Fixpoint read_string (escaped : bool) (s : string) : option (string * string) :=
  match s with
  | EmptyString => None
  | String c r =>
      if escaped then
        match unescape c, read_string false r with
        | Some c', Some (t, rest) => Some (String c' t, rest)
        | _, _ => None
        end
      else if Ascii.eqb c DQUOTE then Some (EmptyString, r)
      else if Ascii.eqb c "\"%char then read_string true r
      else if (N_of_ascii c <? 32)%N then None
      else match read_string false r with
           | Some (t, rest) => Some (String c t, rest)
           | None => None
           end
  end.

Definition digit_value (c : ascii) : option Z :=
  let n := N_of_ascii c in
  if ((48 <=? n) && (n <=? 57))%N then Some (Z.of_N n - 48) else None.

Fixpoint read_digits (acc : Z) (s : string) : Z * string :=
  match s with
  | String c r =>
      match digit_value c with
      | Some d => read_digits (10 * acc + d) r
      | None => (acc, s)
      end
  | EmptyString => (acc, s)
  end.

(** An integer literal: a zero, or digits that start with a non-zero. *)
Definition read_int (s : string) : option (Z * string) :=
  let (negative, body) :=
    match s with
    | String c r => if Ascii.eqb c "-"%char then (true, r) else (false, s)
    | EmptyString => (false, s)
    end in
  match body with
  | String c r =>
      match digit_value c with
      | Some 0 => Some (0, r)
      | Some d => let (n, rest) := read_digits d r in
                  Some (if negative then - n else n, rest)
      | None => None
      end
  | EmptyString => None
  end.

Definition after_prefix (p s : string) : option string :=
  if String.prefix p s
  then Some (String.substring (String.length p)
               (String.length s - String.length p) s)
  else None.

Fixpoint read_value (fuel : nat) (s : string) : option (pyval * string) :=
  match fuel with
  | O => None
  | S fuel =>
      match skip_space s with
      | EmptyString => None
      | String c r as t =>
          if Ascii.eqb c "{"%char then
            match skip_space r with
            | String c' r' =>
                if Ascii.eqb c' "}"%char then Some (PDict [], r')
                else read_members fuel r []
            | EmptyString => None
            end
          else if Ascii.eqb c "["%char then
            match skip_space r with
            | String c' r' =>
                if Ascii.eqb c' "]"%char then Some (PList [], r')
                else read_elements fuel r []
            | EmptyString => None
            end
          else if Ascii.eqb c DQUOTE then
            match read_string false r with
            | Some (v, rest) => Some (PStr v, rest)
            | None => None
            end
          else
            match after_prefix "null" t, after_prefix "true" t,
                  after_prefix "false" t with
            | Some rest, _, _ => Some (PNone, rest)
            | _, Some rest, _ => Some (PBool true, rest)
            | _, _, Some rest => Some (PBool false, rest)
            | _, _, _ =>
                match read_int t with
                | Some (n, rest) => Some (PInt n, rest)
                | None => None
                end
            end
      end
  end
with read_elements (fuel : nat) (s : string) (acc : list pyval)
  : option (pyval * string) :=
  match fuel with
  | O => None
  | S fuel =>
      match read_value fuel s with
      | Some (v, rest) =>
          match skip_space rest with
          | String c r =>
              if Ascii.eqb c ","%char then read_elements fuel r (v :: acc)
              else if Ascii.eqb c "]"%char
              then Some (PList (rev (v :: acc)), r)
              else None
          | EmptyString => None
          end
      | None => None
      end
  end
with read_members (fuel : nat) (s : string) (acc : dict)
  : option (pyval * string) :=
  match fuel with
  | O => None
  | S fuel =>
      match skip_space s with
      | String c r =>
          if Ascii.eqb c DQUOTE then
            match read_string false r with
            | Some (k, rest) =>
                match skip_space rest with
                | String c1 r1 =>
                    if Ascii.eqb c1 ":"%char then
                      match read_value fuel r1 with
                      | Some (v, rest1) =>
                          match skip_space rest1 with
                          | String c2 r2 =>
                              if Ascii.eqb c2 ","%char
                              then read_members fuel r2 (dict_set acc k v)
                              else if Ascii.eqb c2 "}"%char
                              then Some (PDict (dict_set acc k v), r2)
                              else None
                          | EmptyString => None
                          end
                      | None => None
                      end
                    else None
                | EmptyString => None
                end
            | None => None
            end
          else None
      | EmptyString => None
      end
  end.

Definition DECODE_ERROR : exn := Exn JSONDecodeError "invalid JSON text".

Definition json_loads_ref (text : string) : outcome pyval :=
  match read_value (2 * String.length text + 2) text with
  | Some (v, rest) =>
      match skip_space rest with
      | EmptyString => Ret v
      | _ => Raise DECODE_ERROR
      end
  | None => Raise DECODE_ERROR
  end.

(** A world that is the current URL.  The browser lands on [landing url],
    every page has the markup [page] and is 900 pixels high, the model
    replies [reply], the credential is [api_key], and the standard output
    is a UTF-8 stream.  The markup is taken
    without tags, for which the HTML parser wraps the text in a body and
    [get_text] returns it stripped; on empty markup there is no body and
    the extraction raises. *)
Definition sim_env (api_key : option string) (landing : string -> string)
  (page reply : string) : Caps string :=
  {| driver_get := fun url _ => (Ret tt, landing url);
     driver_current_url := fun w => Ret w;
     driver_page_source := fun _ => Ret page;
     wait_for_heading := fun w => w;
     scroll_height := fun w => (Ret 900, w);
     scroll_to := fun _ w => (Ret tt, w);
     import_ai_parser := fun w => (Ret tt, w);
     getenv_GEMINI_API_KEY := fun _ => api_key;
     genai_configure := fun _ w => (Ret tt, w);
     generate_content := fun _ w => (Ret (Response (Ret reply) [] ""), w);
     soup_get_text := fun html =>
       if String.eqb (strip html) ""
       then Raise (Exn OtherError
                     "'NoneType' object has no attribute 'get_text'")
       else Ret (strip html);
     json_loads := json_loads_ref;
     write_file := fun _ _ w => (Ret tt, w);
     format_exc := fun e => exn_msg e;
     stdout_pictographs := true;
     stdout_takes := fun _ => true;
     stdout_error := fun _ _ _ =>
       "'utf-8' codec can't encode character: surrogates not allowed" |}.

(** The message of the [charmap] codec on a text that opens with a
    pictograph; the warning sign is written with two code points. *)
Definition cp1252_error (symbol : pictograph) : string :=
  "'charmap' codec can't encode character"
  ++ match symbol with
     | CHECK_MARK => " '\u2705' in position 0"
     | CROSS_MARK => " '\u274c' in position 0"
     | WARNING_SIGN => "s in position 0-1"
     | PAGE => " '\U0001f4c4' in position 0"
     | FLOPPY_DISK => " '\U0001f4be' in position 0"
     | ROBOT => " '\U0001f916' in position 0"
     | ROCKET => " '\U0001f680' in position 0"
     | MEMO => " '\U0001f4dd' in position 0"
     end
  ++ ": character maps to <undefined>".

(** An environment on a standard output encoded in cp1252, the ANSI code
    page of Windows, which has none of the pictographs. *)
Definition cp1252_console {W : Type} (env : Caps W) : Caps W :=
  {| driver_get := driver_get env;
     driver_current_url := driver_current_url env;
     driver_page_source := driver_page_source env;
     wait_for_heading := wait_for_heading env;
     scroll_height := scroll_height env;
     scroll_to := scroll_to env;
     import_ai_parser := import_ai_parser env;
     getenv_GEMINI_API_KEY := getenv_GEMINI_API_KEY env;
     genai_configure := genai_configure env;
     generate_content := generate_content env;
     soup_get_text := soup_get_text env;
     json_loads := json_loads env;
     write_file := write_file env;
     format_exc := format_exc env;
     stdout_pictographs := false;
     stdout_takes := stdout_takes env;
     stdout_error := fun symbol text values =>
       match symbol with
       | Some p => cp1252_error p
       | None => stdout_error env symbol text values
       end |}.

Definition start : state string := State "about:blank" [].

Definition PROFILE_URL : string := "https://www.linkedin.com/in/jane-doe/".

(** A page of 115 characters of visible text on four lines. *)
Definition PROFILE_PAGE : string :=
  join NL ["Jane Doe";
           "Staff Software Engineer at Example Corporation";
           "Greater Springfield Area";
           "Builds distributed storage systems"].

Fixpoint repeat_string (n : nat) (s : string) : string :=
  match n with
  | O => EmptyString
  | S k => s ++ repeat_string k s
  end.

(** ** Vocabulary of the statements *)

(** A line the filter lets through. *)
Definition acceptable_line (line : string) : Prop :=
  isdigit line = false /\ 2 < len line /\ too_many_special line = false.

(** Lines hold no line feed. *)
Definition no_LF (s : string) : bool :=
  all_chars (fun c => negb (Ascii.eqb c LF)) s.

(** What a sequence field holds after the defaults, given what it held
    before: the value itself when it is truthy, the default otherwise. *)
Definition defaulted (before : option pyval) (default : pyval)
  (after : option pyval) : Prop :=
  match before with
  | None => after = Some default
  | Some v =>
      if py_truthy v
      then after = Some v /\ exists n, py_len v = Ret n /\ 0 < n
      else after = Some default
  end.

Definition SEQUENCE_FIELDS : list string :=
  ["experiences"; "educations"; "skills"].

(** The fields the Prompter writes itself. *)
Definition MANAGED_FIELDS : list string :=
  ["profile_url"; "success"; "error"; "experiences"; "educations"; "skills"].

Definition SCALAR_FIELDS : list string :=
  ["name"; "headline"; "location"; "about"; "current_position";
   "current_company"].

Definition placeholder (k : string) : pyval :=
  if String.eqb k "experiences" then EXPERIENCES_DEFAULT
  else if String.eqb k "educations" then EDUCATIONS_DEFAULT
  else SKILLS_DEFAULT.

(** Values that have a length, and values that can be sliced. *)
Definition sized (v : pyval) : bool :=
  match v with
  | PStr _ | PList _ | PDict _ => true
  | _ => false
  end.

Definition sliceable (v : pyval) : bool :=
  match v with
  | PStr _ | PList _ => true
  | _ => false
  end.

(** A sequence field the Prompter can take: absent, falsy, or a truthy
    value that has a length. *)
Definition sequence_ok (field : option pyval) : bool :=
  match field with
  | Some v => negb (py_truthy v) || sized v
  | None => true
  end.

(** The text of a reply that has one: [response.text], stripped, or the
    parts of the candidates joined when the accessor raises a
    [ValueError]. *)
Definition reply_text (r : response) : option string :=
  match resp_text r with
  | Ret t => Some (strip t)
  | Raise e =>
      if is_ValueError e then
        match parts_text_of (resp_candidates r) with
        | [] => None
        | parts_text => Some (strip (join NL parts_text))
        end
      else None
  end.

(** Is there a comma followed by white space and a closing brace or
    bracket? *)
Fixpoint has_trailing_comma (s : string) : bool :=
  match s with
  | EmptyString => false
  | String c r =>
      (Ascii.eqb c ","%char && closes_after_space r) || has_trailing_comma r
  end.

Section Records.

Context {W : Type} (env : Caps W).

(** A standard output that encodes every text the program prints, as a
    UTF-8 stream does on values without lone surrogates. *)
Definition prints_all : Prop :=
  stdout_pictographs env = true /\ forall v, stdout_takes env v = true.

(** A record whose summary the standard output prints: it has the
    pictographs, it encodes the name and the location, and the headline
    is absent or can be sliced to a value that it encodes. *)
Definition summary_printable (d : dict) : bool :=
  stdout_pictographs env
  && forallb (stdout_takes env) (reply_value d "name")
  && match dict_get d "headline" with
     | Some h => match py_slice_to 50 h with
                 | Ret v => stdout_takes env v
                 | Raise _ => false
                 end
     | None => true
     end
  && forallb (stdout_takes env) (reply_value d "location").


(** A record made from a reply of the hosted model: the reply had a
    text, the text, cleaned, was parsed to an object (at once or after
    the repair), the record was made from the object, and its summary
    was printed, for which its headline, if it has one, was sliced. *)
Definition from_model_reply (url : string) (d : dict) : Prop :=
  exists prompt w r w' raw t d0,
    generate_content env prompt w = (Ret r, w')
    /\ reply_text r = Some raw
    /\ parse_reply env (clean_response raw) = (t, Ret (PDict d0))
    /\ json_loads env t = Ret (PDict d0)
    /\ finalize_record (PDict d0) url = Ret d
    /\ summary_printable d = true
    /\ forall h, dict_get d "headline" = Some h -> sliceable h = true.

Definition is_failure (url : string) (d : dict) : Prop :=
  exists msg, d = failure_record url (PStr msg).

(** The parser is built when the import returns and the credential and
    the configuration are in order. *)
Definition configured : Prop :=
  (forall w, exists w', import_ai_parser env w = (Ret tt, w'))
  /\ (forall w, exists key,
         getenv_GEMINI_API_KEY env w = Some key
         /\ String.eqb key "" || String.eqb key KEY_PLACEHOLDER = false)
  /\ (forall key w, exists w', genai_configure env key w = (Ret tt, w')).

(** The fuel is enough for the scroll loops, from every state. *)
Definition scroll_settles (fuel : nat) : Prop :=
  forall s, smooth_scroll env fuel s <> None.

End Records.

(** ** Concrete inputs *)

(** Markup without tags: a line of 39998 letters, then a second line. *)
Definition LONG_MARKUP : string :=
  repeat_string (Z.to_nat 39998) "a" ++ NL ++ "1bc".

Definition CHECKPOINT_URL : string :=
  "https://www.linkedin.com/checkpoint/challenge/verify".

(** A reply that parses to an object without the sequence fields. *)
Definition NAME_ONLY_REPLY : string :=
  "{" ++ q "name" ++ ": " ++ q "Jane Doe" ++ "}".



(** Valid JSON whose one string holds a comma and a closing bracket. *)
Definition COMMA_BRACKET_TEXT : string := "[" ++ q ",]" ++ "]".

(** Valid JSON whose one string holds an apostrophe. *)
Definition APOSTROPHE_TEXT : string := "[" ++ q "it's" ++ "]".

(** A progress display that fails. *)
Definition failing_callback : callback string :=
  fun _ _ _ => raise (Exn OtherError "progress display is closed").

(** ** The scraper object and its session ([scraper.py]) *)

(** The two fields of a [LinkedInScraper]; [driver] tells whether the
    object holds a browser or [None]. *)
Record LinkedInScraper : Type := Scraper {
  driver : bool;
  is_logged_in : bool
}.

(** [LinkedInScraper.__init__] *)
Definition new_scraper : LinkedInScraper := Scraper false false.

(** Starting and quitting the browser: [uc.Chrome(options=options)] and
    [driver.quit()].  The trace holds the calls of the extraction
    pipeline; these two leave it as it is. *)
Record BrowserCaps (W : Type) : Type := {
  chrome_start : W -> outcome unit * W;
  driver_quit : W -> outcome unit * W
}.
Arguments chrome_start {W}.
Arguments driver_quit {W}.

Definition quiet {W A : Type} (f : W -> outcome A * W) : M W A :=
  fun s => let (o, w) := f (world s) in (o, State w (trace s)).

Definition LOGIN_URL : string := "https://www.linkedin.com/login".
Definition FEED_URL : string := "https://www.linkedin.com/feed/".

Definition NO_DRIVER (attribute : string) : exn :=
  Exn OtherError
    ("'NoneType' object has no attribute '" ++ attribute ++ "'").

Section Session.

Context {W : Type} (env : Caps W) (browser : BrowserCaps W).

(** [init_driver]: the object as it is after the call, also when the
    call raises. *)
Definition init_driver (self : LinkedInScraper) (s : state W)
  : outcome unit * LinkedInScraper * state W :=
  match quiet (chrome_start browser) s with
  | (Ret _, s') => (Ret tt, Scraper true (is_logged_in self), s')
  | (Raise e, s') => (Raise e, self, s')
  end.

(** [open_linkedin_for_login] *)
Definition open_linkedin_for_login (self : LinkedInScraper) (s : state W)
  : outcome bool * LinkedInScraper * state W :=
  let '(started, self1, s1) :=
    if negb (driver self) then init_driver self s else (Ret tt, self, s) in
  match started with
  | Raise e => (Raise e, self1, s1)
  | Ret _ =>
      match call (EvGet LOGIN_URL) (driver_get env LOGIN_URL) s1 with
      | (Ret _, s2) => (Ret true, self1, s2)
      | (Raise e, s2) => (Raise e, self1, s2)
      end
  end.

(** [check_login_status]: the answer and the object after the call. *)
Definition check_login_status (self : LinkedInScraper)
  : M W (bool * LinkedInScraper) :=
  let logged_in := Scraper (driver self) true in
  try_except
    (if negb (driver self) then raise (NO_DRIVER "current_url")
     else
       current_url <- read (driver_current_url env) ;;
       if contains "feed" current_url || contains "mynetwork" current_url
          || contains "in/" current_url
       then ret (true, logged_in)
       else
         call (EvGet FEED_URL) (driver_get env FEED_URL) ;;
         log (EvSleep 2000 2000) ;;
         current_url <- read (driver_current_url env) ;;
         if contains "feed" current_url then ret (true, logged_in)
         else ret (false, self))%py
    (fun _ => ret (false, self)).

(** [close]: the [quit] runs under a bare [except]. *)
Definition close (self : LinkedInScraper) : M W LinkedInScraper :=
  if driver self then
    fun s => let (_, s') := quiet (driver_quit browser) s in
             (Ret (Scraper false false), s')
  else ret self.

End Session.

(** ** The export and the URL list ([app.py]) *)

(** The items a [for] loop or a [join] draws from a value. *)
Definition py_iter (v : pyval) : outcome (list pyval) :=
  match v with
  | PList l => Ret l
  | PStr s => Ret (map (fun c => PStr (chr c)) (list_ascii_of_string s))
  | PDict d => Ret (map (fun kv => PStr (fst kv)) d)
  | _ => Raise (Exn TypeError
                  ("'" ++ py_type_name v ++ "' object is not iterable"))
  end.

Fixpoint map_outcome {A B : Type} (f : A -> outcome B) (l : list A)
  : outcome (list B) :=
  match l with
  | [] => Ret []
  | a :: r =>
      obind (f a) (fun b => obind (map_outcome f r) (fun bs => Ret (b :: bs)))
  end.

(** [x.get] on a value that is not a [dict]. *)
Definition NO_GET (v : pyval) : exn :=
  Exn OtherError ("'" ++ py_type_name v ++ "' object has no attribute 'get'").

(** [sep.join(v)]: the items must be strings. *)
Fixpoint join_items (i : nat) (items : list pyval) : outcome (list string) :=
  match items with
  | [] => Ret []
  | PStr s :: r => obind (join_items (S i) r) (fun ss => Ret (s :: ss))
  | v :: _ =>
      Raise (Exn TypeError
               ("sequence item " ++ NilZero.string_of_uint (Nat.to_uint i)
                ++ ": expected str instance, " ++ py_type_name v ++ " found"))
  end.

Definition py_join (sep : string) (v : pyval) : outcome string :=
  match py_iter v with
  | Ret items => obind (join_items 0 items) (fun ss => Ret (join sep ss))
  | Raise _ => Raise (Exn TypeError "can only join an iterable")
  end.

Section CsvExport.

(** The text an f-string puts for a value; on a [str] it is the string
    itself. *)
Variable str_of : pyval -> string.

Definition format_experience (exp : pyval) : outcome string :=
  match exp with
  | PDict e =>
      Ret (str_of (get_or e "title" NA) ++ " at "
           ++ str_of (get_or e "company" NA) ++ " ("
           ++ str_of (get_or e "duration" NA) ++ ")")
  | _ => Raise (NO_GET exp)
  end.

Definition format_education (edu : pyval) : outcome string :=
  match edu with
  | PDict e =>
      Ret (str_of (get_or e "school" NA) ++ " - "
           ++ str_of (get_or e "degree" NA) ++ " - "
           ++ str_of (get_or e "field" NA))
  | _ => Raise (NO_GET edu)
  end.

(** [" | ".join([format(x) for x in v])] when [v] is truthy, the empty
    string otherwise. *)
Definition flatten (format : pyval -> outcome string) (v : pyval)
  : outcome string :=
  if py_truthy v then
    obind (py_iter v) (fun items =>
    obind (map_outcome format items) (fun strs => Ret (join " | " strs)))
  else Ret "".

Definition error_row (result : dict) : dict :=
  [("Name", PStr "ERROR"); ("Headline", NA); ("Location", NA);
   ("About", get_or result "error" (PStr "Unknown error"));
   ("Current Position", NA); ("Current Company", NA); ("Experience", NA);
   ("Education", NA); ("Skills", NA);
   ("Profile URL", get_or result "profile_url" NA)].

(** One turn of the loop of [format_profile_data_for_csv]. *)
Definition format_row (result : dict) : outcome dict :=
  if py_truthy (get_or result "success" (PBool false)) then
    obind (flatten format_experience (get_or result "experiences" (PList [])))
      (fun experience_str =>
    obind (flatten format_education (get_or result "educations" (PList [])))
      (fun education_str =>
    obind (let skills_list := get_or result "skills" (PList []) in
           if py_truthy skills_list then py_join ", " skills_list
           else Ret "N/A")
      (fun skills_str =>
    Ret [("Name", get_or result "name" NA);
         ("Headline", get_or result "headline" NA);
         ("Location", get_or result "location" NA);
         ("About", get_or result "about" NA);
         ("Current Position", get_or result "current_position" NA);
         ("Current Company", get_or result "current_company" NA);
         ("Experience", PStr experience_str);
         ("Education", PStr education_str);
         ("Skills", PStr skills_str);
         ("Profile URL", get_or result "profile_url" NA)])))
  else Ret (error_row result).

(** [format_profile_data_for_csv] *)
Definition format_profile_data_for_csv (results : list dict)
  : outcome (list dict) :=
  map_outcome format_row results.

End CsvExport.

(** [[url.strip() for url in text.split(LF) if url.strip()]], the list
    of URLs the page takes from its text area. *)
Definition parse_profile_urls (profile_urls_input : string) : list string :=
  map strip
    (filter (fun url => negb (String.eqb (strip url) ""))
       (split_char LF profile_urls_input)).

(** ** Vocabulary of the further statements *)

(** No white space at the start, and none at the end. *)
Definition starts_clean (s : string) : bool :=
  match s with
  | EmptyString => true
  | String c _ => negb (py_isspace c)
  end.

Fixpoint ends_clean (s : string) : bool :=
  match s with
  | EmptyString => true
  | String c EmptyString => negb (py_isspace c)
  | String _ r => ends_clean r
  end.

(** A URL as the page keeps it: not empty, stripped, on one line. *)
Definition clean_url (url : string) : Prop :=
  url <> "" /\ strip url = url /\ no_LF url = true.

(** A line that carries none of the marks of embedded data. *)
Definition no_data_mark (line : string) : Prop :=
  contains "urn:li:" line = false
  /\ startswith "{" line = false /\ startswith "[" line = false.

Fixpoint last_char (s : string) : option ascii :=
  match s with
  | EmptyString => None
  | String c EmptyString => Some c
  | String _ r => last_char r
  end.

(** A stretch of trace that holds debug-file writes only. *)
Definition only_writes (events : list event) : Prop :=
  Forall (fun ev => exists file content, ev = EvWrite file content) events.

(** A computation that adds nothing but debug-file writes to the trace,
    and one that calls the hosted model at most [n] times. *)
Definition writes_only {W A : Type} (m : M W A) : Prop :=
  forall s, exists writes,
    trace (snd (m s)) = (writes ++ trace s)%list /\ only_writes writes.

Definition calls_at_most {W A : Type} (n : nat) (m : M W A) : Prop :=
  forall s, (llm_calls (trace (snd (m s))) <= llm_calls (trace s) + n)%nat.

(** Every height the page reports is at most [bound]. *)
Definition page_height_at_most {W : Type} (env : Caps W) (bound : Z) : Prop :=
  forall w, match fst (scroll_height env w) with
            | Ret h => h <= bound
            | Raise _ => True
            end.

(** A page that is always longer than the position scrolled to: [top]
    reads the last position off the world. *)
Definition page_keeps_growing {W : Type} (env : Caps W) (top : W -> Z)
  : Prop :=
  (forall position w,
      exists w', scroll_to env position w = (Ret tt, w')
                 /\ top w' = position)
  /\ (forall w,
         exists h w', scroll_height env w = (Ret h, w')
                      /\ top w' = top w /\ top w < h /\ 0 < h).

(** The world is the position scrolled to; the page is always 1000
    pixels longer. *)
Definition endless_env : Caps Z :=
  {| driver_get := fun _ w => (Ret tt, w);
     driver_current_url := fun _ => Ret PROFILE_URL;
     driver_page_source := fun _ => Ret PROFILE_PAGE;
     wait_for_heading := fun w => w;
     scroll_height := fun w => (Ret (Z.max w 0 + 1000), w);
     scroll_to := fun position _ => (Ret tt, position);
     import_ai_parser := fun w => (Ret tt, w);
     getenv_GEMINI_API_KEY := fun _ => Some "key";
     genai_configure := fun _ w => (Ret tt, w);
     generate_content := fun _ w =>
       (Ret (Response (Ret NAME_ONLY_REPLY) [] ""), w);
     soup_get_text := fun html => Ret (strip html);
     json_loads := json_loads_ref;
     write_file := fun _ _ w => (Ret tt, w);
     format_exc := fun e => exn_msg e;
     stdout_pictographs := true;
     stdout_takes := fun _ => true;
     stdout_error := fun _ _ _ => "" |}.

(** A batch without callback, as a chain of runs of [extract_profile_data]
    with the pause of 6 to 10 seconds between two of them and none after
    the last. *)
Inductive paced_run {W : Type} (env : Caps W) (fuel : nat)
  : list string -> state W -> list dict -> state W -> Prop :=
| paced_none (s : state W) : paced_run env fuel [] s [] s
| paced_last (url : string) (s : state W) (d : dict) (s' : state W) :
    extract_profile_data env fuel url s = Some (Ret d, s') ->
    paced_run env fuel [url] s [d] s'
| paced_next (url url' : string) (rest : list string) (s : state W)
    (d : dict) (s1 : state W) (ds : list dict) (s' : state W) :
    extract_profile_data env fuel url s = Some (Ret d, s1) ->
    paced_run env fuel (url' :: rest)
      (State (world s1) (EvSleep 6000 10000 :: trace s1)) ds s' ->
    paced_run env fuel (url :: url' :: rest) s (d :: ds) s'.

(** A parsed reply from which [finalize_record] makes a record. *)
Definition acceptable_reply (d0 : dict) : bool :=
  sequence_ok (dict_get d0 "experiences")
  && sequence_ok (dict_get d0 "educations")
  && sequence_ok (dict_get d0 "skills").

(** The row the export writes for a failure record. *)
Definition failure_row (profile_url message : string) : dict :=
  [("Name", PStr "ERROR"); ("Headline", NA); ("Location", NA);
   ("About", PStr message); ("Current Position", NA);
   ("Current Company", NA); ("Experience", NA); ("Education", NA);
   ("Skills", NA); ("Profile URL", PStr profile_url)].

Definition is_dict (v : pyval) : bool :=
  match v with
  | PDict _ => true
  | _ => false
  end.

(** An environment in which no file can be written. *)
Definition read_only_env : Caps string :=
  {| driver_get := fun _ w => (Ret tt, w);
     driver_current_url := fun w => Ret w;
     driver_page_source := fun _ => Ret PROFILE_PAGE;
     wait_for_heading := fun w => w;
     scroll_height := fun w => (Ret 900, w);
     scroll_to := fun _ w => (Ret tt, w);
     import_ai_parser := fun w => (Ret tt, w);
     getenv_GEMINI_API_KEY := fun _ => Some "key";
     genai_configure := fun _ w => (Ret tt, w);
     generate_content := fun _ w =>
       (Ret (Response (Ret NAME_ONLY_REPLY) [] ""), w);
     soup_get_text := fun html => Ret (strip html);
     json_loads := json_loads_ref;
     write_file := fun _ _ w =>
       (Raise (Exn OtherError "[Errno 13] Permission denied"), w);
     format_exc := fun e => exn_msg e;
     stdout_pictographs := true;
     stdout_takes := fun _ => true;
     stdout_error := fun _ _ _ => "" |}.

(** The f-string text of a string; other values are not printed in the
    concrete runs. *)
Definition sim_str_of (v : pyval) : string :=
  match v with
  | PStr s => s
  | _ => "?"
  end.

(** * Properties *)

(** ** The Normalizer *)

Section TextFacts.

Lemma take_length (n : nat) (s : string) : (String.length (take n s) <= n)%nat.
Proof.
  revert s; induction n as [|n IH]; intros [|c r]; simpl; try lia.
  specialize (IH r); lia.
Qed.

Lemma limit_text_bound (joined : string) : len (limit_text joined) <= MAX_CLEAN.
Proof.
  unfold limit_text.
  destruct (len joined >? MAX_CLEAN) eqn:E.
  - unfold slice_to, len.
    pose proof (take_length (Z.to_nat MAX_CLEAN) joined) as H.
    assert (0 <= MAX_CLEAN) by (unfold MAX_CLEAN; lia).
    lia.
  - lia.
Qed.

Lemma limit_text_short (joined : string) :
  len joined <= MAX_CLEAN -> limit_text joined = joined.
Proof.
  intros H. unfold limit_text.
  destruct (len joined >? MAX_CLEAN) eqn:E; [lia | reflexivity].
Qed.

Lemma skip_line_false (line : string) :
  skip_line line = false -> acceptable_line line.
Proof.
  unfold skip_line, acceptable_line.
  destruct (String.eqb line ""); [discriminate|].
  destruct (isdigit line); [discriminate|].
  destruct (len line <=? 2) eqn:E; [discriminate|].
  destruct (startswith "{" line || startswith "[" line
            || contains "urn:li:" line); [discriminate|].
  destruct (too_many_special line); [discriminate|].
  intros _. repeat split. lia.
Qed.

Lemma clean_lines_acceptable (text : string) :
  Forall acceptable_line (clean_lines text).
Proof.
  apply Forall_forall. intros l Hl.
  apply filter_In in Hl. destruct Hl as [_ Hl].
  apply skip_line_false. destruct (skip_line l); [discriminate | reflexivity].
Qed.

Lemma split_char_no_LF (s : string) :
  split_char LF s <> [] /\ Forall (fun p => no_LF p = true) (split_char LF s).
Proof.
  induction s as [|c r [Hne IH]]; simpl.
  - split; [discriminate | repeat constructor].
  - destruct (Ascii.eqb c LF) eqn:E.
    + split; [discriminate | constructor; [reflexivity | exact IH]].
    + destruct (split_char LF r) as [|h t]; [contradiction|].
      inversion IH; subst.
      split; [discriminate|].
      constructor; [|assumption].
      unfold no_LF in *; simpl. rewrite E. simpl. assumption.
Qed.

Lemma lstrip_no_LF (s : string) : no_LF s = true -> no_LF (lstrip s) = true.
Proof.
  unfold no_LF. induction s as [|c r IH]; simpl; [reflexivity|].
  intros H. apply andb_true_iff in H. destruct H as [Hc Hr].
  destruct (py_isspace c); [auto|]. simpl. rewrite Hc. exact Hr.
Qed.

Lemma rstrip_no_LF (s : string) : no_LF s = true -> no_LF (rstrip s) = true.
Proof.
  unfold no_LF. induction s as [|c r IH]; simpl; [reflexivity|].
  intros H. apply andb_true_iff in H. destruct H as [Hc Hr].
  specialize (IH Hr).
  destruct (rstrip r) as [|c' r'].
  - destruct (py_isspace c); simpl; [reflexivity|]. rewrite Hc. reflexivity.
  - simpl in *. rewrite Hc. exact IH.
Qed.

Lemma clean_lines_no_LF (text : string) :
  Forall (fun l => no_LF l = true) (clean_lines text).
Proof.
  apply Forall_forall. intros l Hl.
  apply filter_In in Hl. destruct Hl as [Hl _].
  apply in_map_iff in Hl. destruct Hl as [p [<- Hp]].
  destruct (split_char_no_LF text) as [_ H].
  rewrite Forall_forall in H.
  apply rstrip_no_LF, lstrip_no_LF, H, Hp.
Qed.

Lemma split_char_app_no_LF (l rest : string) :
  no_LF l = true ->
  split_char LF (l ++ String LF rest) = l :: split_char LF rest.
Proof.
  unfold no_LF. induction l as [|c r IH]; simpl; intros H.
  - reflexivity.
  - apply andb_true_iff in H. destruct H as [Hc Hr].
    destruct (Ascii.eqb c LF); [discriminate|].
    rewrite (IH Hr). reflexivity.
Qed.

Lemma split_char_whole (l : string) :
  no_LF l = true -> split_char LF l = [l].
Proof.
  unfold no_LF. induction l as [|c r IH]; simpl; intros H; [reflexivity|].
  apply andb_true_iff in H. destruct H as [Hc Hr].
  destruct (Ascii.eqb c LF); [discriminate|].
  rewrite (IH Hr). reflexivity.
Qed.

(** Splitting the joined text gives the lines back. *)
Lemma split_char_join (l : string) (ls : list string) :
  Forall (fun x => no_LF x = true) (l :: ls) ->
  split_char LF (join NL (l :: ls)) = l :: ls.
Proof.
  revert l. induction ls as [|l' ls IH]; intros l H; inversion H; subst.
  - simpl. apply split_char_whole; assumption.
  - change (join NL (l :: l' :: ls))
      with (l ++ String LF (join NL (l' :: ls))).
    rewrite split_char_app_no_LF by assumption.
    rewrite IH by assumption. reflexivity.
Qed.

(** Cutting a text keeps its lines, except that the last line of the cut
    may be a shortened one. *)
Lemma split_char_take (n : nat) (s : string) :
  exists k, removelast (split_char LF (take n s))
            = firstn k (split_char LF s).
Proof.
  revert n. induction s as [|c r IH]; intros n.
  - exists 0%nat. destruct n; reflexivity.
  - destruct n as [|n].
    + exists 0%nat. reflexivity.
    + destruct (IH n) as [k Hk]. simpl.
      destruct (split_char_no_LF (take n r)) as [Hne _].
      destruct (split_char_no_LF r) as [Hne' _].
      destruct (Ascii.eqb c LF).
      * exists (S k).
        destruct (split_char LF (take n r)) as [|h t] eqn:E; [contradiction|].
        change (removelast (EmptyString :: h :: t))
          with (EmptyString :: removelast (h :: t)).
        rewrite Hk. reflexivity.
      * destruct (split_char LF (take n r)) as [|h t] eqn:E; [contradiction|].
        destruct (split_char LF r) as [|h' t'] eqn:E'; [contradiction|].
        destruct t as [|h2 t2].
        -- exists 0%nat. reflexivity.
        -- change (removelast (String c h :: h2 :: t2))
             with (String c h :: removelast (h2 :: t2)).
           change (removelast (h :: h2 :: t2))
             with (h :: removelast (h2 :: t2)) in Hk.
           destruct k as [|k]; [discriminate|].
           cbn [firstn] in Hk. injection Hk as -> Hk.
           exists (S k). cbn [firstn]. f_equal. exact Hk.
Qed.

Lemma In_firstn {A : Type} (k : nat) (l : list A) (x : A) :
  In x (firstn k l) -> In x l.
Proof.
  revert l; induction k as [|k IH]; intros [|a l]; simpl; try tauto.
  intros [H|H]; [left; assumption | right; apply IH; assumption].
Qed.

(** Every line of the cut text but the last is a line of the filter. *)
Lemma limit_text_lines (lines : list string) :
  Forall (fun l => no_LF l = true) lines ->
  forall l, In l (removelast (split_char LF (limit_text (join NL lines)))) ->
            In l lines.
Proof.
  intros Hno l Hin.
  destruct lines as [|l0 ls].
  - exfalso. revert Hin. vm_compute. tauto.
  - unfold limit_text in Hin.
    destruct (len (join NL (l0 :: ls)) >? MAX_CLEAN).
    + unfold slice_to in Hin.
      destruct (split_char_take (Z.to_nat MAX_CLEAN) (join NL (l0 :: ls)))
        as [k Hk].
      rewrite Hk in Hin. apply In_firstn in Hin.
      rewrite split_char_join in Hin by assumption. exact Hin.
    + rewrite split_char_join in Hin by assumption.
      revert Hin. generalize (l0 :: ls). intros xs.
      induction xs as [|a [|b xs] IH]; simpl; tauto.
Qed.

End TextFacts.

(** ** Dictionaries and the record *)

Lemma dict_get_set (d : dict) (k k' : string) (v : pyval) :
  dict_get (dict_set d k v) k'
  = if String.eqb k k' then Some v else dict_get d k'.
Proof.
  induction d as [|[k1 v1] r IH]; simpl.
  - reflexivity.
  - destruct (String.eqb_spec k1 k) as [->|Hne]; simpl.
    + destruct (String.eqb k k'); reflexivity.
    + rewrite IH.
      destruct (String.eqb_spec k1 k') as [->|Hne'].
      * destruct (String.eqb_spec k k') as [->|_]; [contradiction|reflexivity].
      * reflexivity.
Qed.

Lemma py_len_truthy (v : pyval) (n : Z) :
  py_truthy v = true -> py_len v = Ret n -> 0 < n.
Proof.
  destruct v as [| | | |s|l|d]; simpl; try discriminate; intros Ht Hn;
    injection Hn as <-.
  - destruct s; [discriminate|]. unfold len; simpl String.length. lia.
  - destruct l; [discriminate|]. simpl length. lia.
  - destruct d; [discriminate|]. simpl length. lia.
Qed.

Lemma set_default_if_empty_spec (k : string) (default : pyval) (d d' : dict) :
  set_default_if_empty k default d = Ret d' ->
  defaulted (dict_get d k) default (dict_get d' k)
  /\ forall k', String.eqb k k' = false -> dict_get d' k' = dict_get d k'.
Proof.
  unfold set_default_if_empty, defaulted.
  destruct (dict_get d k) as [v|] eqn:Hget.
  - destruct (py_truthy v) eqn:Ht; simpl.
    + destruct (py_len v) as [n|e] eqn:Hn; [|discriminate].
      pose proof (py_len_truthy v n Ht Hn) as Hpos.
      destruct (n =? 0) eqn:E; [lia|].
      intros H; injection H as <-. split; [|reflexivity].
      split; [assumption | exists n; split; [reflexivity | assumption]].
    + intros H; injection H as <-. rewrite dict_get_set, String.eqb_refl.
      split; [reflexivity|]. intros k' Hk. rewrite dict_get_set, Hk.
      reflexivity.
  - intros H; injection H as <-. rewrite dict_get_set, String.eqb_refl.
    split; [reflexivity|]. intros k' Hk. rewrite dict_get_set, Hk.
    reflexivity.
Qed.

Lemma finalize_record_dict (parsed : pyval) (url : string) (d : dict) :
  finalize_record parsed url = Ret d -> exists d0, parsed = PDict d0.
Proof.
  destruct parsed; simpl; try discriminate. intros _. eexists; reflexivity.
Qed.

(** The record that [finalize_record] returns: the three attached fields
    and the three sequence fields. *)
Lemma finalize_record_spec (d0 : dict) (url : string) (d : dict) :
  finalize_record (PDict d0) url = Ret d ->
  dict_get d "profile_url" = Some (PStr url)
  /\ dict_get d "success" = Some (PBool true)
  /\ dict_get d "error" = Some PNone
  /\ (forall k, In k SEQUENCE_FIELDS ->
                defaulted (dict_get d0 k) (placeholder k) (dict_get d k))
  /\ (forall k, ~ In k MANAGED_FIELDS -> dict_get d k = dict_get d0 k).
Proof.
  unfold finalize_record, obind.
  set (d3 := dict_set (dict_set (dict_set d0 "profile_url" (PStr url))
                         "success" (PBool true)) "error" PNone).
  destruct (set_default_if_empty "experiences" EXPERIENCES_DEFAULT d3)
    as [d4|] eqn:E4; [|discriminate].
  destruct (set_default_if_empty "educations" EDUCATIONS_DEFAULT d4)
    as [d5|] eqn:E5; [|discriminate].
  destruct (set_default_if_empty "skills" SKILLS_DEFAULT d5)
    as [d6|] eqn:E6; [|discriminate].
  intros H.
  assert (d6 = d) as ->.
  { repeat match type of H with
           | match ?x with _ => _ end = _ => destruct x; try discriminate
           end.
    injection H as <-; reflexivity. }
  clear H.
  apply set_default_if_empty_spec in E4, E5, E6.
  destruct E4 as [F4 O4], E5 as [F5 O5], E6 as [F6 O6].
  assert (G3 : forall k, dict_get d3 k
                         = if String.eqb "error" k then Some PNone
                           else if String.eqb "success" k then Some (PBool true)
                           else if String.eqb "profile_url" k
                                then Some (PStr url)
                           else dict_get d0 k).
  { intros k. unfold d3. rewrite !dict_get_set. reflexivity. }
  repeat split.
  - rewrite O6, O5, O4, G3 by reflexivity. reflexivity.
  - rewrite O6, O5, O4, G3 by reflexivity. reflexivity.
  - rewrite O6, O5, O4, G3 by reflexivity. reflexivity.
  - intros k [<-|[<-|[<-|[]]]].
    + rewrite O6, O5 by reflexivity. rewrite G3 in F4. exact F4.
    + rewrite O6 by reflexivity.
      rewrite O4, G3 in F5 by reflexivity. exact F5.
    + rewrite O5, O4, G3 in F6 by reflexivity. exact F6.
  - intros k Hk. unfold MANAGED_FIELDS in Hk. simpl in Hk.
    assert (forall a, a <> k -> String.eqb a k = false) as Hne
      by (intros a Ha; apply String.eqb_neq; exact Ha).
    rewrite O6, O5, O4, G3 by (apply Hne; tauto).
    rewrite !Hne by tauto. reflexivity.
Qed.

Lemma defaulted_non_empty (before after : option pyval) (default : pyval) :
  (exists n, py_len default = Ret n /\ 0 < n) ->
  defaulted before default after ->
  exists v n, after = Some v /\ py_len v = Ret n /\ 0 < n.
Proof.
  intros [m [Hm Hpos]] H. unfold defaulted in H.
  destruct before as [v|].
  - destruct (py_truthy v).
    + destruct H as [-> [n [Hn Hn']]]. exists v, n. tauto.
    + subst. exists default, m. tauto.
  - subst. exists default, m. tauto.
Qed.

Lemma placeholder_non_empty (k : string) :
  exists n, py_len (placeholder k) = Ret n /\ 0 < n.
Proof.
  unfold placeholder.
  destruct (String.eqb k "experiences");
    [|destruct (String.eqb k "educations")];
    exists 1; split; (reflexivity || lia).
Qed.

Lemma py_len_sized (v : pyval) : sized v = true -> exists n, py_len v = Ret n.
Proof. destruct v; simpl; try discriminate; intros _; eexists; reflexivity. Qed.

Lemma py_len_unsized (v : pyval) :
  sized v = false -> exists msg, py_len v = Raise (Exn TypeError msg).
Proof. destruct v; simpl; try discriminate; intros _; eexists; reflexivity. Qed.

Lemma set_default_ok (k : string) (default : pyval) (d : dict) :
  sized default = true ->
  sequence_ok (dict_get d k) = true ->
  exists d', set_default_if_empty k default d = Ret d'
             /\ (forall k', String.eqb k k' = false ->
                            dict_get d' k' = dict_get d k')
             /\ exists v, dict_get d' k = Some v /\ sized v = true.
Proof.
  intros Hdef. unfold sequence_ok, set_default_if_empty.
  assert (Hset : exists d', Ret (dict_set d k default) = Ret d'
             /\ (forall k', String.eqb k k' = false ->
                            dict_get d' k' = dict_get d k')
             /\ exists v, dict_get d' k = Some v /\ sized v = true).
  { eexists. split; [reflexivity|]. split.
    - intros k' Hk. rewrite dict_get_set, Hk. reflexivity.
    - exists default. rewrite dict_get_set, String.eqb_refl. tauto. }
  destruct (dict_get d k) as [v|] eqn:Hget; [|intros _; exact Hset].
  destruct (py_truthy v) eqn:Ht; simpl; [|intros _; exact Hset].
  intros Hs. destruct (py_len_sized v Hs) as [n Hn]. rewrite Hn.
  pose proof (py_len_truthy v n Ht Hn) as Hpos.
  replace (n =? 0) with false by lia.
  exists d. split; [reflexivity|]. split; [reflexivity|].
  exists v. tauto.
Qed.

Lemma set_default_bad (k : string) (default : pyval) (d : dict) :
  sequence_ok (dict_get d k) = false ->
  exists msg, set_default_if_empty k default d = Raise (Exn TypeError msg).
Proof.
  unfold sequence_ok, set_default_if_empty.
  destruct (dict_get d k) as [v|]; [|discriminate].
  destruct (py_truthy v); simpl; [|discriminate].
  intros Hs. destruct (py_len_unsized v Hs) as [msg ->].
  exists msg. reflexivity.
Qed.

(** The values [finalize_record] takes: an object whose sequence fields
    are absent, falsy, or have a length. *)
Lemma finalize_record_returns (d0 : dict) (url : string) :
  (forall k, In k SEQUENCE_FIELDS -> sequence_ok (dict_get d0 k) = true) ->
  exists d, finalize_record (PDict d0) url = Ret d.
Proof.
  intros Hok. unfold finalize_record, obind.
  set (d3 := dict_set (dict_set (dict_set d0 "profile_url" (PStr url))
                         "success" (PBool true)) "error" PNone).
  assert (G3 : forall k, String.eqb "error" k = false ->
                         String.eqb "success" k = false ->
                         String.eqb "profile_url" k = false ->
                         dict_get d3 k = dict_get d0 k).
  { intros k H1 H2 H3. unfold d3. rewrite !dict_get_set, H1, H2, H3.
    reflexivity. }
  assert (S4 : sequence_ok (dict_get d3 "experiences") = true)
    by (rewrite G3 by reflexivity; apply Hok; simpl; tauto).
  destruct (set_default_ok _ EXPERIENCES_DEFAULT _ eq_refl S4)
    as [d4 [-> [O4 _]]].
  assert (S5 : sequence_ok (dict_get d4 "educations") = true)
    by (rewrite O4, G3 by reflexivity; apply Hok; simpl; tauto).
  destruct (set_default_ok _ EDUCATIONS_DEFAULT _ eq_refl S5)
    as [d5 [-> [O5 _]]].
  assert (S6 : sequence_ok (dict_get d5 "skills") = true)
    by (rewrite O5, O4, G3 by reflexivity; apply Hok; simpl; tauto).
  destruct (set_default_ok _ SKILLS_DEFAULT _ eq_refl S6)
    as [d6 [-> _]].
  exists d6. reflexivity.
Qed.

Lemma finalize_record_raises (d0 : dict) (url : string) (k : string) :
  In k SEQUENCE_FIELDS -> sequence_ok (dict_get d0 k) = false ->
  exists msg, finalize_record (PDict d0) url = Raise (Exn TypeError msg).
Proof.
  intros Hk Hbad. unfold finalize_record, obind.
  set (d3 := dict_set (dict_set (dict_set d0 "profile_url" (PStr url))
                         "success" (PBool true)) "error" PNone).
  assert (G3 : forall k, String.eqb "error" k = false ->
                         String.eqb "success" k = false ->
                         String.eqb "profile_url" k = false ->
                         dict_get d3 k = dict_get d0 k).
  { intros k' H1 H2 H3. unfold d3. rewrite !dict_get_set, H1, H2, H3.
    reflexivity. }
  destruct (sequence_ok (dict_get d3 "experiences")) eqn:S4.
  2:{ destruct (set_default_bad _ EXPERIENCES_DEFAULT _ S4) as [msg ->].
      exists msg. reflexivity. }
  destruct (set_default_ok _ EXPERIENCES_DEFAULT _ eq_refl S4)
    as [d4 [-> [O4 _]]].
  destruct (sequence_ok (dict_get d4 "educations")) eqn:S5.
  2:{ destruct (set_default_bad _ EDUCATIONS_DEFAULT _ S5) as [msg ->].
      exists msg. reflexivity. }
  destruct (set_default_ok _ EDUCATIONS_DEFAULT _ eq_refl S5)
    as [d5 [-> [O5 _]]].
  destruct (sequence_ok (dict_get d5 "skills")) eqn:S6.
  2:{ destruct (set_default_bad _ SKILLS_DEFAULT _ S6) as [msg ->].
      exists msg. reflexivity. }
  exfalso.
  rewrite G3 in S4 by reflexivity.
  rewrite O4, G3 in S5 by reflexivity.
  rewrite O5, O4, G3 in S6 by reflexivity.
  simpl in Hk. destruct Hk as [<-|[<-|[<-|[]]]]; congruence.
Qed.

(** After [finalize_record] the three sequence fields are there and have
    a positive length. *)
Lemma finalize_record_lengths (d0 : dict) (url : string) (d : dict)
  (k : string) :
  finalize_record (PDict d0) url = Ret d -> In k SEQUENCE_FIELDS ->
  exists v n, dict_get d k = Some v /\ py_len v = Ret n /\ 0 < n.
Proof.
  intros Hf Hk.
  destruct (finalize_record_spec _ _ _ Hf) as [_ [_ [_ [Hseq _]]]].
  exact (defaulted_non_empty _ _ _ (placeholder_non_empty k) (Hseq k Hk)).
Qed.

(** ** The pipeline *)

Ltac unfold_monad :=
  unfold bind, try_then, try_except, call, read, lift, ret, raise, log,
    step in *.

(** The prints of a goal, on an output known to have the pictographs or
    known not to. *)
Ltac print_on Hp := unfold py_print; rewrite ?Hp; cbn [andb forallb].

Section PipelineFacts.

Context {W : Type} (env : Caps W).


(** *** Printing *)

Lemma py_print_state (symbol : option pictograph) (text : string)
  (values : list pyval) (s : state W) :
  snd (py_print env symbol text values s) = s.
Proof.
  unfold py_print.
  destruct (match symbol with
            | Some _ => stdout_pictographs env
            | None => true
            end && forallb (stdout_takes env) values); reflexivity.
Qed.

Lemma py_print_symbol (p : pictograph) (text : string) :
  stdout_pictographs env = true -> py_print env (Some p) text [] = ret tt.
Proof. intros H. unfold py_print. rewrite H. reflexivity. Qed.

Lemma py_print_refused (p : pictograph) (text : string)
  (values : list pyval) :
  stdout_pictographs env = false ->
  py_print env (Some p) text values
  = raise (Exn UnicodeEncodeError
             (stdout_error env (Some p) text values)).
Proof. intros H. unfold py_print. rewrite H. reflexivity. Qed.

Lemma py_print_all (symbol : option pictograph) (text : string)
  (values : list pyval) :
  prints_all env -> py_print env symbol text values = ret tt.
Proof.
  intros [Hp Ht]. unfold py_print.
  assert (forallb (stdout_takes env) values = true) as ->
    by (apply forallb_forall; intros v _; apply Ht).
  destruct symbol; [rewrite Hp|]; reflexivity.
Qed.

Lemma save_calls (file content : string) (s : state W) :
  llm_calls (trace (snd (save env file content s))) = llm_calls (trace s).
Proof.
  unfold save, call. destruct (write_file env file content (world s)).
  reflexivity.
Qed.

(** *** The Normalizer *)

(** On an output without the pictographs, the first print of the
    Normalizer raises and so does the print of its handler. *)
Lemma html_to_clean_text_refused (html : string) (s : state W) :
  stdout_pictographs env = false ->
  exists msg,
    html_to_clean_text env html s = (Raise (Exn UnicodeEncodeError msg), s).
Proof.
  intros Hp. unfold html_to_clean_text. print_on Hp. unfold_monad.
  eexists. reflexivity.
Qed.

Lemma html_to_clean_text_cases (html : string) (s : state W) :
  stdout_pictographs env = true ->
  exists r s',
    html_to_clean_text env html s = (Ret r, s')
    /\ llm_calls (trace s') = llm_calls (trace s)
    /\ match r with
       | None => True
       | Some out => exists text, soup_get_text env html = Ret text
                                  /\ out = clean_text_of text
       end.
Proof.
  intros Hp. unfold html_to_clean_text. print_on Hp. unfold_monad.
  destruct (soup_get_text env html) as [text|e] eqn:Et.
  - pose proof (save_calls "debug_clean_preview.txt"
                  (slice_to 3000 (clean_text_of text)) s) as Hc.
    unfold clean_text_of in Hc.
    destruct (len (join NL (clean_lines text)) >? MAX_CLEAN).
    all: destruct (save env "debug_clean_preview.txt"
                     (slice_to 3000 (limit_text (join NL (clean_lines text))))
                     s) as [[[]|e] s1]; simpl in Hc.
    all: try (exists (Some (clean_text_of text)), s1;
              repeat split; [assumption | exists text; split; reflexivity]).
    all: exists None, s1; repeat split; assumption.
  - exists None, s. repeat split.
Qed.

(** The Normalizer returns only on an output that has the pictographs. *)
Lemma html_to_clean_text_returns (html : string) (s : state W)
  (r : option string) (s' : state W) :
  html_to_clean_text env html s = (Ret r, s') ->
  stdout_pictographs env = true.
Proof.
  intros H. destruct (stdout_pictographs env) eqn:Hp; [reflexivity|].
  destruct (html_to_clean_text_refused html s Hp) as [msg E].
  rewrite E in H. discriminate.
Qed.

(** The text the Normalizer returns. *)
Lemma html_to_clean_text_value (html : string) (s : state W) (out : string) :
  fst (html_to_clean_text env html s) = Ret (Some out) ->
  exists text, soup_get_text env html = Ret text /\ out = clean_text_of text.
Proof.
  intros H. destruct (html_to_clean_text env html s) as [o s0] eqn:E.
  simpl in H. subst o.
  pose proof (html_to_clean_text_returns _ _ _ _ E) as Hp.
  destruct (html_to_clean_text_cases html s Hp) as [r [s' [E' [_ Hr]]]].
  rewrite E in E'. injection E' as <- <-. exact Hr.
Qed.

(** *** The Prompter *)

Lemma extraction_handlers_none (bound : option string) (clean_text : string)
  (e : exn) (s : state W) (d : dict) (s' : state W) :
  extraction_handlers env bound clean_text e s <> (Ret (Some d), s').
Proof.
  unfold extraction_handlers, py_print. unfold_monad.
  destruct (stdout_pictographs env); cbn [andb forallb];
    destruct (is_JSONDecodeError e); try discriminate.
  - destruct bound as [t|]; [|discriminate].
    destruct (stdout_takes env (PStr t)); cbn [andb]; [|discriminate].
    destruct (save env _ _ s) as [[[]|e'] s1]; discriminate.
  - destruct (save env _ _ s) as [[[]|e'] s1]; discriminate.
Qed.

Lemma parse_reply_ret (t t' : string) (v : pyval) :
  parse_reply env t = (t', Ret v) -> json_loads env t' = Ret v.
Proof.
  unfold parse_reply.
  destruct (json_loads env t) as [v0|e] eqn:E.
  - intros H; injection H as <- <-. assumption.
  - destruct (is_JSONDecodeError e).
    + intros H; injection H as <- H. assumption.
    + discriminate.
Qed.

Lemma print_parse_error_on (t : string) :
  stdout_pictographs env = true -> print_parse_error env t = ret tt.
Proof.
  intros Hp. unfold print_parse_error.
  destruct (json_loads env t) as [v|e]; [reflexivity|].
  destruct (is_JSONDecodeError e); [|reflexivity].
  apply py_print_symbol, Hp.
Qed.

(** The reply text the Prompter goes on with is the text of the reply. *)
Lemma response_text_of_some (r : response) (s : state W) (raw : string)
  (s' : state W) :
  response_text_of env r s = (Ret (Some raw), s') ->
  reply_text r = Some raw /\ s' = s.
Proof.
  unfold response_text_of, reply_text, py_print.
  destruct (resp_text r) as [t|e].
  - unfold ret. intros H; injection H as <- <-. split; reflexivity.
  - destruct (is_ValueError e); [|discriminate].
    destruct (stdout_pictographs env); cbn [andb forallb]; unfold_monad;
      [|discriminate].
    destruct (resp_candidates r) as [|c cs]; [discriminate|].
    destruct (parts_text_of (c :: cs)) as [|p ps].
    + destruct (save env _ _ s) as [[[]|e'] s1]; discriminate.
    + intros H; injection H as <- <-. split; reflexivity.
Qed.


(** The summary leaves the state as it is, and it returns only when it
    can be printed; the headline, if there is one, can then be sliced. *)
Lemma print_summary_returns (d : dict) (s s' : state W) :
  print_summary env d s = (Ret tt, s') ->
  s' = s
  /\ summary_printable env d = true
  /\ forall h, dict_get d "headline" = Some h -> sliceable h = true.
Proof.
  unfold print_summary, summary_printable, py_print. unfold_monad.
  destruct (stdout_pictographs env); cbn [andb]; [|discriminate].
  destruct (forallb (stdout_takes env) (reply_value d "name"));
    [|discriminate].
  destruct (dict_get d "headline") as [h|].
  - destruct h; simpl; try discriminate.
    all: match goal with |- context [stdout_takes env ?v] =>
           destruct (stdout_takes env v) end; try discriminate.
    all: destruct (forallb (stdout_takes env) (reply_value d "location"));
      try discriminate.
    all: repeat match goal with
           | |- context [py_len ?v] => destruct (py_len v)
           end; try discriminate.
    all: intros H; injection H as <-; split; [reflexivity|].
    all: split; [reflexivity|].
    all: intros h' Hh; injection Hh as <-; reflexivity.
  - simpl.
    destruct (forallb (stdout_takes env) (reply_value d "location"));
      try discriminate.
    repeat match goal with
           | |- context [py_len ?v] => destruct (py_len v)
           end; try discriminate.
    intros H; injection H as <-. split; [reflexivity|].
    split; [reflexivity | discriminate].
Qed.

(** On an output without the pictographs the Prompter raises before it
    calls the model: its first print raises, and so does the print of
    the handler. *)
Lemma prompter_refused (clean_text url : string) (s : state W) :
  stdout_pictographs env = false ->
  exists msg,
    extract_structured_data_with_gemini env clean_text url s
    = (Raise (Exn UnicodeEncodeError msg), s).
Proof.
  intros Hp. unfold extract_structured_data_with_gemini, extraction_handlers.
  print_on Hp. unfold_monad. cbn. eexists. reflexivity.
Qed.

(** A record returned by the Prompter was made from a reply of the
    model. *)
Lemma prompter_success (clean_text url : string) (s : state W) (d : dict)
  (s' : state W) :
  extract_structured_data_with_gemini env clean_text url s = (Ret (Some d), s')
  -> from_model_reply env url d.
Proof.
  destruct (stdout_pictographs env) eqn:Hp.
  2:{ destruct (prompter_refused clean_text url s Hp) as [msg ->].
      discriminate. }
  unfold extract_structured_data_with_gemini.
  rewrite !(py_print_symbol _ _ Hp). unfold try_then at 1.
  unfold bind at 1 2. unfold ret at 1. unfold call at 1.
  destruct (generate_content env (extraction_prompt clean_text) (world s))
    as [[r|e] w1] eqn:Eg.
  2:{ intros H; exfalso; exact (extraction_handlers_none _ _ _ _ _ _ H). }
  destruct (response_text_of env r _) as [[[raw|]|e] s1] eqn:Er.
  3:{ intros H; exfalso; exact (extraction_handlers_none _ _ _ _ _ _ H). }
  2:{ discriminate. }
  apply response_text_of_some in Er. destruct Er as [Er ->].
  unfold try_then at 1. unfold bind at 1.
  destruct (save env "debug_gemini_response.txt" raw _) as [[[]|e] s2].
  2:{ intros H; exfalso; exact (extraction_handlers_none _ _ _ _ _ _ H). }
  unfold ret at 1. unfold try_then at 1.
  rewrite (print_parse_error_on _ Hp). unfold bind at 1.
  destruct (py_print env (Some MEMO) _ _ s2) as [[[]|e] s3] eqn:Em.
  2:{ intros H; exfalso; exact (extraction_handlers_none _ _ _ _ _ _ H). }
  pose proof (py_print_state (Some MEMO)
                "Cleaned response (first 200 chars): "
                [PStr (slice_to 200 (clean_response raw))] s2) as Hs.
  rewrite Em in Hs. simpl in Hs. subst s3. unfold ret at 1.
  destruct (parse_reply env (clean_response raw)) as [t parsed] eqn:Ep.
  unfold try_then, bind, lift.
  destruct parsed as [v|e].
  2:{ intros H; exfalso; exact (extraction_handlers_none _ _ _ _ _ _ H). }
  pose proof (parse_reply_ret _ _ _ Ep) as Hl.
  destruct (finalize_record v url) as [d'|e] eqn:Ef.
  2:{ intros H; exfalso; exact (extraction_handlers_none _ _ _ _ _ _ H). }
  destruct (print_summary env d' s2) as [[[]|e] s3] eqn:Es.
  2:{ intros H; exfalso; exact (extraction_handlers_none _ _ _ _ _ _ H). }
  unfold ret. intros H; injection H as <- <-.
  destruct (finalize_record_dict _ _ _ Ef) as [d0 ->].
  apply print_summary_returns in Es. destruct Es as [_ [Hprint Hh]].
  exists (extraction_prompt clean_text), (world s), r, w1, raw, t, d0.
  repeat split; assumption.
Qed.



Lemma extract_structured_data_refused (clean_text url : string)
  (s : state W) :
  stdout_pictographs env = false ->
  exists msg,
    extract_structured_data env clean_text url s
    = (Raise (Exn UnicodeEncodeError msg), s).
Proof.
  intros Hp. unfold extract_structured_data. unfold try_except, bind.
  destruct (prompter_refused clean_text url s Hp) as [msg ->].
  rewrite (py_print_refused _ _ _ Hp). unfold raise. eexists. reflexivity.
Qed.

(** On an output that has the pictographs, [extract_structured_data]
    returns a record. *)
Lemma extract_structured_data_cases (clean_text url : string) (s : state W) :
  stdout_pictographs env = true ->
  exists d s',
    extract_structured_data env clean_text url s = (Ret d, s')
    /\ (is_failure url d \/ from_model_reply env url d).
Proof.
  intros Hp. unfold extract_structured_data. print_on Hp. unfold_monad.
  destruct (extract_structured_data_with_gemini env clean_text url s)
    as [[[d|]|e] s1] eqn:E.
  - destruct (py_truthy (PDict d)).
    + exists d, s1. split; [reflexivity|]. right.
      exact (prompter_success _ _ _ _ _ E).
    + eexists _, s1. split; [reflexivity|]. left. eexists; reflexivity.
  - eexists _, s1. split; [reflexivity|]. left. eexists; reflexivity.
  - eexists _, s1. split; [reflexivity|]. left. eexists; reflexivity.
Qed.

Lemma parse_profile_refused (url : string) (s : state W) :
  stdout_pictographs env = false ->
  exists msg, parse_profile env url s = (Raise (Exn UnicodeEncodeError msg), s).
Proof.
  intros Hp. unfold parse_profile. print_on Hp. unfold_monad.
  eexists. reflexivity.
Qed.

(** On an output that has the pictographs, [parse_profile] returns a
    record. *)
Lemma parse_profile_cases (url : string) (s : state W) :
  stdout_pictographs env = true ->
  exists d s',
    parse_profile env url s = (Ret d, s')
    /\ (is_failure url d \/ from_model_reply env url d).
Proof.
  intros Hp. unfold parse_profile, get_page_html.
  print_on Hp. unfold_monad. cbn [world trace].
  destruct (driver_page_source env _) as [html|e].
  2:{ eexists _, _. split; [reflexivity|]. left. eexists; reflexivity. }
  destruct (html_to_clean_text_cases html
              (State (world s) (EvPageSource :: EvSleep 2000 2000 :: trace s))
              Hp)
    as [r [s1 [-> _]]].
  destruct r as [clean_text|].
  2:{ eexists _, _. split; [reflexivity|]. left. eexists; reflexivity. }
  destruct (String.eqb clean_text "" || (len clean_text <? 100)).
  { eexists _, _. split; [reflexivity|]. left. eexists; reflexivity. }
  destruct (save env "debug_clean_text.txt" clean_text s1) as [[[]|e] s2].
  2:{ eexists _, _. split; [reflexivity|]. left. eexists; reflexivity. }
  destruct (extract_structured_data_cases clean_text url s2 Hp)
    as [d [s3 [-> Hd]]].
  destruct Hd as [[msg ->]|Hd].
  - simpl. eexists _, _. split; [reflexivity|]. left. eexists; reflexivity.
  - pose proof Hd
      as [prompt [w [r [w' [raw [t [d0 [_ [_ [_ [_ [Hf _]]]]]]]]]]]].
    pose proof (finalize_record_spec _ _ _ Hf) as [Hu [Hs _]].
    rewrite Hs. destruct d as [|kv d]; [discriminate|].
    cbn [py_truthy negb orb].
    destruct (forallb (stdout_takes env) (reply_value (kv :: d) "name")).
    + eexists _, _. split; [reflexivity|]. right. exact Hd.
    + eexists _, _. split; [reflexivity|]. left. eexists; reflexivity.
Qed.

Lemma parse_profile_returns (url : string) (s : state W) (d : dict)
  (s' : state W) :
  parse_profile env url s = (Ret d, s') -> stdout_pictographs env = true.
Proof.
  intros H. destruct (stdout_pictographs env) eqn:Hp; [reflexivity|].
  destruct (parse_profile_refused url s Hp) as [msg E].
  rewrite E in H. discriminate.
Qed.

(** *** The parser object *)

(** The parser is built only on an output that has the pictographs. *)
Lemma constructor_returns (s s' : state W) :
  GeminiProfileParser env s = (Ret tt, s') -> stdout_pictographs env = true.
Proof.
  unfold GeminiProfileParser, py_print.
  destruct (getenv_GEMINI_API_KEY env (world s)) as [key|]; [|discriminate].
  destruct (String.eqb key "" || String.eqb key KEY_PLACEHOLDER);
    [discriminate|].
  destruct (stdout_pictographs env); [reflexivity|]. unfold_monad.
  destruct (genai_configure env key (world s)) as [[[]|e] w]; discriminate.
Qed.

(** [smooth_scroll] swallows every exception. *)
Lemma smooth_scroll_never_raises (fuel : nat) (s : state W) (o : outcome unit)
  (s' : state W) :
  smooth_scroll env fuel s = Some (o, s') -> o = Ret tt.
Proof.
  unfold smooth_scroll, ptry_except.
  match goal with |- context [match ?m s with _ => _ end] =>
    destruct (m s) as [[[[]|e] s1]|] end.
  - intros H; injection H as <- _. reflexivity.
  - unfold finite, ret. intros H; injection H as <- _. reflexivity.
  - discriminate.
Qed.

(** [navigate_to_profile] never raises. *)
Lemma navigate_to_profile_never_raises (fuel : nat) (url : string)
  (s : state W) (o : outcome (bool * string)) (s' : state W) :
  navigate_to_profile env fuel url s = Some (o, s') -> exists r, o = Ret r.
Proof.
  unfold navigate_to_profile, ptry_except.
  match goal with |- context [match ?m s with _ => _ end] =>
    destruct (m s) as [[[r|e] s1]|] end.
  - intros H; injection H as <- _. exists r; reflexivity.
  - unfold finite, ret. intros H; injection H as <- _. eexists; reflexivity.
  - discriminate.
Qed.

(** [extract_profile_data] returns only on an output that has the
    pictographs. *)
Lemma extract_profile_data_returns_on (fuel : nat) (url : string)
  (s : state W) (d : dict) (s' : state W) :
  extract_profile_data env fuel url s = Some (Ret d, s') ->
  stdout_pictographs env = true.
Proof.
  destruct (stdout_pictographs env) eqn:Hp; [reflexivity|].
  unfold extract_profile_data. unfold pbind at 1.
  destruct (navigate_to_profile env fuel url s) as [[[[ok msg]|e] s1]|];
    [|discriminate|discriminate].
  destruct ok; cbn [negb]; unfold finite.
  - unfold try_then.
    destruct ((call EvImportParser (import_ai_parser env) ;;
               GeminiProfileParser env)%py s1) as [[[]|e] s2] eqn:E.
    + unfold bind at 1 in E.
      destruct (call EvImportParser (import_ai_parser env) s1)
        as [[[]|e] s1']; [|discriminate].
      apply constructor_returns in E. congruence.
    + destruct (is_ImportError e); [|discriminate].
      rewrite (py_print_refused _ _ _ Hp). discriminate.
  - rewrite (py_print_refused _ _ _ Hp). discriminate.
Qed.

(** A record returned for one URL is a failure record or was made from
    a reply of the model. *)
Lemma extract_profile_data_cases (fuel : nat) (url : string) (s : state W)
  (d : dict) (s' : state W) :
  extract_profile_data env fuel url s = Some (Ret d, s') ->
  is_failure url d \/ from_model_reply env url d.
Proof.
  intros H. pose proof (extract_profile_data_returns_on _ _ _ _ _ H) as Hp.
  revert H.
  unfold extract_profile_data. unfold pbind at 1.
  destruct (navigate_to_profile env fuel url s) as [[[[ok msg]|e] s1]|];
    [|discriminate|discriminate].
  destruct ok; cbn [negb]; unfold finite.
  - unfold try_then.
    destruct ((call EvImportParser (import_ai_parser env) ;;
               GeminiProfileParser env)%py s1) as [[[]|e] s2].
    + unfold bind at 1.
      destruct (parse_profile_cases url s2 Hp) as [d' [s3 [-> Hd]]].
      unfold bind.
      match goal with |- context [if ?b then _ else _] => destruct b end.
      all: match goal with |- context [py_print env ?a ?b ?c ?st] =>
             destruct (py_print env a b c st) as [[[]|e] s4]
           end; try discriminate.
      all: unfold ret; intros H; injection H as <- _; exact Hd.
    + destruct (is_ImportError e); [|discriminate].
      rewrite (py_print_symbol _ _ Hp). unfold_monad.
      intros H; injection H as <- <-. left. eexists; reflexivity.
  - rewrite (py_print_symbol _ _ Hp). unfold_monad.
    intros H; injection H as <- <-. left. eexists; reflexivity.
Qed.

End PipelineFacts.

(** ** Statements about the Normalizer *)


Lemma ret_some_inv {A : Type} (x : outcome (option A)) (P : A -> bool) :
  match x with Ret (Some a) => P a | _ => false end = true ->
  exists a, x = Ret (Some a) /\ P a = true.
Proof.
  destruct x as [[a|]|e]; try discriminate. intros H. exists a. tauto.
Qed.

(** C7, as stated, fails: both lines of [LONG_MARKUP] pass the filter,
    their join has 40002 characters, and the cut to 40000 leaves the
    one-character, all-digit line [1] as the last line of the output. *)
Lemma html_to_clean_text_cuts_a_line :
  exists out,
    fst (html_to_clean_text (sim_env None (fun u => u) "" "") LONG_MARKUP start)
    = Ret (Some out)
    /\ ~ Forall acceptable_line (split_char LF out).
Proof.
  destruct (ret_some_inv
              (fst (html_to_clean_text (sim_env None (fun u => u) "" "")
                      LONG_MARKUP start))
              (fun out => existsb isdigit (split_char LF out)))
    as [out [Hout Hex]].
  { vm_compute. reflexivity. }
  exists out. split; [exact Hout|].
  intros HF. apply existsb_exists in Hex. destruct Hex as [l [Hl Hd]].
  rewrite Forall_forall in HF. destruct (HF l Hl) as [Hnd _].
  congruence.
Qed.

(** C7, amended.  The returned string is a function of the markup alone:
    the filtered lines of the extracted text joined by line feeds and cut
    to the first 40000 characters.  It has at most 40000 characters;
    every line of it except the last passed the filter (not all-digit,
    longer than 2, at most 30 percent special characters); and so does
    the last line when the join was not cut and is not empty. *)
Theorem html_to_clean_text_bounded {W : Type} (env : Caps W) (html : string)
  (s : state W) (out : string) :
  fst (html_to_clean_text env html s) = Ret (Some out) ->
  exists text,
    soup_get_text env html = Ret text
    /\ out = limit_text (join NL (clean_lines text))
    /\ len out <= 40000
    /\ Forall acceptable_line (clean_lines text)
    /\ Forall acceptable_line (removelast (split_char LF out))
    /\ (len (join NL (clean_lines text)) <= 40000 ->
        out = join NL (clean_lines text)
        /\ (out <> "" -> split_char LF out = clean_lines text)).
Proof.
  intros H.
  destruct (html_to_clean_text_value env html s out H) as [text [Ht ->]].
  exists text. unfold clean_text_of.
  pose proof (clean_lines_acceptable text) as Hacc.
  pose proof (clean_lines_no_LF text) as Hno.
  repeat split; try assumption.
  - apply limit_text_bound.
  - apply Forall_forall. intros l Hl.
    apply limit_text_lines in Hl; [|assumption].
    rewrite Forall_forall in Hacc. apply Hacc, Hl.
  - apply limit_text_short. assumption.
  - rewrite limit_text_short by assumption.
    destruct (clean_lines text) as [|l ls];
      [intros F; contradiction F; reflexivity|].
    intros _. apply split_char_join. assumption.
Qed.

Lemma html_to_clean_text_bounded_witness :
  fst (html_to_clean_text (sim_env None (fun u => u) "" "") PROFILE_PAGE start)
  = Ret (Some PROFILE_PAGE)
  /\ exists text,
       soup_get_text (sim_env None (fun u => u) "" "") PROFILE_PAGE = Ret text
       /\ PROFILE_PAGE = limit_text (join NL (clean_lines text))
       /\ len PROFILE_PAGE <= 40000
       /\ Forall acceptable_line (clean_lines text)
       /\ Forall acceptable_line (removelast (split_char LF PROFILE_PAGE))
       /\ (len (join NL (clean_lines text)) <= 40000 ->
           PROFILE_PAGE = join NL (clean_lines text)
           /\ (PROFILE_PAGE <> "" ->
               split_char LF PROFILE_PAGE = clean_lines text)).
Proof.
  split.
  - vm_compute. reflexivity.
  - apply (html_to_clean_text_bounded (sim_env None (fun u => u) "" "")
             PROFILE_PAGE start PROFILE_PAGE).
    vm_compute. reflexivity.
Defined.

(** ** Statements about [parse_profile] and the session checks *)

(** C8.  When the page source is read and the Normalizer returns [None]
    or fewer than 100 characters, [parse_profile] returns the failure
    record with the error [Failed to extract text from HTML], in the
    state the Normalizer left, and the hosted model has not been called. *)
Theorem parse_profile_short_text {W : Type} (env : Caps W) (url : string)
  (s : state W) (html : string) (r : option string) (s1 : state W) :
  driver_page_source env (world s) = Ret html ->
  html_to_clean_text env html
    (State (world s) (EvPageSource :: EvSleep 2000 2000 :: trace s))
  = (Ret r, s1) ->
  match r with None => True | Some t => len t < 100 end ->
  parse_profile env url s
  = (Ret (failure_record url (PStr "Failed to extract text from HTML")), s1)
  /\ llm_calls (trace s1) = llm_calls (trace s).
Proof.
  intros Hsrc Hnorm Hshort.
  pose proof (html_to_clean_text_returns env _ _ _ _ Hnorm) as Hp.
  destruct (html_to_clean_text_cases env html
              (State (world s) (EvPageSource :: EvSleep 2000 2000 :: trace s))
              Hp)
    as [r' [s1' [E [Hcalls _]]]].
  rewrite Hnorm in E. injection E as <- <-.
  split; [|exact Hcalls].
  unfold parse_profile, get_page_html. print_on Hp. unfold_monad.
  cbn [world trace].
  rewrite Hsrc, Hnorm.
  destruct r as [t|]; [|reflexivity].
  replace (len t <? 100) with true by lia.
  rewrite orb_true_r. reflexivity.
Qed.

Lemma parse_profile_short_text_witness :
  driver_page_source (sim_env (Some "key") (fun u => u) "Jane Doe" "{}")
    (world start) = Ret "Jane Doe"
  /\ html_to_clean_text (sim_env (Some "key") (fun u => u) "Jane Doe" "{}")
       "Jane Doe"
       (State (world start) (EvPageSource :: EvSleep 2000 2000 :: trace start))
     = (Ret (Some "Jane Doe"),
        State "about:blank"
          [EvWrite "debug_clean_preview.txt" "Jane Doe"; EvPageSource;
           EvSleep 2000 2000])
  /\ len "Jane Doe" < 100
  /\ parse_profile (sim_env (Some "key") (fun u => u) "Jane Doe" "{}")
       PROFILE_URL start
     = (Ret (failure_record PROFILE_URL
               (PStr "Failed to extract text from HTML")),
        State "about:blank"
          [EvWrite "debug_clean_preview.txt" "Jane Doe"; EvPageSource;
           EvSleep 2000 2000])
  /\ llm_calls [EvWrite "debug_clean_preview.txt" "Jane Doe"; EvPageSource;
                EvSleep 2000 2000] = llm_calls (trace start).
Proof.
  assert (H3 : len "Jane Doe" < 100) by (vm_compute; reflexivity).
  split; [reflexivity|]. split; [reflexivity|]. split; [exact H3|].
  exact (parse_profile_short_text
           (sim_env (Some "key") (fun u => u) "Jane Doe" "{}") PROFILE_URL
           start "Jane Doe" (Some "Jane Doe") _ eq_refl eq_refl H3).
Defined.

(** C9: the code at the failing input.  The navigation lands on a
    checkpoint page and [navigate_to_profile] answers with the message of
    the claim; on a standard output encoded in cp1252 the print that
    comes before the return of the failure record raises, outside every
    guard, and [extract_profile_data] returns no record. *)
Theorem extract_profile_data_raises_at_session_wall :
  extract_profile_data
    (cp1252_console
       (sim_env (Some "key") (fun _ => CHECKPOINT_URL) PROFILE_PAGE "{}"))
    0 PROFILE_URL start
  = Some (Raise (Exn UnicodeEncodeError
                   "'charmap' codec can't encode character '\u274c' in position 0: character maps to <undefined>"),
          State CHECKPOINT_URL
            (EvSleep 4000 6000 :: EvGet PROFILE_URL :: trace start)).
Proof. vm_compute. reflexivity. Qed.

(** ** Statements about the Prompter *)






(** ** The shape of a ProfileRecord *)

(** C3, as stated, fails: on the reply [{}] the pipeline returns a success
    record in which none of the scalar fields is present. *)
Lemma success_record_without_scalar_fields :
  exists d s',
    extract_profile_data (sim_env (Some "key") (fun u => u) PROFILE_PAGE "{}")
      3 PROFILE_URL start = Some (Ret d, s')
    /\ dict_get d "success" = Some (PBool true)
    /\ forall k, In k SCALAR_FIELDS -> dict_get d k = None.
Proof.
  do 2 eexists. split; [vm_compute; reflexivity|].
  split; [reflexivity|].
  intros k Hk. simpl in Hk.
  repeat (destruct Hk as [<-|Hk]; [reflexivity|]). contradiction.
Qed.

(** C3, amended.  Every record [extract_profile_data] returns is either a
    failure record, with exactly the fields [profile_url], [error] (a
    string) and [success = False], or a success record with [profile_url],
    [success = True], [error = None] and non-empty [experiences],
    [educations] and [skills].  A success record was made from a reply
    of the hosted model: the text of the reply, cleaned, was parsed to an
    object (at once or after the repair), [finalize_record] made the
    record from that object, and every other field of the record, the
    scalar fields among them, is there exactly when the object had it,
    with the value it had there.  The scalar fields are not checked,
    but three of them are formatted into the summary that is printed
    before the record is returned: the standard output encodes the name
    and the location of a success record, and its headline, when there
    is one, is a string or a list, sliced for the summary. *)
Theorem extract_profile_data_record_shape {W : Type} (env : Caps W)
  (fuel : nat) (url : string) (s : state W) (d : dict) (s' : state W) :
  extract_profile_data env fuel url s = Some (Ret d, s') ->
  (exists message, d = failure_record url (PStr message))
  \/ (dict_get d "profile_url" = Some (PStr url)
      /\ dict_get d "success" = Some (PBool true)
      /\ dict_get d "error" = Some PNone
      /\ (forall k, In k SEQUENCE_FIELDS ->
            exists v n, dict_get d k = Some v /\ py_len v = Ret n /\ 0 < n)
      /\ summary_printable env d = true
      /\ (forall h, dict_get d "headline" = Some h -> sliceable h = true)
      /\ exists prompt w r w' raw t d0,
           generate_content env prompt w = (Ret r, w')
           /\ reply_text r = Some raw
           /\ parse_reply env (clean_response raw) = (t, Ret (PDict d0))
           /\ json_loads env t = Ret (PDict d0)
           /\ finalize_record (PDict d0) url = Ret d
           /\ forall k, ~ In k MANAGED_FIELDS -> dict_get d k = dict_get d0 k).
Proof.
  intros H. apply extract_profile_data_cases in H.
  destruct H as [Hfail|Hd]; [left; exact Hfail|right].
  destruct Hd
    as [prompt [w [r [w' [raw [t [d0 [Hg [Hr [Hp [Hl [Hf [Hpr Hh]]]]]]]]]]]]].
  destruct (finalize_record_spec _ _ _ Hf) as [Hu [Hs [He [Hseq Hrest]]]].
  split; [exact Hu|]. split; [exact Hs|]. split; [exact He|].
  split; [|split; [exact Hpr|split; [exact Hh|]]].
  - intros k Hk. exact (finalize_record_lengths _ _ _ k Hf Hk).
  - exists prompt, w, r, w', raw, t, d0. repeat split; assumption.
Qed.

(** The record that the simulated run returns on a reply that holds a
    name only. *)
Lemma extract_profile_data_record_shape_witness :
  exists d s',
    d = [("name", PStr "Jane Doe"); ("profile_url", PStr PROFILE_URL);
         ("success", PBool true); ("error", PNone);
         ("experiences", EXPERIENCES_DEFAULT);
         ("educations", EDUCATIONS_DEFAULT); ("skills", SKILLS_DEFAULT)]
    /\ extract_profile_data
         (sim_env (Some "key") (fun u => u) PROFILE_PAGE NAME_ONLY_REPLY)
         3 PROFILE_URL start = Some (Ret d, s')
    /\ json_loads_ref NAME_ONLY_REPLY = Ret (PDict [("name", PStr "Jane Doe")])
    /\ finalize_record (PDict [("name", PStr "Jane Doe")]) PROFILE_URL = Ret d
    /\ ((exists message, d = failure_record PROFILE_URL (PStr message))
        \/ (dict_get d "profile_url" = Some (PStr PROFILE_URL)
            /\ dict_get d "success" = Some (PBool true)
            /\ dict_get d "error" = Some PNone
            /\ (forall k, In k SEQUENCE_FIELDS ->
                  exists v n,
                    dict_get d k = Some v /\ py_len v = Ret n /\ 0 < n)
            /\ summary_printable
                 (sim_env (Some "key") (fun u => u) PROFILE_PAGE
                    NAME_ONLY_REPLY) d = true
            /\ (forall h, dict_get d "headline" = Some h ->
                          sliceable h = true)
            /\ exists prompt w r w' raw t d0,
                 generate_content
                   (sim_env (Some "key") (fun u => u) PROFILE_PAGE
                      NAME_ONLY_REPLY) prompt w = (Ret r, w')
                 /\ reply_text r = Some raw
                 /\ parse_reply
                      (sim_env (Some "key") (fun u => u) PROFILE_PAGE
                         NAME_ONLY_REPLY) (clean_response raw)
                    = (t, Ret (PDict d0))
                 /\ json_loads_ref t = Ret (PDict d0)
                 /\ finalize_record (PDict d0) PROFILE_URL = Ret d
                 /\ forall k, ~ In k MANAGED_FIELDS ->
                              dict_get d k = dict_get d0 k)).
Proof.
  assert (H : exists s',
             extract_profile_data
               (sim_env (Some "key") (fun u => u) PROFILE_PAGE NAME_ONLY_REPLY)
               3 PROFILE_URL start
             = Some (Ret [("name", PStr "Jane Doe");
                          ("profile_url", PStr PROFILE_URL);
                          ("success", PBool true); ("error", PNone);
                          ("experiences", EXPERIENCES_DEFAULT);
                          ("educations", EDUCATIONS_DEFAULT);
                          ("skills", SKILLS_DEFAULT)], s')).
  { eexists. vm_compute. reflexivity. }
  destruct H as [s' H]. eexists _, s'. split; [reflexivity|].
  split; [exact H|].
  split; [vm_compute; reflexivity|]. split; [vm_compute; reflexivity|].
  exact (extract_profile_data_record_shape _ _ _ _ _ _ H).
Defined.

(** ** The JSON repair *)

(** C4, as stated, fails: the repair changes the value of one valid JSON
    text and makes another one unparseable. *)
Lemma json_repair_changes_valid_json :
  json_loads_ref COMMA_BRACKET_TEXT = Ret (PList [PStr ",]"])
  /\ json_loads_ref (json_repair COMMA_BRACKET_TEXT) = Ret (PList [PStr "]"])
  /\ json_loads_ref APOSTROPHE_TEXT = Ret (PList [PStr "it's"])
  /\ json_loads_ref (json_repair APOSTROPHE_TEXT) = Raise DECODE_ERROR.
Proof. repeat split; vm_compute; reflexivity. Qed.

Lemma has_char_cons (c a : ascii) (r : string) :
  has_char c (String a r) = Ascii.eqb a c || has_char c r.
Proof.
  unfold has_char, chr. simpl.
  destruct (ascii_dec c a) as [->|Hne].
  - rewrite Ascii.eqb_refl. destruct r; reflexivity.
  - destruct (Ascii.eqb_spec a c) as [->|_]; [contradiction|reflexivity].
Qed.

Lemma replace_char_absent (a b : ascii) (s : string) :
  has_char a s = false -> replace_char a b s = s.
Proof.
  induction s as [|c r IH]; [reflexivity|].
  rewrite has_char_cons. intros H. apply orb_false_iff in H.
  destruct H as [Hc Hr]. simpl. rewrite Hc, (IH Hr). reflexivity.
Qed.

Lemma strip_trailing_commas_absent (s : string) :
  has_trailing_comma s = false -> strip_trailing_commas s = s.
Proof.
  induction s as [|c r IH]; [reflexivity|]. simpl.
  intros H. apply orb_false_iff in H. destruct H as [Hc Hr].
  rewrite Hc, (IH Hr). reflexivity.
Qed.

(** C4, amended.  The repair is applied only after a decode error: on a
    text that [json.loads] parses, the parse step returns the value of
    that first parse and leaves the text as it is.  The repair itself is
    the identity on every text that has no single quote and no comma
    followed by white space and a closing brace or bracket. *)
Theorem parse_reply_valid_json {W : Type} (env : Caps W) (text : string)
  (v : pyval) :
  json_loads env text = Ret v ->
  parse_reply env text = (text, Ret v)
  /\ (has_char SQUOTE text = false -> has_trailing_comma text = false ->
      json_repair text = text).
Proof.
  intros H. split.
  - unfold parse_reply. rewrite H. reflexivity.
  - intros Hq Hc. unfold json_repair.
    rewrite (replace_char_absent _ _ _ Hq).
    apply strip_trailing_commas_absent, Hc.
Qed.

Lemma parse_reply_valid_json_witness :
  json_loads_ref NAME_ONLY_REPLY = Ret (PDict [("name", PStr "Jane Doe")])
  /\ parse_reply (sim_env (Some "key") (fun u => u) PROFILE_PAGE "{}")
       NAME_ONLY_REPLY
     = (NAME_ONLY_REPLY, Ret (PDict [("name", PStr "Jane Doe")]))
  /\ json_repair NAME_ONLY_REPLY = NAME_ONLY_REPLY.
Proof.
  assert (H : json_loads
                (sim_env (Some "key") (fun u => u) PROFILE_PAGE "{}")
                NAME_ONLY_REPLY = Ret (PDict [("name", PStr "Jane Doe")]))
    by (vm_compute; reflexivity).
  destruct (parse_reply_valid_json _ _ _ H) as [H1 H2].
  split; [exact H|]. split; [exact H1|].
  apply H2; vm_compute; reflexivity.
Defined.

(** ** The batch *)

Section BatchFacts.

Context {W : Type} (env : Caps W).

Lemma navigate_to_profile_returns (fuel : nat) (url : string) (s : state W) :
  scroll_settles env fuel ->
  exists r s', navigate_to_profile env fuel url s = Some (Ret r, s').
Proof.
  intros Hscroll.
  unfold navigate_to_profile, human_like_delay, ptry_except.
  unfold pbind at 1. unfold finite at 1. unfold call.
  destruct (driver_get env url (world s)) as [[[]|e] w];
    [|eexists _, _; reflexivity].
  unfold pbind at 1. unfold finite at 1, log. cbn [world trace].
  unfold pbind at 1. unfold finite at 1, read. cbn [world trace].
  destruct (driver_current_url env w) as [cur|e];
    [|eexists _, _; reflexivity].
  destruct (contains "checkpoint" cur || contains "authwall" cur);
    [eexists _, _; reflexivity|].
  destruct (contains "login" cur); [eexists _, _; reflexivity|].
  unfold pbind at 1. unfold finite at 1, step. cbn [world trace].
  unfold pbind.
  match goal with |- context [smooth_scroll env fuel ?s1] =>
    pose proof (Hscroll s1) as Hs;
    destruct (smooth_scroll env fuel s1) as [[o s2]|] eqn:E;
    [|contradiction]
  end.
  rewrite (smooth_scroll_never_raises env _ _ _ _ E).
  eexists _, _; reflexivity.
Qed.

(** Under a working configuration, on an output that encodes what is
    printed, and with fuel enough for the scroll loops, every failure of
    one URL is contained: [extract_profile_data] returns a record. *)
Lemma extract_profile_data_returns (fuel : nat) (url : string) (s : state W) :
  configured env -> prints_all env -> scroll_settles env fuel ->
  exists d s', extract_profile_data env fuel url s = Some (Ret d, s').
Proof.
  intros [Himp [Hkey Hconf]] Hall Hscroll. pose proof Hall as [Hp _].
  unfold extract_profile_data. unfold pbind at 1.
  destruct (navigate_to_profile_returns fuel url s Hscroll)
    as [[ok msg] [s1 ->]].
  destruct ok; cbn [negb]; unfold finite.
  - unfold try_then, bind at 1, call.
    destruct (Himp (world s1)) as [w2 ->].
    unfold GeminiProfileParser. cbn [world trace].
    destruct (Hkey w2) as [key [-> Hvalid]]. rewrite Hvalid.
    rewrite (py_print_all _ _ _ _ Hall).
    unfold try_except, bind, call, ret. cbn [world trace].
    destruct (Hconf key w2) as [w3 ->].
    destruct (parse_profile_cases env url
                (State w3 (EvConfigure :: EvImportParser :: trace s1)) Hp)
      as [d [s' [-> _]]].
    rewrite !(py_print_all _ _ _ _ Hall).
    exists d, s'. destruct (match dict_get d "success" with
                            | Some v => py_truthy v
                            | None => false
                            end); reflexivity.
  - rewrite (py_print_all _ _ _ _ Hall). eexists _, _; reflexivity.
Qed.

Lemma scrape_from_returns (fuel : nat) (cb : option (callback W)) (total : Z)
  (urls : list string) :
  (forall f, cb = Some f ->
             forall i t u st, exists st', f i t u st = (Ret tt, st')) ->
  (forall u st, In u urls ->
                exists d st',
                  extract_profile_data env fuel u st = Some (Ret d, st')) ->
  forall (idx : Z) (results : list dict) (s : state W),
  exists rs s',
    scrape_from env fuel cb total idx urls results s
    = Some (Ret (results ++ rs)%list, s')
    /\ Forall2 (fun u d => exists s1 s2,
                    extract_profile_data env fuel u s1 = Some (Ret d, s2))
         urls rs.
Proof.
  intros Hcb. induction urls as [|url rest IH]; intros Hex idx results s.
  - exists [], s. simpl. unfold finite, ret. rewrite app_nil_r.
    split; [reflexivity | constructor].
  - simpl. unfold pbind at 1. unfold finite at 1.
    assert (exists s1, match cb with
                       | Some f => f idx total url
                       | None => ret tt
                       end s = (Ret tt, s1)) as [s1 ->].
    { destruct cb as [f|]; [apply (Hcb f eq_refl) | exists s; reflexivity]. }
    unfold pbind at 1.
    destruct (Hex url s1 (or_introl eq_refl)) as [d [s2 Hd]]. rewrite Hd.
    unfold pbind at 1. unfold finite at 1.
    assert (exists s3, (if idx <? total then human_like_delay 6 10
                        else ret tt) s2 = (Ret tt, s3)) as [s3 ->].
    { destruct (idx <? total); eexists; reflexivity. }
    destruct (IH (fun u st Hu => Hex u st (or_intror Hu)) (idx + 1)
                (results ++ [d])%list s3) as [rs [s' [-> HF]]].
    exists (d :: rs), s'. rewrite <- app_assoc. split; [reflexivity|].
    constructor; [exists s1, s2; exact Hd | exact HF].
Qed.

End BatchFacts.

(** C1, as stated, fails: an exception of the progress callback leaves
    [scrape_multiple_profiles] at its first call, and no sequence is
    returned. *)
Lemma scrape_multiple_profiles_callback_raises :
  scrape_multiple_profiles
    (sim_env (Some "key") (fun u => u) PROFILE_PAGE NAME_ONLY_REPLY)
    3 [PROFILE_URL] (Some failing_callback) start
  = Some (Raise (Exn OtherError "progress display is closed"), start).
Proof. reflexivity. Qed.

(** C1, amended.  [scrape_multiple_profiles] has no handler of its own.
    When the progress callback, if there is one, returns at every call
    and [extract_profile_data] returns a record for each URL of the
    input, the batch returns a list of the same length as the input, in
    the same order: the record at each position is the one
    [extract_profile_data] returned for the URL at that position. *)
Theorem scrape_multiple_profiles_one_record_per_url {W : Type} (env : Caps W)
  (fuel : nat) (urls : list string) (cb : option (callback W))
  (s : state W) :
  (forall f, cb = Some f ->
             forall i t u st, exists st', f i t u st = (Ret tt, st')) ->
  (forall u st, In u urls ->
                exists d st',
                  extract_profile_data env fuel u st = Some (Ret d, st')) ->
  exists rs s',
    scrape_multiple_profiles env fuel urls cb s = Some (Ret rs, s')
    /\ length rs = length urls
    /\ Forall2 (fun u d => exists s1 s2,
                    extract_profile_data env fuel u s1 = Some (Ret d, s2))
         urls rs.
Proof.
  intros Hcb Hex. unfold scrape_multiple_profiles.
  destruct (scrape_from_returns env fuel cb (Z.of_nat (length urls)) urls
              Hcb Hex 1 [] s) as [rs [s' [H HF]]].
  exists rs, s'. split; [exact H|]. split; [|exact HF].
  symmetry. exact (Forall2_length HF).
Qed.

Lemma sim_env_configured (landing : string -> string) (page reply : string) :
  configured (sim_env (Some "key") landing page reply).
Proof.
  repeat split.
  - intros w. exists w. reflexivity.
  - intros w. exists "key". split; reflexivity.
  - intros key w. exists w. reflexivity.
Defined.

Lemma sim_env_prints_all (api_key : option string)
  (landing : string -> string) (page reply : string) :
  prints_all (sim_env api_key landing page reply).
Proof. split; [reflexivity | intros v; reflexivity]. Defined.

(** Three iterations take the 900 pixels of the simulated page. *)
Lemma sim_env_scroll_settles (api_key : option string)
  (landing : string -> string) (page reply : string) :
  scroll_settles (sim_env api_key landing page reply) 3.
Proof. intros s. cbv. discriminate. Defined.

(** With two iterations of fuel the scroll loop of the simulated page
    has not ended; with three the URL yields its record. *)
Example extract_profile_data_fuel :
  extract_profile_data
    (sim_env (Some "key") (fun u => u) PROFILE_PAGE NAME_ONLY_REPLY)
    2 PROFILE_URL start = None
  /\ exists d s',
       extract_profile_data
         (sim_env (Some "key") (fun u => u) PROFILE_PAGE NAME_ONLY_REPLY)
         3 PROFILE_URL start = Some (Ret d, s').
Proof.
  split; [vm_compute; reflexivity|].
  do 2 eexists. vm_compute. reflexivity.
Qed.

Lemma scrape_multiple_profiles_one_record_per_url_witness :
  exists rs s',
    scrape_multiple_profiles
      (sim_env (Some "key") (fun u => u) PROFILE_PAGE NAME_ONLY_REPLY)
      3 [PROFILE_URL; PROFILE_URL] None start = Some (Ret rs, s')
    /\ length rs = length [PROFILE_URL; PROFILE_URL]
    /\ Forall2 (fun u d => exists s1 s2,
                    extract_profile_data
                      (sim_env (Some "key") (fun u => u) PROFILE_PAGE
                         NAME_ONLY_REPLY) 3 u s1 = Some (Ret d, s2))
         [PROFILE_URL; PROFILE_URL] rs.
Proof.
  apply (scrape_multiple_profiles_one_record_per_url
           (sim_env (Some "key") (fun u => u) PROFILE_PAGE NAME_ONLY_REPLY)
           3 [PROFILE_URL; PROFILE_URL] None start).
  - intros f Hf. discriminate Hf.
  - intros u st _.
    apply extract_profile_data_returns;
      [apply sim_env_configured | apply sim_env_prints_all
      | apply sim_env_scroll_settles].
Defined.

(** Whatever the environment, once the navigation has succeeded and the
    import has returned, a missing credential makes [extract_profile_data]
    raise the [ValueError] of the constructor. *)
Lemma extract_profile_data_raises_without_key {W : Type} (env : Caps W)
  (fuel : nat) (url : string) (s s1 : state W) (w : W) :
  navigate_to_profile env fuel url s = Some (Ret (true, "Success"), s1) ->
  import_ai_parser env (world s1) = (Ret tt, w) ->
  getenv_GEMINI_API_KEY env w = None ->
  extract_profile_data env fuel url s
  = Some (Raise (Exn ValueError KEY_MISSING),
          State w (EvImportParser :: trace s1)).
Proof.
  intros Hnav Himp Hkey.
  unfold extract_profile_data, pbind. rewrite Hnav. simpl.
  unfold finite, try_then, bind, call. rewrite Himp.
  unfold GeminiProfileParser. cbn [world trace]. rewrite Hkey.
  reflexivity.
Qed.

(** C2: the code at the failing input.  With no credential in the
    environment and a navigation that succeeds, the [ValueError] of the
    parser's constructor is not an [ImportError]; it leaves
    [extract_profile_data] and ends the batch before any record is
    appended. *)
Theorem scrape_multiple_profiles_aborts_without_key :
  option_map fst
    (scrape_multiple_profiles
       (sim_env None (fun u => u) PROFILE_PAGE NAME_ONLY_REPLY)
       3 [PROFILE_URL; PROFILE_URL] None start)
  = Some (Raise (Exn ValueError KEY_MISSING)).
Proof. vm_compute. reflexivity. Qed.

(** * Further properties *)

(** ** Stripping, the URL list and the line filter *)

Lemma lstrip_starts_clean (s : string) : starts_clean (lstrip s) = true.
Proof.
  induction s as [|c r IH]; simpl; [reflexivity|].
  destruct (py_isspace c) eqn:E; [exact IH|]. simpl. rewrite E. reflexivity.
Qed.

Lemma lstrip_id (s : string) : starts_clean s = true -> lstrip s = s.
Proof.
  destruct s as [|c r]; simpl; [reflexivity|].
  destruct (py_isspace c); [discriminate | reflexivity].
Qed.

Lemma rstrip_ends_clean (s : string) : ends_clean (rstrip s) = true.
Proof.
  induction s as [|c r IH]; simpl; [reflexivity|].
  destruct (rstrip r) as [|c' r'] eqn:E.
  - destruct (py_isspace c) eqn:Ec; simpl; [reflexivity|].
    rewrite Ec. reflexivity.
  - exact IH.
Qed.

Lemma rstrip_id (s : string) : ends_clean s = true -> rstrip s = s.
Proof.
  induction s as [|c r IH]; [reflexivity|].
  destruct r as [|c' r'].
  - simpl. destruct (py_isspace c); [discriminate | reflexivity].
  - intros H. change (ends_clean (String c' r') = true) in H.
    change (rstrip (String c (String c' r')))
      with (match rstrip (String c' r') with
            | EmptyString => if py_isspace c then EmptyString else chr c
            | r0 => String c r0
            end).
    rewrite (IH H). reflexivity.
Qed.

Lemma rstrip_starts_clean (s : string) :
  starts_clean s = true -> starts_clean (rstrip s) = true.
Proof.
  destruct s as [|c r]; [reflexivity|]. simpl.
  destruct (py_isspace c) eqn:E; [discriminate|]. intros _.
  destruct (rstrip r); simpl; rewrite E; reflexivity.
Qed.

Lemma strip_clean (s : string) :
  starts_clean (strip s) = true /\ ends_clean (strip s) = true.
Proof.
  unfold strip. split.
  - apply rstrip_starts_clean, lstrip_starts_clean.
  - apply rstrip_ends_clean.
Qed.

Lemma strip_id (s : string) :
  starts_clean s = true -> ends_clean s = true -> strip s = s.
Proof.
  intros Hs He. unfold strip. rewrite (lstrip_id s Hs). apply rstrip_id, He.
Qed.

Lemma strip_strip (s : string) : strip (strip s) = strip s.
Proof. destruct (strip_clean s) as [Hs He]. apply strip_id; assumption. Qed.

Lemma strip_no_LF (s : string) : no_LF s = true -> no_LF (strip s) = true.
Proof. intros H. apply rstrip_no_LF, lstrip_no_LF, H. Qed.

Lemma filter_all {A : Type} (p : A -> bool) (l : list A) :
  Forall (fun x => p x = true) l -> filter p l = l.
Proof.
  induction 1 as [|x l Hx _ IH]; simpl; [reflexivity|].
  rewrite Hx, IH. reflexivity.
Qed.

Lemma map_id_on {A : Type} (f : A -> A) (l : list A) :
  Forall (fun x => f x = x) l -> map f l = l.
Proof.
  induction 1 as [|x l Hx _ IH]; simpl; [reflexivity|].
  rewrite Hx, IH. reflexivity.
Qed.

(** X1.  The URL list the page builds from its text area holds only
    URLs that are not empty, are stripped of white space at both ends
    and hold no line feed; and a list of such URLs, joined by line feeds,
    is read back as it is. *)
Theorem parse_profile_urls_round_trip (profile_urls_input : string)
  (profile_urls : list string) :
  Forall clean_url profile_urls ->
  Forall clean_url (parse_profile_urls profile_urls_input)
  /\ parse_profile_urls (join NL profile_urls) = profile_urls.
Proof.
  intros Hclean. split.
  - apply Forall_forall. intros u Hu. unfold parse_profile_urls in Hu.
    apply in_map_iff in Hu. destruct Hu as [p [<- Hp]].
    apply filter_In in Hp. destruct Hp as [Hin Hne].
    destruct (split_char_no_LF profile_urls_input) as [_ HLF].
    rewrite Forall_forall in HLF.
    repeat split.
    + intros E. rewrite E in Hne. discriminate.
    + apply strip_strip.
    + apply strip_no_LF, HLF, Hin.
  - unfold parse_profile_urls. destruct profile_urls as [|u us].
    + reflexivity.
    + rewrite split_char_join.
      2:{ eapply Forall_impl; [|exact Hclean]. intros a [_ [_ H]]. exact H. }
      rewrite filter_all.
      2:{ eapply Forall_impl; [|exact Hclean]. intros a [Hne [Hs _]].
          rewrite Hs. destruct (String.eqb_spec a ""); [contradiction|].
          reflexivity. }
      apply map_id_on. eapply Forall_impl; [|exact Hclean].
      intros a [_ [Hs _]]. exact Hs.
Qed.

Lemma parse_profile_urls_round_trip_witness :
  Forall clean_url [PROFILE_URL; CHECKPOINT_URL]
  /\ Forall clean_url
       (parse_profile_urls ("  " ++ PROFILE_URL ++ NL ++ NL ++ " x "))
  /\ parse_profile_urls (join NL [PROFILE_URL; CHECKPOINT_URL])
     = [PROFILE_URL; CHECKPOINT_URL].
Proof.
  assert (H : Forall clean_url [PROFILE_URL; CHECKPOINT_URL]).
  { repeat constructor; try discriminate; reflexivity. }
  split; [exact H|].
  exact (parse_profile_urls_round_trip
           ("  " ++ PROFILE_URL ++ NL ++ NL ++ " x ") _ H).
Defined.

Lemma clean_lines_stripped (text : string) :
  Forall (fun l => strip l = l) (clean_lines text).
Proof.
  apply Forall_forall. intros l Hl.
  apply filter_In in Hl. destruct Hl as [Hl _].
  apply in_map_iff in Hl. destruct Hl as [p [<- _]]. apply strip_strip.
Qed.

Lemma clean_lines_kept (text : string) :
  Forall (fun l => negb (skip_line l) = true) (clean_lines text).
Proof.
  apply Forall_forall. intros l Hl.
  apply filter_In in Hl. tauto.
Qed.

Lemma clean_lines_join (text : string) :
  clean_lines (join NL (clean_lines text)) = clean_lines text.
Proof.
  pose proof (clean_lines_no_LF text) as Hno.
  pose proof (clean_lines_stripped text) as Hs.
  pose proof (clean_lines_kept text) as Hk.
  destruct (clean_lines text) as [|l ls]; [reflexivity|].
  unfold clean_lines at 1. rewrite split_char_join by assumption.
  rewrite (map_id_on strip _ Hs). apply filter_all. exact Hk.
Qed.

(** X2.  The line filter is idempotent: filtering the joined output of
    the filter gives the same lines, and normalizing a normalized text
    that was not cut gives the same text. *)
Theorem clean_text_of_idempotent (text : string) :
  len (join NL (clean_lines text)) <= 40000 ->
  clean_lines (join NL (clean_lines text)) = clean_lines text
  /\ clean_text_of (clean_text_of text) = clean_text_of text.
Proof.
  intros H. split; [apply clean_lines_join|].
  unfold clean_text_of.
  rewrite (limit_text_short _ H), clean_lines_join.
  apply limit_text_short, H.
Qed.

Lemma clean_text_of_idempotent_witness :
  len (join NL (clean_lines ("  12 " ++ NL ++ PROFILE_PAGE ++ NL ++ "{x}")))
  <= 40000
  /\ clean_text_of
       (clean_text_of ("  12 " ++ NL ++ PROFILE_PAGE ++ NL ++ "{x}"))
     = clean_text_of ("  12 " ++ NL ++ PROFILE_PAGE ++ NL ++ "{x}").
Proof.
  assert (H : len (join NL (clean_lines
                              ("  12 " ++ NL ++ PROFILE_PAGE ++ NL ++ "{x}")))
              <= 40000) by (vm_compute; discriminate).
  split; [exact H|].
  exact (proj2 (clean_text_of_idempotent _ H)).
Defined.

(** The lines of a cut text are the first lines of the text, and then a
    prefix of its next line. *)
Lemma split_char_take_prefix (n : nat) (s : string) :
  exists k j,
    split_char LF (take n s)
    = (firstn k (split_char LF s)
       ++ [take j (nth k (split_char LF s) EmptyString)])%list.
Proof.
  revert n. induction s as [|c r IH]; intros n.
  - exists 0%nat, 0%nat. destruct n; reflexivity.
  - destruct n as [|n].
    + exists 0%nat, 0%nat. simpl.
      destruct (Ascii.eqb c LF); [reflexivity|].
      destruct (split_char LF r); reflexivity.
    + destruct (IH n) as [k [j Hk]]. simpl.
      destruct (split_char_no_LF r) as [Hne' _].
      destruct (Ascii.eqb c LF).
      * exists (S k), j. rewrite Hk. reflexivity.
      * rewrite Hk.
        destruct (split_char LF r) as [|h' t']; [contradiction|].
        destruct k as [|k].
        -- exists 0%nat, (S j). reflexivity.
        -- exists (S k), j. reflexivity.
Qed.

Lemma prefix_take (p : string) (j : nat) (l : string) :
  String.prefix p (take j l) = true -> String.prefix p l = true.
Proof.
  revert j l. induction p as [|a p IH]; intros j l; [destruct l; reflexivity|].
  destruct j as [|j]; destruct l as [|b l]; simpl; try discriminate.
  destruct (ascii_dec a b); [apply IH | discriminate].
Qed.

Lemma contains_take (p : string) (j : nat) (l : string) :
  contains p (take j l) = true -> contains p l = true.
Proof.
  revert j. induction l as [|b l IH]; intros j.
  - destruct j; exact (fun H => H).
  - destruct j as [|j].
    + simpl take. intros H. simpl in H. rewrite orb_false_r in H.
      destruct p; [reflexivity | discriminate].
    + change (take (S j) (String b l)) with (String b (take j l)).
      intros H.
      change (String.prefix p (String b (take j l))
              || contains p (take j l) = true) in H.
      change (String.prefix p (String b l) || contains p l = true).
      apply orb_true_iff in H. apply orb_true_iff. destruct H as [H|H].
      * left. exact (prefix_take p (S j) (String b l) H).
      * right. exact (IH j H).
Qed.

Lemma skip_line_marks (line : string) :
  skip_line line = false -> no_data_mark line.
Proof.
  unfold skip_line, no_data_mark.
  destruct (String.eqb line ""); [discriminate|].
  destruct (isdigit line); [discriminate|].
  destruct (len line <=? 2); [discriminate|].
  destruct (startswith "{" line); [discriminate|].
  destruct (startswith "[" line); [discriminate|].
  destruct (contains "urn:li:" line); [discriminate|].
  intros _. repeat split.
Qed.

Lemma no_data_mark_take (j : nat) (line : string) :
  no_data_mark line -> no_data_mark (take j line).
Proof.
  unfold no_data_mark, startswith. intros [Hu [Hb Hk]]. repeat split.
  - destruct (contains "urn:li:" (take j line)) eqn:E; [|reflexivity].
    rewrite (contains_take _ _ _ E) in Hu. discriminate.
  - destruct (String.prefix "{" (take j line)) eqn:E; [|reflexivity].
    rewrite (prefix_take _ _ _ E) in Hb. discriminate.
  - destruct (String.prefix "[" (take j line)) eqn:E; [|reflexivity].
    rewrite (prefix_take _ _ _ E) in Hk. discriminate.
Qed.

Lemma no_data_mark_nth (lines : list string) (k : nat) :
  Forall no_data_mark lines -> no_data_mark (nth k lines EmptyString).
Proof.
  intros H. revert k. induction H as [|l ls Hl _ IH]; intros [|k]; simpl;
    try (repeat split; reflexivity); auto.
Qed.

Lemma limit_text_marks (lines : list string) :
  Forall (fun l => no_LF l = true) lines ->
  Forall no_data_mark lines ->
  Forall no_data_mark (split_char LF (limit_text (join NL lines))).
Proof.
  intros Hno Hm.
  destruct lines as [|l0 ls].
  - vm_compute. repeat constructor.
  - assert (Forall no_data_mark
              (split_char LF (join NL (l0 :: ls)))) as Hall
      by (rewrite split_char_join by assumption; exact Hm).
    unfold limit_text.
    destruct (len (join NL (l0 :: ls)) >? MAX_CLEAN); [|exact Hall].
    unfold slice_to.
    destruct (split_char_take_prefix (Z.to_nat MAX_CLEAN)
                (join NL (l0 :: ls))) as [k [j ->]].
    apply Forall_app. split.
    + apply Forall_forall. intros l Hl. apply In_firstn in Hl.
      rewrite Forall_forall in Hall. apply Hall, Hl.
    + constructor; [|constructor].
      apply no_data_mark_take, no_data_mark_nth, Hall.
Qed.

(** X3.  No line of the text the Normalizer returns contains [urn:li:]
    or starts with a brace or a bracket; the cut to 40000 characters,
    which can leave a short or an all-digit last line, cannot bring any
    of these marks back. *)
Theorem html_to_clean_text_no_data_mark {W : Type} (env : Caps W)
  (html : string) (s : state W) (out : string) :
  fst (html_to_clean_text env html s) = Ret (Some out) ->
  Forall no_data_mark (split_char LF out).
Proof.
  intros H.
  destruct (html_to_clean_text_value env html s out H) as [text [_ ->]].
  unfold clean_text_of.
  apply limit_text_marks; [apply clean_lines_no_LF|].
  apply Forall_forall. intros l Hl.
  pose proof (clean_lines_kept text) as Hk. rewrite Forall_forall in Hk.
  apply skip_line_marks. specialize (Hk l Hl).
  destruct (skip_line l); [discriminate | reflexivity].
Qed.

Lemma html_to_clean_text_no_data_mark_witness :
  fst (html_to_clean_text (sim_env None (fun u => u) "" "")
         ("Jane Doe" ++ NL ++ "urn:li:member:1" ++ NL ++ "{x}") start)
  = Ret (Some "Jane Doe")
  /\ Forall no_data_mark (split_char LF "Jane Doe").
Proof.
  assert (H : fst (html_to_clean_text (sim_env None (fun u => u) "" "")
                     ("Jane Doe" ++ NL ++ "urn:li:member:1" ++ NL ++ "{x}")
                     start) = Ret (Some "Jane Doe"))
    by (vm_compute; reflexivity).
  split; [exact H|].
  exact (html_to_clean_text_no_data_mark _ _ _ _ H).
Defined.

(** ** The reply: repair and cleaning *)

Lemma replace_char_gone (a b : ascii) (s : string) :
  Ascii.eqb b a = false -> has_char a (replace_char a b s) = false.
Proof.
  intros Hab. induction s as [|c r IH]; [reflexivity|].
  simpl replace_char. rewrite has_char_cons, IH, orb_false_r.
  destruct (Ascii.eqb c a) eqn:E; [exact Hab | exact E].
Qed.

Lemma replace_char_length (a b : ascii) (s : string) :
  String.length (replace_char a b s) = String.length s.
Proof. induction s as [|c r IH]; simpl; [reflexivity | rewrite IH; reflexivity]. Qed.

Lemma strip_trailing_commas_chars (c : ascii) (s : string) :
  has_char c s = false -> has_char c (strip_trailing_commas s) = false.
Proof.
  induction s as [|a r IH]; [intros H; exact H|].
  rewrite has_char_cons. intros H. apply orb_false_iff in H.
  destruct H as [Ha Hr]. simpl.
  destruct (Ascii.eqb a "," && closes_after_space r); [apply IH, Hr|].
  rewrite has_char_cons, Ha, (IH Hr). reflexivity.
Qed.

Lemma strip_trailing_commas_length (s : string) :
  (String.length (strip_trailing_commas s) <= String.length s)%nat.
Proof.
  induction s as [|a r IH]; simpl; [lia|].
  destruct (Ascii.eqb a "," && closes_after_space r); simpl; lia.
Qed.

(** X4.  The repaired text holds no single quote and is never longer
    than the text it was made from. *)
Theorem json_repair_no_single_quote (response_text : string) :
  has_char SQUOTE (json_repair response_text) = false
  /\ len (json_repair response_text) <= len response_text.
Proof.
  unfold json_repair. split.
  - apply strip_trailing_commas_chars, replace_char_gone. reflexivity.
  - unfold len.
    pose proof (strip_trailing_commas_length
                  (replace_char SQUOTE DQUOTE response_text)) as H.
    rewrite replace_char_length in H. lia.
Qed.

Lemma has_char_from_first (c : ascii) (s : string) :
  has_char c s = true -> exists rest, from_first c s = String c rest.
Proof.
  induction s as [|a r IH]; [discriminate|].
  rewrite has_char_cons. simpl.
  destruct (Ascii.eqb_spec a c) as [->|_].
  - intros _. exists r. reflexivity.
  - simpl. exact IH.
Qed.

Lemma upto_last_last (c : ascii) (s : string) :
  has_char c s = true -> last_char (upto_last c s) = Some c.
Proof.
  induction s as [|a r IH]; [discriminate|].
  rewrite has_char_cons. simpl.
  destruct (has_char c r) eqn:Hr.
  - intros _. specialize (IH eq_refl).
    destruct (upto_last c r); [discriminate | exact IH].
  - rewrite orb_false_r. intros Ha. rewrite Ha.
    apply Ascii.eqb_eq in Ha. subst. reflexivity.
Qed.

Lemma upto_last_chars (c d : ascii) (s : string) :
  has_char d s = false -> has_char d (upto_last c s) = false.
Proof.
  induction s as [|a r IH]; [intros H; exact H|].
  rewrite has_char_cons. intros H. apply orb_false_iff in H.
  destruct H as [Ha Hr]. simpl.
  destruct (has_char c r).
  - rewrite has_char_cons, Ha, (IH Hr). reflexivity.
  - destruct (Ascii.eqb a c); [|reflexivity].
    unfold chr. rewrite has_char_cons, Ha. reflexivity.
Qed.

(** X5.  After the cleaning of the reply, a text that holds an opening
    brace starts with one, and a text that holds a closing brace ends
    with one: what stood before the first opening brace and after the
    last closing brace is gone. *)
Theorem clean_response_braces (response_text : string) :
  (has_char "{" (clean_response response_text) = true ->
   exists rest, clean_response response_text = String "{" rest)
  /\ (has_char "}" (clean_response response_text) = true ->
      last_char (clean_response response_text) = Some "}"%char).
Proof.
  unfold clean_response.
  set (t1 := if contains FENCE_JSON response_text then _
             else if contains FENCE response_text then _
             else response_text).
  destruct (has_char "{" t1) eqn:H1.
  - destruct (has_char_from_first _ _ H1) as [rest Hrest]. rewrite Hrest.
    destruct (has_char "}" (String "{" rest)) eqn:H2.
    + split.
      * intros _. rewrite has_char_cons in H2. simpl in H2.
        simpl. rewrite H2. eexists; reflexivity.
      * intros _. apply upto_last_last, H2.
    + split; [intros _; eexists; reflexivity|].
      intros H. rewrite H in H2. discriminate.
  - destruct (has_char "}" t1) eqn:H2.
    + split.
      * intros H. rewrite (upto_last_chars _ _ _ H1) in H. discriminate.
      * intros _. apply upto_last_last, H2.
    + split; intros H; rewrite H in *; discriminate.
Qed.

Lemma clean_response_braces_witness :
  (exists rest,
      clean_response (FENCE_JSON ++ NL ++ NAME_ONLY_REPLY ++ NL ++ FENCE)
      = String "{" rest)
  /\ last_char
       (clean_response (FENCE_JSON ++ NL ++ NAME_ONLY_REPLY ++ NL ++ FENCE))
     = Some "}"%char.
Proof.
  destruct (clean_response_braces
              (FENCE_JSON ++ NL ++ NAME_ONLY_REPLY ++ NL ++ FENCE))
    as [Hopen Hclose].
  split; [apply Hopen; reflexivity | apply Hclose; reflexivity].
Defined.

(** ** Calls to the hosted model *)

Lemma take_take (n : nat) (s : string) : take n (take n s) = take n s.
Proof.
  revert s; induction n as [|n IH]; intros [|c r]; simpl; try reflexivity.
  rewrite IH. reflexivity.
Qed.

Lemma extraction_prompt_slice (clean_text : string) :
  extraction_prompt (slice_to 20000 clean_text) = extraction_prompt clean_text.
Proof.
  unfold extraction_prompt, slice_to. rewrite take_take. reflexivity.
Qed.

Section CallFacts.

Context {W : Type} (env : Caps W).

Lemma only_writes_app (a b : list event) :
  only_writes a -> only_writes b -> only_writes (a ++ b).
Proof. intros Ha Hb. apply Forall_app. split; assumption. Qed.

Lemma only_writes_one (file content : string) :
  only_writes [EvWrite file content].
Proof. repeat constructor. eexists _, _; reflexivity. Qed.

Lemma llm_calls_writes (writes rest : list event) :
  only_writes writes -> llm_calls (writes ++ rest) = llm_calls rest.
Proof.
  induction 1 as [|ev ws [f [c ->]] _ IH]; [reflexivity|]. exact IH.
Qed.

Lemma llm_calls_other (ev : event) (rest : list event) :
  is_generate ev = false -> llm_calls (ev :: rest) = llm_calls rest.
Proof. intros H. unfold llm_calls. simpl. rewrite H. reflexivity. Qed.

(** *** Computations that only write debug files *)

Lemma writes_only_ret {A : Type} (a : A) : writes_only (ret a : M W A).
Proof. intros s. exists []. split; [reflexivity | constructor]. Qed.

Lemma writes_only_raise {A : Type} (e : exn) : writes_only (raise e : M W A).
Proof. intros s. exists []. split; [reflexivity | constructor]. Qed.

Lemma writes_only_lift {A : Type} (o : outcome A) :
  writes_only (lift o : M W A).
Proof. intros s. exists []. split; [reflexivity | constructor]. Qed.

Lemma writes_only_print (symbol : option pictograph) (text : string)
  (values : list pyval) :
  writes_only (py_print env symbol text values).
Proof.
  intros s. exists []. rewrite py_print_state.
  split; [reflexivity | constructor].
Qed.

Lemma writes_only_save (file content : string) :
  writes_only (save env file content).
Proof.
  intros s. exists [EvWrite file content]. unfold save, call.
  destruct (write_file env file content (world s)).
  split; [reflexivity | apply only_writes_one].
Qed.

Lemma writes_only_try_then {A B : Type} (m : M W A) (h : exn -> M W B)
  (k : A -> M W B) :
  writes_only m -> (forall e, writes_only (h e)) ->
  (forall a, writes_only (k a)) -> writes_only (try_then m h k).
Proof.
  intros Hm Hh Hk s. unfold try_then.
  destruct (Hm s) as [w1 [E1 O1]].
  destruct (m s) as [[a|e] s1]; cbn [snd] in E1.
  - destruct (Hk a s1) as [w2 [E2 O2]]. exists (w2 ++ w1)%list.
    rewrite E2, E1, app_assoc. split; [reflexivity|].
    apply only_writes_app; assumption.
  - destruct (Hh e s1) as [w2 [E2 O2]]. exists (w2 ++ w1)%list.
    rewrite E2, E1, app_assoc. split; [reflexivity|].
    apply only_writes_app; assumption.
Qed.

Lemma writes_only_bind {A B : Type} (m : M W A) (k : A -> M W B) :
  writes_only m -> (forall a, writes_only (k a)) -> writes_only (bind m k).
Proof.
  intros Hm Hk.
  exact (writes_only_try_then m (fun e => raise e) k Hm
           (fun e => writes_only_raise e) Hk).
Qed.

Lemma writes_only_try_except {A : Type} (m : M W A) (h : exn -> M W A) :
  writes_only m -> (forall e, writes_only (h e)) ->
  writes_only (try_except m h).
Proof.
  intros Hm Hh.
  exact (writes_only_try_then m h (fun a => ret a) Hm Hh
           (fun a => writes_only_ret a)).
Qed.

End CallFacts.

(** Breaks a computation into its calls, down to prints and writes. *)
Ltac writes_only_steps :=
  repeat first
    [ apply writes_only_ret | apply writes_only_raise
    | apply writes_only_lift | apply writes_only_print
    | apply writes_only_save
    | apply writes_only_bind; [|intros ?]
    | apply writes_only_try_then; [|intros ?|intros ?]
    | apply writes_only_try_except; [|intros ?]
    | match goal with
      | |- writes_only (match ?x with _ => _ end) => destruct x
      end ].

Section PrompterTrace.

Context {W : Type} (env : Caps W).

Lemma response_text_of_writes (r : response) :
  writes_only (response_text_of env r).
Proof. unfold response_text_of. writes_only_steps. Qed.

Lemma extraction_handlers_writes (bound : option string)
  (clean_text : string) (e : exn) :
  writes_only (extraction_handlers env bound clean_text e).
Proof. unfold extraction_handlers. writes_only_steps. Qed.

Lemma print_summary_writes (d : dict) : writes_only (print_summary env d).
Proof. unfold print_summary. writes_only_steps. Qed.

Lemma print_parse_error_writes (t : string) :
  writes_only (print_parse_error env t).
Proof. unfold print_parse_error. writes_only_steps. Qed.

(** What one call of the Prompter adds to the trace. *)
Lemma prompter_trace (clean_text url : string) (s : state W) :
  exists o s' writes,
    extract_structured_data_with_gemini env clean_text url s = (o, s')
    /\ only_writes writes
    /\ if stdout_pictographs env
       then trace s'
            = (writes ++ EvGenerate (extraction_prompt clean_text)
               :: trace s)%list
       else s' = s /\ exists msg, o = Raise (Exn UnicodeEncodeError msg).
Proof.
  destruct (stdout_pictographs env) eqn:Hp.
  2:{ destruct (prompter_refused env clean_text url s Hp) as [msg E].
      eexists _, s, []. split; [exact E|]. split; [constructor|].
      split; [reflexivity | exists msg; reflexivity]. }
  unfold extract_structured_data_with_gemini.
  rewrite (py_print_symbol env _ _ Hp).
  match goal with
  | |- context [try_then (ret tt ;; r <- ?g ;; response_text_of env r) ?h ?k] =>
      assert (Hrest : forall r, writes_only
                (try_then (response_text_of env r) h k));
      [|set (handlers := h) in *; set (rest := k) in *]
  end.
  { intros r. apply writes_only_try_then.
    - apply response_text_of_writes.
    - intros e. apply extraction_handlers_writes.
    - intros bound. destruct bound as [raw|]; [|apply writes_only_ret].
      cbv zeta.
      destruct (parse_reply env (clean_response raw)) as [t parsed].
      writes_only_steps;
        first [ apply extraction_handlers_writes
              | apply print_parse_error_writes
              | apply print_summary_writes ]. }
  unfold try_then at 1. unfold bind at 1 2. unfold ret at 1. unfold call at 1.
  destruct (generate_content env (extraction_prompt clean_text) (world s))
    as [[r|e] w1].
  - specialize (Hrest r (State w1 (EvGenerate (extraction_prompt clean_text)
                                   :: trace s))).
    destruct Hrest as [writes [Ht Hw]]. unfold try_then in Ht.
    destruct (response_text_of env r _) as [[bound|e] s1].
    + destruct (rest bound s1) as [o s2]. exists o, s2, writes.
      split; [reflexivity|]. split; [exact Hw | exact Ht].
    + destruct (handlers e s1) as [o s2]. exists o, s2, writes.
      split; [reflexivity|]. split; [exact Hw | exact Ht].
  - destruct (extraction_handlers_writes None clean_text e
                (State w1 (EvGenerate (extraction_prompt clean_text)
                           :: trace s))) as [writes [Ht Hw]].
    subst handlers.
    destruct (extraction_handlers env None clean_text e _) as [o s2].
    exists o, s2, writes. split; [reflexivity|]. split; [exact Hw | exact Ht].
Qed.

End PrompterTrace.

Section CallCount.

Context {W : Type} (env : Caps W).

Lemma calls_of_writes {A : Type} (n : nat) (m : M W A) :
  writes_only m -> calls_at_most n m.
Proof.
  intros Hm s. destruct (Hm s) as [writes [-> Hw]].
  rewrite (llm_calls_writes _ _ Hw). lia.
Qed.

Lemma calls_bind_zero {A B : Type} (n : nat) (m : M W A) (k : A -> M W B) :
  calls_at_most 0 m -> (forall a, calls_at_most n (k a)) ->
  calls_at_most n (bind m k).
Proof.
  intros Hm Hk s. unfold bind. specialize (Hm s).
  destruct (m s) as [[a|e] s1]; cbn [snd] in *.
  - specialize (Hk a s1). lia.
  - lia.
Qed.

Lemma calls_bind_last {A B : Type} (n : nat) (m : M W A) (k : A -> M W B) :
  calls_at_most n m -> (forall a, calls_at_most 0 (k a)) ->
  calls_at_most n (bind m k).
Proof.
  intros Hm Hk s. unfold bind. specialize (Hm s).
  destruct (m s) as [[a|e] s1]; cbn [snd] in *.
  - specialize (Hk a s1). lia.
  - lia.
Qed.

Lemma calls_try_except {A : Type} (n : nat) (m : M W A) (h : exn -> M W A) :
  calls_at_most n m -> (forall e, calls_at_most 0 (h e)) ->
  calls_at_most n (try_except m h).
Proof.
  intros Hm Hh s. unfold try_except. specialize (Hm s).
  destruct (m s) as [[a|e] s1]; cbn [snd] in *.
  - lia.
  - specialize (Hh e s1). lia.
Qed.

Lemma calls_log (n : nat) (ev : event) :
  is_generate ev = false -> calls_at_most n (log ev : M W unit).
Proof.
  intros H s. unfold log. cbn [snd trace].
  rewrite (llm_calls_other _ _ H). lia.
Qed.

Lemma calls_call {A : Type} (n : nat) (ev : event)
  (f : W -> outcome A * W) :
  is_generate ev = false -> calls_at_most n (call ev f).
Proof.
  intros H s. unfold call. destruct (f (world s)). cbn [snd trace].
  rewrite (llm_calls_other _ _ H). lia.
Qed.

Lemma calls_read {A : Type} (n : nat) (f : W -> outcome A) :
  calls_at_most n (read f).
Proof. intros s. unfold read. cbn [snd]. lia. Qed.

Lemma html_to_clean_text_writes (html : string) :
  writes_only (html_to_clean_text env html).
Proof. unfold html_to_clean_text. cbv zeta. writes_only_steps. Qed.

(** The Prompter calls the model once, or not at all when its first
    print is refused. *)
Lemma prompter_calls (clean_text url : string) (s : state W) :
  llm_calls
    (trace (snd (extract_structured_data_with_gemini env clean_text url s)))
  = if stdout_pictographs env then S (llm_calls (trace s))
    else llm_calls (trace s).
Proof.
  destruct (prompter_trace env clean_text url s)
    as [o [s' [ws [-> [Hw Ht]]]]].
  destruct (stdout_pictographs env); cbn [snd].
  - rewrite Ht, (llm_calls_writes _ _ Hw). reflexivity.
  - destruct Ht as [-> _]. reflexivity.
Qed.

Lemma prompter_calls_at_most (clean_text url : string) :
  calls_at_most 1 (extract_structured_data_with_gemini env clean_text url).
Proof.
  intros s. rewrite prompter_calls. destruct (stdout_pictographs env); lia.
Qed.

(** X6.  On a standard output that has the pictographs, whatever the
    model answers and whatever fails on the way, one call of the
    Prompter makes exactly one request to the hosted model, with the
    prompt built from the first 20000 characters of the clean text;
    everything else it adds to the trace is a write of a debug file.
    There is no retry.  On an output without the pictographs it makes no
    request: its first print raises, the print of its handler raises in
    turn, and the [UnicodeEncodeError] leaves the Prompter with the
    state as it was. *)
Theorem prompter_one_request (clean_text url : string) (s : state W) :
  exists o s' writes,
    extract_structured_data_with_gemini env clean_text url s = (o, s')
    /\ only_writes writes
    /\ if stdout_pictographs env
       then trace s'
            = (writes
               ++ EvGenerate (extraction_prompt (slice_to 20000 clean_text))
               :: trace s)%list
            /\ llm_calls (trace s') = S (llm_calls (trace s))
       else s' = s /\ exists msg, o = Raise (Exn UnicodeEncodeError msg).
Proof.
  pose proof (prompter_calls clean_text url s) as Hn.
  rewrite extraction_prompt_slice.
  destruct (prompter_trace env clean_text url s)
    as [o [s' [ws [E [Hw Ht]]]]].
  rewrite E in Hn. cbn [snd] in Hn. exists o, s', ws. split; [exact E|].
  split; [exact Hw|].
  destruct (stdout_pictographs env); [split; assumption | exact Ht].
Qed.

Lemma extract_structured_data_calls (clean_text url : string) :
  calls_at_most 1 (extract_structured_data env clean_text url).
Proof.
  unfold extract_structured_data. cbv zeta.
  apply calls_try_except; [|intros e; apply calls_of_writes;
                            writes_only_steps].
  apply calls_bind_last; [apply prompter_calls_at_most|].
  intros result. apply calls_of_writes. writes_only_steps.
Qed.

Lemma constructor_calls (s : state W) :
  llm_calls (trace (snd (GeminiProfileParser env s))) = llm_calls (trace s).
Proof.
  unfold GeminiProfileParser.
  destruct (getenv_GEMINI_API_KEY env (world s)) as [key|]; [|reflexivity].
  destruct (String.eqb key "" || String.eqb key KEY_PLACEHOLDER);
    [reflexivity|].
  unfold try_except, bind, call, raise.
  destruct (genai_configure env key (world s)) as [[[]|e] w];
    [|reflexivity].
  match goal with |- context [py_print env ?a ?b ?c ?st] =>
    pose proof (py_print_state env a b c st) as Hs;
    destruct (py_print env a b c st) as [[[]|e] s1]
  end; cbn [snd] in *; subst s1; reflexivity.
Qed.

Lemma parse_profile_calls (url : string) :
  calls_at_most 1 (parse_profile env url).
Proof.
  unfold parse_profile, get_page_html.
  apply calls_try_except; [|intros e; apply calls_of_writes;
                            writes_only_steps].
  apply calls_bind_zero; [apply calls_of_writes, writes_only_print|].
  intros _.
  apply calls_bind_zero; [apply calls_log; reflexivity|]. intros _.
  apply calls_bind_zero; [apply calls_of_writes, writes_only_print|].
  intros _.
  apply calls_bind_zero.
  { apply calls_bind_zero; [apply calls_log; reflexivity|]. intros _.
    apply calls_read. }
  intros html.
  apply calls_bind_zero;
    [apply calls_of_writes, html_to_clean_text_writes|].
  intros [clean_text|]; [|apply calls_of_writes, writes_only_ret].
  destruct (String.eqb clean_text "" || (len clean_text <? 100));
    [apply calls_of_writes, writes_only_ret|].
  apply calls_bind_zero; [apply calls_of_writes, writes_only_save|].
  intros _.
  apply calls_bind_zero; [apply calls_of_writes, writes_only_print|].
  intros _.
  apply calls_bind_last; [apply extract_structured_data_calls|].
  intros d. apply calls_of_writes. writes_only_steps.
Qed.

Lemma scroll_to_bottom_calls (fuel : nat) (cur last : Z) (s : state W)
  (o : outcome unit) (s' : state W) :
  scroll_to_bottom env fuel cur last s = Some (o, s') ->
  llm_calls (trace s') = llm_calls (trace s).
Proof.
  revert cur last s. induction fuel as [|fuel IH]; intros cur last s; simpl.
  - destruct (cur <? last); [discriminate|].
    unfold finite, ret. intros H; injection H as _ <-. reflexivity.
  - destruct (cur <? last).
    + unfold pbind at 1. unfold finite at 1, call.
      destruct (scroll_to env _ (world s)) as [[[]|e] w1].
      2:{ intros H; injection H as _ <-. reflexivity. }
      unfold pbind at 1. unfold finite at 1, log. cbn [world trace].
      unfold pbind at 1. unfold finite at 1, call. cbn [world trace].
      destruct (scroll_height env w1) as [[h|e] w2].
      2:{ intros H; injection H as _ <-. reflexivity. }
      intros H. apply IH in H. rewrite H. reflexivity.
    + unfold finite, ret. intros H; injection H as _ <-. reflexivity.
Qed.

Lemma scroll_pass_calls (fuel : nat) (s : state W) (o : outcome unit)
  (s' : state W) :
  scroll_pass env fuel s = Some (o, s') ->
  llm_calls (trace s') = llm_calls (trace s).
Proof.
  unfold scroll_pass. unfold pbind at 1. unfold finite at 1, call.
  destruct (scroll_height env (world s)) as [[h|e] w1].
  2:{ intros H; injection H as _ <-. reflexivity. }
  unfold pbind.
  destruct (scroll_to_bottom env fuel 0 h _) as [[[[]|e] s1]|] eqn:E;
    [| |discriminate]; apply scroll_to_bottom_calls in E; cbn [trace] in E.
  - unfold finite, log. intros H; injection H as _ <-. exact E.
  - intros H; injection H as _ <-. exact E.
Qed.

Lemma smooth_scroll_calls (fuel : nat) (s : state W) (o : outcome unit)
  (s' : state W) :
  smooth_scroll env fuel s = Some (o, s') ->
  llm_calls (trace s') = llm_calls (trace s).
Proof.
  unfold smooth_scroll, ptry_except.
  unfold pbind at 1. unfold finite at 1, log.
  assert (Hpass : forall (k : unit -> P W unit) s0 o0 s0',
             (forall s1 o1 s1', k tt s1 = Some (o1, s1') ->
                llm_calls (trace s1') = llm_calls (trace s1)) ->
             pbind (scroll_pass env fuel) k s0 = Some (o0, s0') ->
             llm_calls (trace s0') = llm_calls (trace s0)).
  { intros k s0 o0 s0' Hk. unfold pbind.
    destruct (scroll_pass env fuel s0) as [[[[]|e] s1]|] eqn:E;
      [| |discriminate]; apply scroll_pass_calls in E.
    - intros H. apply Hk in H. congruence.
    - intros H; injection H as _ <-. exact E. }
  match goal with |- context [match ?m with _ => _ end] =>
    destruct m as [[[[]|e] s1]|] eqn:E end; [| |discriminate].
  - intros H; injection H as _ <-.
    apply Hpass in E; [exact E|]. intros s2 o2 s2' E2.
    apply Hpass in E2; [exact E2|]. intros s3 o3 s3' E3.
    apply Hpass in E3; [exact E3|]. intros s4 o4 s4'.
    unfold pbind, finite, call, log.
    destruct (scroll_to env 0 (world s4)) as [[[]|e] w];
      intros H; injection H as _ <-; reflexivity.
  - unfold finite, ret. intros H; injection H as _ <-.
    apply Hpass in E; [exact E|]. intros s2 o2 s2' E2.
    apply Hpass in E2; [exact E2|]. intros s3 o3 s3' E3.
    apply Hpass in E3; [exact E3|]. intros s4 o4 s4'.
    unfold pbind, finite, call, log.
    destruct (scroll_to env 0 (world s4)) as [[[]|e0] w];
      intros H; injection H as _ <-; reflexivity.
Qed.

Lemma navigate_to_profile_calls (fuel : nat) (url : string) (s : state W)
  (o : outcome (bool * string)) (s' : state W) :
  navigate_to_profile env fuel url s = Some (o, s') ->
  llm_calls (trace s') = llm_calls (trace s).
Proof.
  unfold navigate_to_profile, human_like_delay, ptry_except.
  unfold pbind at 1. unfold finite at 1, call.
  destruct (driver_get env url (world s)) as [[[]|e] w].
  2:{ unfold finite, ret. intros H; injection H as _ <-. reflexivity. }
  unfold pbind at 1. unfold finite at 1, log. cbn [world trace].
  unfold pbind at 1. unfold finite at 1, read. cbn [world trace].
  destruct (driver_current_url env w) as [cur|e].
  2:{ unfold finite, ret. intros H; injection H as _ <-. reflexivity. }
  destruct (contains "checkpoint" cur || contains "authwall" cur).
  { unfold finite, ret. intros H; injection H as _ <-. reflexivity. }
  destruct (contains "login" cur).
  { unfold finite, ret. intros H; injection H as _ <-. reflexivity. }
  unfold pbind at 1. unfold finite at 1, step. cbn [world trace].
  unfold pbind.
  match goal with |- context [smooth_scroll env fuel ?s1] =>
    destruct (smooth_scroll env fuel s1) as [[[[]|e] s2]|] eqn:E
  end; [| |discriminate]; apply smooth_scroll_calls in E; cbn [trace] in E.
  - unfold finite, ret. intros H; injection H as _ <-. exact E.
  - unfold finite, ret. intros H; injection H as _ <-. exact E.
Qed.

Lemma extract_profile_data_calls (fuel : nat) (url : string) (s : state W)
  (o : outcome dict) (s' : state W) :
  extract_profile_data env fuel url s = Some (o, s') ->
  (llm_calls (trace s') <= llm_calls (trace s) + 1)%nat.
Proof.
  unfold extract_profile_data. unfold pbind at 1.
  destruct (navigate_to_profile env fuel url s) as [[[[ok msg]|e] s1]|] eqn:En;
    [| |discriminate]; apply navigate_to_profile_calls in En.
  2:{ intros H; injection H as _ <-. lia. }
  destruct ok; cbn [negb]; unfold finite.
  2:{ match goal with |- Some (?m s1) = _ -> _ =>
        assert (Hm : calls_at_most 0 m)
          by (apply calls_of_writes; writes_only_steps);
        specialize (Hm s1); destruct (m s1) as [o1 s2]
      end.
      cbn [snd] in Hm. intros H; injection H as _ <-. lia. }
  match goal with |- Some (?m s1) = _ -> _ =>
    assert (Hm : calls_at_most 1 m); [|specialize (Hm s1);
                                       destruct (m s1) as [o1 s2]]
  end.
  2:{ cbn [snd] in Hm. intros H; injection H as _ <-. lia. }
  intros st. unfold try_then.
  assert (Hc : llm_calls
                 (trace (snd ((call EvImportParser (import_ai_parser env) ;;
                               GeminiProfileParser env)%py st)))
               = llm_calls (trace st)).
  { unfold bind, call.
    destruct (import_ai_parser env (world st)) as [[[]|e] w2];
      [|reflexivity].
    rewrite constructor_calls. cbn [trace].
    apply llm_calls_other. reflexivity. }
  destruct ((call EvImportParser (import_ai_parser env) ;;
             GeminiProfileParser env)%py st) as [[[]|e] s2];
    cbn [snd] in Hc.
  - assert (Hk : calls_at_most 1
                   (profile_data <- parse_profile env url ;;
                    (if match dict_get profile_data "success" with
                        | Some v => py_truthy v
                        | None => false
                        end
                     then py_print env (Some CHECK_MARK)
                            "Successfully extracted data for: "
                            (reply_value profile_data "name")
                     else py_print env (Some CROSS_MARK)
                            "Failed to extract data: "
                            (reply_value profile_data "error")) ;;
                    ret profile_data)%py).
    { apply calls_bind_last; [apply parse_profile_calls|].
      intros d. apply calls_of_writes. writes_only_steps. }
    specialize (Hk s2). lia.
  - assert (Hh : calls_at_most 1
                   (if is_ImportError e
                    then (py_print env (Some CROSS_MARK)
                            ("Failed to import AI parser: " ++ exn_msg e)
                            [] ;;
                          ret (failure_record url
                                 (PStr ("AI parser import failed: "
                                        ++ exn_msg e))))%py
                    else raise e)).
    { apply calls_of_writes. writes_only_steps. }
    specialize (Hh s2). lia.
Qed.

Lemma scrape_from_calls (fuel : nat) (total : Z) (urls : list string) :
  forall (idx : Z) (results : list dict) (s : state W) o s',
    scrape_from env fuel None total idx urls results s = Some (o, s') ->
    (llm_calls (trace s') <= llm_calls (trace s) + length urls)%nat.
Proof.
  induction urls as [|url rest IH]; intros idx results s o s'; simpl.
  - unfold finite, ret. intros H; injection H as _ <-. lia.
  - unfold pbind at 1. unfold finite at 1, ret.
    unfold pbind at 1.
    destruct (extract_profile_data env fuel url s) as [[[d|e] s1]|] eqn:E;
      [| |discriminate]; apply extract_profile_data_calls in E.
    2:{ intros H; injection H as _ <-. lia. }
    unfold pbind at 1. unfold finite at 1.
    destruct (idx <? total); unfold human_like_delay, log;
      intros H; apply IH in H; cbn [trace] in H;
      try rewrite llm_calls_other in H by reflexivity; lia.
Qed.

End CallCount.

(** X7.  A batch without a progress callback calls the hosted model at
    most once for each URL of the input, whether it returns its list or
    ends on an exception. *)
Theorem scrape_multiple_profiles_llm_budget {W : Type} (env : Caps W)
  (fuel : nat) (urls : list string) (s : state W)
  (o : outcome (list dict)) (s' : state W) :
  scrape_multiple_profiles env fuel urls None s = Some (o, s') ->
  (llm_calls (trace s') <= llm_calls (trace s) + length urls)%nat.
Proof. unfold scrape_multiple_profiles. apply scrape_from_calls. Qed.

Lemma scrape_multiple_profiles_llm_budget_witness :
  exists o s',
    scrape_multiple_profiles
      (sim_env (Some "key") (fun u => u) PROFILE_PAGE NAME_ONLY_REPLY)
      3 [PROFILE_URL; CHECKPOINT_URL] None start = Some (o, s')
    /\ (llm_calls (trace s') <= llm_calls (trace start) + 2)%nat.
Proof.
  assert (H : exists o s',
             scrape_multiple_profiles
               (sim_env (Some "key") (fun u => u) PROFILE_PAGE NAME_ONLY_REPLY)
               3 [PROFILE_URL; CHECKPOINT_URL] None start = Some (o, s')).
  { do 2 eexists. vm_compute. reflexivity. }
  destruct H as [o [s' H]]. exists o, s'. split; [exact H|].
  exact (scrape_multiple_profiles_llm_budget _ _ _ _ _ _ H).
Defined.

(** ** Navigation, scrolling and pacing *)



Section ScrollFacts.

Context {W : Type} (env : Caps W).

Lemma scroll_to_bottom_ends (bound : Z) (fuel : nat) :
  page_height_at_most env bound ->
  forall (cur last : Z) (s : state W),
    last <= bound -> bound - cur <= SCROLL_INCREMENT * Z.of_nat fuel ->
    scroll_to_bottom env fuel cur last s <> None.
Proof.
  intros Hb. unfold SCROLL_INCREMENT.
  induction fuel as [|fuel IH]; intros cur last s Hl Hf; simpl.
  - destruct (cur <? last) eqn:E; [lia | discriminate].
  - destruct (cur <? last) eqn:E; [|discriminate].
    unfold pbind at 1. unfold finite at 1, call.
    destruct (scroll_to env _ (world s)) as [[[]|e] w1]; [|discriminate].
    unfold pbind at 1. unfold finite at 1, log. cbn [world trace].
    unfold pbind at 1. unfold finite at 1, call. cbn [world trace].
    pose proof (Hb w1) as Hh.
    destruct (scroll_height env w1) as [[h|e] w2]; [|discriminate].
    simpl in Hh. apply IH.
    + destruct (h >? last); lia.
    + unfold SCROLL_INCREMENT. lia.
Qed.

Lemma scroll_pass_ends (bound : Z) (fuel : nat) (s : state W) :
  page_height_at_most env bound ->
  bound <= SCROLL_INCREMENT * Z.of_nat fuel ->
  scroll_pass env fuel s <> None.
Proof.
  intros Hb Hf. unfold scroll_pass.
  unfold pbind at 1. unfold finite at 1, call.
  pose proof (Hb (world s)) as Hh.
  destruct (scroll_height env (world s)) as [[h|e] w1]; [|discriminate].
  simpl in Hh. unfold pbind.
  match goal with |- context [scroll_to_bottom env fuel 0 h ?s1] =>
    pose proof (scroll_to_bottom_ends bound fuel Hb 0 h s1 Hh) as He;
    destruct (scroll_to_bottom env fuel 0 h s1) as [[[[]|e] s2]|]
  end; try discriminate.
  exfalso. apply He; [lia | reflexivity].
Qed.

Lemma smooth_scroll_ends (bound : Z) (fuel : nat) :
  page_height_at_most env bound ->
  bound <= SCROLL_INCREMENT * Z.of_nat fuel ->
  scroll_settles env fuel.
Proof.
  intros Hb Hf s. unfold smooth_scroll, ptry_except.
  unfold pbind at 1. unfold finite at 1, log.
  assert (Hpass : forall (k : unit -> P W unit) s0,
             (forall s1, k tt s1 <> None) ->
             pbind (scroll_pass env fuel) k s0 <> None).
  { intros k s0 Hk. unfold pbind.
    pose proof (scroll_pass_ends bound fuel s0 Hb Hf) as Hp.
    destruct (scroll_pass env fuel s0) as [[[[]|e] s1]|];
      [apply Hk | discriminate | contradiction]. }
  match goal with |- match ?m with _ => _ end <> None =>
    assert (m <> None) as Hm; [|destruct m as [[[[]|e] s1]|];
      [discriminate | discriminate | contradiction]]
  end.
  apply Hpass. intros s1. apply Hpass. intros s2. apply Hpass. intros s3.
  unfold pbind, finite, call, log.
  destruct (scroll_to env 0 (world s3)) as [[[]|e] w]; discriminate.
Qed.

Lemma scrape_from_ends (fuel : nat) (cb : option (callback W)) (total : Z)
  (urls : list string) :
  scroll_settles env fuel ->
  forall idx results s,
    scrape_from env fuel cb total idx urls results s <> None.
Proof.
  intros Hs. induction urls as [|url rest IH]; intros idx results s; simpl.
  - discriminate.
  - unfold pbind at 1. unfold finite at 1.
    destruct (match cb with Some f => f idx total url | None => ret tt end s)
      as [[[]|e] s1]; [|discriminate].
    unfold pbind at 1.
    assert (extract_profile_data env fuel url s1 <> None) as He.
    { unfold extract_profile_data. unfold pbind at 1.
      pose proof (Hs) as Hs'.
      destruct (navigate_to_profile env fuel url s1) as [[[[ok msg]|e] s2]|]
        eqn:En.
      - destruct ok; simpl; discriminate.
      - discriminate.
      - exfalso. revert En.
        unfold navigate_to_profile, human_like_delay, ptry_except.
        unfold pbind at 1. unfold finite at 1, call.
        destruct (driver_get env url (world s1)) as [[[]|e] w];
          [|discriminate].
        unfold pbind at 1. unfold finite at 1, log. cbn [world trace].
        unfold pbind at 1. unfold finite at 1, read. cbn [world trace].
        destruct (driver_current_url env w) as [cur|e]; [|discriminate].
        destruct (contains "checkpoint" cur || contains "authwall" cur);
          [discriminate|].
        destruct (contains "login" cur); [discriminate|].
        unfold pbind at 1. unfold finite at 1, step. cbn [world trace].
        unfold pbind.
        match goal with |- context [smooth_scroll env fuel ?s3] =>
          pose proof (Hs s3) as H3;
          destruct (smooth_scroll env fuel s3) as [[[[]|e] s4]|]
        end; try discriminate. contradiction. }
    destruct (extract_profile_data env fuel url s1) as [[[d|e] s2]|];
      [|discriminate|contradiction].
    unfold pbind at 1. unfold finite at 1.
    destruct ((if idx <? total then human_like_delay 6 10 else ret tt) s2)
      as [[[]|e] s3]; [apply IH | discriminate].
Qed.

End ScrollFacts.

(** X9.  On a page whose reported height never exceeds a bound, the
    scroll loops end: with one unit of fuel for each 400 pixels of the
    bound, [smooth_scroll] ends from every state, and so does a whole
    batch, with or without a progress callback. *)
Theorem scroll_ends_on_bounded_page {W : Type} (env : Caps W) (bound : Z)
  (fuel : nat) (urls : list string) (cb : option (callback W))
  (s : state W) :
  page_height_at_most env bound ->
  bound <= 400 * Z.of_nat fuel ->
  scroll_settles env fuel
  /\ exists o s', scrape_multiple_profiles env fuel urls cb s = Some (o, s').
Proof.
  intros Hb Hf.
  pose proof (smooth_scroll_ends env bound fuel Hb Hf) as Hs.
  split; [exact Hs|].
  pose proof (scrape_from_ends env fuel cb (Z.of_nat (length urls)) urls Hs
                1 [] s) as H.
  unfold scrape_multiple_profiles.
  destruct (scrape_from env fuel cb (Z.of_nat (length urls)) 1 urls [] s)
    as [[o s']|]; [exists o, s'; reflexivity | contradiction].
Qed.

Lemma sim_env_height (api_key : option string) (landing : string -> string)
  (page reply : string) :
  page_height_at_most (sim_env api_key landing page reply) 900.
Proof. intros w. simpl. lia. Defined.

Lemma scroll_ends_on_bounded_page_witness :
  scroll_settles
    (sim_env (Some "key") (fun u => u) PROFILE_PAGE NAME_ONLY_REPLY) 3
  /\ exists o s',
       scrape_multiple_profiles
         (sim_env (Some "key") (fun u => u) PROFILE_PAGE NAME_ONLY_REPLY)
         3 [PROFILE_URL] None start = Some (o, s').
Proof.
  apply (scroll_ends_on_bounded_page
           (sim_env (Some "key") (fun u => u) PROFILE_PAGE NAME_ONLY_REPLY)
           900 3 [PROFILE_URL] None start).
  - apply sim_env_height.
  - lia.
Defined.

Section EndlessFacts.

Context {W : Type} (env : Caps W) (top : W -> Z).

Lemma scroll_to_bottom_endless (fuel : nat) :
  page_keeps_growing env top ->
  forall (cur last : Z) (s : state W),
    cur < last -> scroll_to_bottom env fuel cur last s = None.
Proof.
  intros [Hto Hh]. induction fuel as [|fuel IH]; intros cur last s Hlt; simpl.
  - replace (cur <? last) with true by lia. reflexivity.
  - replace (cur <? last) with true by lia.
    unfold pbind at 1. unfold finite at 1, call.
    destruct (Hto (cur + SCROLL_INCREMENT) (world s)) as [w1 [-> Ht1]].
    unfold pbind at 1. unfold finite at 1, log. cbn [world trace].
    unfold pbind at 1. unfold finite at 1, call. cbn [world trace].
    destruct (Hh w1) as [h [w2 [-> [_ [Hgt _]]]]].
    apply IH. destruct (h >? last) eqn:E; lia.
Qed.

End EndlessFacts.

(** X10.  The scroll loop has no bound of its own: on a page that is
    always longer than the position scrolled to, [smooth_scroll] does not
    end, whatever the fuel. *)
Theorem smooth_scroll_endless_page {W : Type} (env : Caps W) (top : W -> Z)
  (fuel : nat) (s : state W) :
  page_keeps_growing env top ->
  smooth_scroll env fuel s = None.
Proof.
  intros Hg. pose proof Hg as [_ Hh].
  unfold smooth_scroll, ptry_except.
  unfold pbind at 1. unfold finite at 1, log.
  unfold scroll_pass at 1.
  unfold pbind at 1. unfold pbind at 1. unfold finite at 1, call.
  cbn [world trace].
  destruct (Hh (world s)) as [h [w1 [-> [_ [_ Hpos]]]]].
  unfold pbind at 1.
  rewrite (scroll_to_bottom_endless env top fuel Hg 0 h _ Hpos).
  reflexivity.
Qed.

Lemma endless_env_grows : page_keeps_growing endless_env (fun w => w).
Proof.
  split.
  - intros position w. exists position. split; reflexivity.
  - intros w. exists (Z.max w 0 + 1000), w. simpl.
    repeat split; lia.
Defined.

Lemma smooth_scroll_endless_page_witness :
  smooth_scroll endless_env 1000 (State 0 []) = None.
Proof.
  exact (smooth_scroll_endless_page endless_env (fun w => w) 1000
           (State 0 []) endless_env_grows).
Defined.

Section PacingFacts.

Context {W : Type} (env : Caps W).

Lemma scrape_from_paced (fuel : nat) (total : Z) (urls : list string) :
  forall (idx : Z) (results : list dict) (s : state W) rs s',
    idx + Z.of_nat (length urls) = total + 1 ->
    scrape_from env fuel None total idx urls results s = Some (Ret rs, s') ->
    exists ds, rs = (results ++ ds)%list /\ paced_run env fuel urls s ds s'.
Proof.
  induction urls as [|url rest IH]; intros idx results s rs s' Hidx; simpl.
  - unfold finite, ret. intros H; injection H as <- <-.
    exists []. rewrite app_nil_r. split; [reflexivity | constructor].
  - unfold pbind at 1. unfold finite at 1, ret.
    unfold pbind at 1.
    destruct (extract_profile_data env fuel url s) as [[[d|e] s1]|] eqn:E;
      [|discriminate|discriminate].
    unfold pbind at 1. unfold finite at 1.
    destruct rest as [|url' rest].
    + replace (idx <? total) with false by (simpl in Hidx; lia).
      simpl. unfold finite, ret. intros H; injection H as <- <-.
      exists [d]. split; [reflexivity | constructor; exact E].
    + replace (idx <? total) with true
        by (simpl length in Hidx; lia).
      unfold human_like_delay, log.
      change (1000 * 6) with 6000. change (1000 * 10) with 10000.
      intros H. apply IH in H; [|simpl length in *; lia].
      destruct H as [ds [-> Hp]]. exists (d :: ds).
      rewrite <- app_assoc. split; [reflexivity|].
      econstructor; [exact E | exact Hp].
Qed.

End PacingFacts.

(** X11.  A batch without callback that returns its list is a chain of
    runs of [extract_profile_data], one for each URL in order, each from
    the state the one before left; between two consecutive runs, and
    nowhere else, lies the pause of 6 to 10 seconds: there is none before
    the first URL and none after the last. *)
Theorem scrape_multiple_profiles_pacing {W : Type} (env : Caps W)
  (fuel : nat) (urls : list string) (s : state W) (rs : list dict)
  (s' : state W) :
  scrape_multiple_profiles env fuel urls None s = Some (Ret rs, s') ->
  paced_run env fuel urls s rs s'.
Proof.
  unfold scrape_multiple_profiles. intros H.
  apply scrape_from_paced in H; [|lia].
  destruct H as [ds [-> Hp]]. exact Hp.
Qed.

Lemma scrape_multiple_profiles_pacing_witness :
  exists rs s',
    scrape_multiple_profiles
      (sim_env (Some "key") (fun u => u) PROFILE_PAGE NAME_ONLY_REPLY)
      3 [PROFILE_URL; CHECKPOINT_URL] None start = Some (Ret rs, s')
    /\ paced_run
         (sim_env (Some "key") (fun u => u) PROFILE_PAGE NAME_ONLY_REPLY)
         3 [PROFILE_URL; CHECKPOINT_URL] start rs s'.
Proof.
  assert (H : exists rs s',
             scrape_multiple_profiles
               (sim_env (Some "key") (fun u => u) PROFILE_PAGE NAME_ONLY_REPLY)
               3 [PROFILE_URL; CHECKPOINT_URL] None start
             = Some (Ret rs, s')).
  { do 2 eexists. vm_compute. reflexivity. }
  destruct H as [rs [s' H]]. exists rs, s'. split; [exact H|].
  exact (scrape_multiple_profiles_pacing _ _ _ _ _ _ H).
Defined.

(** ** Which replies become records *)

(** X12.  The lines that make the record of the Prompter from a parsed
    reply object go through exactly when two things hold.  Each of the
    three sequence fields is absent, falsy, or a truthy value that has a
    length: otherwise the defaulting test raises a [TypeError].  And the
    summary can be printed: the standard output has the pictographs and
    encodes the name and the location, and the headline is absent or is
    a string or a list whose first 50 items the output encodes:
    otherwise the summary raises, with the state as it was. *)
Theorem finalize_record_accepts {W : Type} (env : Caps W) (d0 : dict)
  (url : string) (s : state W) :
  if acceptable_reply d0
  then exists d,
         finalize_record (PDict d0) url = Ret d
         /\ if summary_printable env d
            then print_summary env d s = (Ret tt, s)
            else exists e, print_summary env d s = (Raise e, s)
  else exists msg, finalize_record (PDict d0) url = Raise (Exn TypeError msg).
Proof.
  unfold acceptable_reply.
  destruct (sequence_ok (dict_get d0 "experiences")) eqn:S1.
  2:{ apply (finalize_record_raises d0 url "experiences");
        [simpl; tauto | exact S1]. }
  destruct (sequence_ok (dict_get d0 "educations")) eqn:S2.
  2:{ apply (finalize_record_raises d0 url "educations");
        [simpl; tauto | exact S2]. }
  destruct (sequence_ok (dict_get d0 "skills")) eqn:S3.
  2:{ apply (finalize_record_raises d0 url "skills");
        [simpl; tauto | exact S3]. }
  cbn [andb].
  destruct (finalize_record_returns d0 url) as [d Hf].
  { intros k [<-|[<-|[<-|[]]]]; assumption. }
  exists d. split; [exact Hf|].
  unfold summary_printable, print_summary, py_print, get_or. unfold_monad.
  destruct (finalize_record_lengths _ _ _ "experiences" Hf)
    as [v1 [n1 [-> [-> _]]]]; [simpl; tauto|].
  destruct (finalize_record_lengths _ _ _ "educations" Hf)
    as [v2 [n2 [-> [-> _]]]]; [simpl; tauto|].
  destruct (finalize_record_lengths _ _ _ "skills" Hf)
    as [v3 [n3 [-> [-> _]]]]; [simpl; tauto|].
  destruct (stdout_pictographs env); cbn [andb];
    [|eexists; reflexivity].
  destruct (forallb (stdout_takes env) (reply_value d "name")); cbn [andb];
    [|eexists; reflexivity].
  destruct (dict_get d "headline") as [h|].
  - destruct (py_slice_to 50 h) as [v|e]; cbn [obind andb forallb];
      [|eexists; reflexivity].
    destruct (stdout_takes env v); cbn [andb]; [|eexists; reflexivity].
    destruct (forallb (stdout_takes env) (reply_value d "location"));
      [reflexivity | eexists; reflexivity].
  - cbn [forallb andb].
    destruct (forallb (stdout_takes env) (reply_value d "location"));
      [reflexivity | eexists; reflexivity].
Qed.

(** ** Debug files and error messages *)

Section DebugFacts.

Context {W : Type} (env : Caps W).

Lemma handlers_when_writes_succeed (bound : option string)
  (clean_text : string) (e : exn) (s : state W) :
  prints_all env ->
  (forall file content w, exists w',
      write_file env file content w = (Ret tt, w')) ->
  exists s',
    extraction_handlers env bound clean_text e s = (Ret None, s')
    \/ extraction_handlers env bound clean_text e s
       = (Raise UNBOUND_RESPONSE_TEXT, s').
Proof.
  intros Hall Hw. unfold extraction_handlers.
  rewrite !(py_print_all env _ _ _ Hall).
  unfold save, bind, call, ret, raise.
  destruct (is_JSONDecodeError e).
  - destruct bound as [t|].
    + rewrite (py_print_all env _ _ _ Hall). unfold ret.
      match goal with |- context [write_file env ?f ?c (world s)] =>
        destruct (Hw f c (world s)) as [w' ->] end.
      eexists. left. reflexivity.
    + exists s. right. reflexivity.
  - match goal with |- context [write_file env ?f ?c (world s)] =>
      destruct (Hw f c (world s)) as [w' ->] end.
    eexists. left. reflexivity.
Qed.

End DebugFacts.

(** X13.  When no file can be written in the working directory (every
    write raises), [parse_profile] never reaches the hosted model, and
    on a standard output that has the pictographs it returns a failure
    record: the failed write of the preview file makes the Normalizer
    return [None], and the record is the failure [Failed to extract text
    from HTML] whenever the page source could be read. *)
Theorem parse_profile_needs_writable_directory {W : Type} (env : Caps W)
  (url : string) (s : state W) :
  (forall file content w, exists e w',
      write_file env file content w = (Raise e, w')) ->
  stdout_pictographs env = true ->
  exists message s',
    parse_profile env url s = (Ret (failure_record url (PStr message)), s')
    /\ llm_calls (trace s') = llm_calls (trace s)
    /\ (forall html, driver_page_source env (world s) = Ret html ->
                     message = "Failed to extract text from HTML").
Proof.
  intros Hw Hp. unfold parse_profile, get_page_html, html_to_clean_text, save.
  print_on Hp. unfold_monad. cbn [world trace].
  destruct (driver_page_source env (world s)) as [html|e].
  2:{ eexists _, _. split; [reflexivity|]. split; [reflexivity|].
      intros html H. discriminate H. }
  destruct (soup_get_text env html) as [text|e].
  - destruct (len (join NL (clean_lines text)) >? MAX_CLEAN);
      cbn [world trace];
      match goal with |- context [write_file env ?f ?c ?w0] =>
        destruct (Hw f c w0) as [e [w' ->]] end;
      (eexists _, _; split; [reflexivity|]; split; [reflexivity|];
       intros _ _; reflexivity).
  - eexists _, _. split; [reflexivity|]. split; [reflexivity|].
    intros _ _. reflexivity.
Qed.

Lemma parse_profile_needs_writable_directory_witness :
  exists message s',
    parse_profile read_only_env PROFILE_URL start
    = (Ret (failure_record PROFILE_URL (PStr message)), s')
    /\ llm_calls (trace s') = llm_calls (trace start)
    /\ (forall html,
           driver_page_source read_only_env (world start) = Ret html ->
           message = "Failed to extract text from HTML").
Proof.
  apply (parse_profile_needs_writable_directory read_only_env PROFILE_URL
           start).
  - intros file content w. eexists _, _. reflexivity.
  - reflexivity.
Defined.

(** X14.  When the debug files can be written and the standard output
    encodes what is printed, [extract_structured_data] returns a record,
    and a failure record never carries the message of the exception that
    caused it: whatever the request, the reply accessor, the parse, the
    defaulting or the summary raised, the error is the fixed text [Gemini
    extraction failed] (or the message of the unbound [response_text],
    when the client raised a decode error before any reply text was
    there). *)
Theorem extract_structured_data_error_text {W : Type} (env : Caps W)
  (clean_text url : string) (s : state W) :
  (forall file content w, exists w',
      write_file env file content w = (Ret tt, w')) ->
  prints_all env ->
  exists d s',
    extract_structured_data env clean_text url s = (Ret d, s')
    /\ (from_model_reply env url d
        \/ d = failure_record url (PStr "Gemini extraction failed")
        \/ d = failure_record url (PStr (exn_msg UNBOUND_RESPONSE_TEXT))).
Proof.
  intros Hw Hall.
  assert (Hfin : forall (r : outcome (option dict) * state W),
             (exists s1, r = (Ret None, s1)
                         \/ r = (Raise UNBOUND_RESPONSE_TEXT, s1)) ->
             extract_structured_data_with_gemini env clean_text url s = r ->
             exists d s',
               extract_structured_data env clean_text url s = (Ret d, s')
               /\ (from_model_reply env url d
                   \/ d = failure_record url (PStr "Gemini extraction failed")
                   \/ d = failure_record url
                            (PStr (exn_msg UNBOUND_RESPONSE_TEXT)))).
  { intros r [s1 [->| ->]] E; unfold extract_structured_data; cbv zeta;
      rewrite !(py_print_all env _ _ _ Hall); unfold try_except, bind;
      rewrite E; try rewrite (py_print_all env _ _ _ Hall);
      eexists _, _; (split; [reflexivity|]); tauto. }
  destruct (extract_structured_data_with_gemini env clean_text url s)
    as [[[d|]|e] s1] eqn:E.
  - pose proof (prompter_success env _ _ _ _ _ E) as Hd.
    unfold extract_structured_data. cbv zeta.
    rewrite !(py_print_all env _ _ _ Hall). unfold try_except, bind.
    rewrite E.
    destruct (py_truthy (PDict d)); eexists _, _;
      (split; [reflexivity|]); tauto.
  - apply (Hfin (Ret None, s1)); [exists s1; tauto | reflexivity].
  - assert (e = UNBOUND_RESPONSE_TEXT) as ->.
    { revert E. unfold extract_structured_data_with_gemini.
      rewrite !(py_print_all env _ _ _ Hall).
      unfold try_then at 1. unfold bind at 1 2. unfold ret at 1.
      unfold call at 1.
      assert (Hh : forall b e0 s0 (e1 : exn) (s2 : state W),
                 extraction_handlers env b clean_text e0 s0 = (Raise e1, s2)
                 -> e1 = UNBOUND_RESPONSE_TEXT).
      { intros b e0 s0 e1 s2 H.
        destruct (handlers_when_writes_succeed env b clean_text e0 s0
                    Hall Hw)
          as [s3 [H3|H3]]; rewrite H3 in H; [discriminate|].
        injection H as <- _. reflexivity. }
      destruct (generate_content env _ (world s)) as [[r|e0] w1];
        [|apply Hh].
      destruct (response_text_of env r _) as [[[raw|]|e0] s2];
        [| discriminate | apply Hh].
      unfold try_then at 1. unfold bind at 1. unfold save at 1, call at 1.
      destruct (Hw "debug_gemini_response.txt" raw (world s2)) as [w3 ->].
      unfold ret at 1. cbv zeta. unfold try_then at 1.
      pose proof Hall as [Hp _].
      rewrite (print_parse_error_on env _ Hp),
        (py_print_all env _ _ _ Hall).
      unfold bind at 1. unfold ret at 1 2.
      destruct (parse_reply env (clean_response raw)) as [t parsed].
      unfold try_then, bind, lift.
      destruct parsed as [v|e0]; [|apply Hh].
      destruct (finalize_record v url) as [d|e0]; [|apply Hh].
      destruct (print_summary env d _) as [[[]|e0] s3];
        [discriminate | apply Hh]. }
    apply (Hfin (Raise UNBOUND_RESPONSE_TEXT, s1));
      [exists s1; tauto | reflexivity].
Qed.

Lemma extract_structured_data_error_text_witness :
  exists d s',
    extract_structured_data
      (sim_env (Some "key") (fun u => u) PROFILE_PAGE "not json")
      PROFILE_PAGE PROFILE_URL start = (Ret d, s')
    /\ (from_model_reply
          (sim_env (Some "key") (fun u => u) PROFILE_PAGE "not json")
          PROFILE_URL d
        \/ d = failure_record PROFILE_URL (PStr "Gemini extraction failed")
        \/ d = failure_record PROFILE_URL
                 (PStr (exn_msg UNBOUND_RESPONSE_TEXT))).
Proof.
  apply (extract_structured_data_error_text
           (sim_env (Some "key") (fun u => u) PROFILE_PAGE "not json")
           PROFILE_PAGE PROFILE_URL start).
  - intros file content w. exists w. reflexivity.
  - split; [reflexivity | intros v; reflexivity].
Defined.

(** ** The session of the scraper object *)

Lemma prefix_trans (q p s : string) :
  String.prefix q p = true -> String.prefix p s = true ->
  String.prefix q s = true.
Proof.
  revert p s. induction q as [|a q IH]; intros p s; [destruct s; reflexivity|].
  destruct p as [|b p]; [discriminate|]. destruct s as [|c s]; [discriminate|].
  simpl. destruct (ascii_dec a b) as [->|]; [|discriminate].
  destruct (ascii_dec b c) as [->|]; [|discriminate].
  destruct (ascii_dec c c); [|contradiction]. apply IH.
Qed.

Lemma contains_cons (p : string) (c : ascii) (s : string) :
  contains p (String c s) = String.prefix p (String c s) || contains p s.
Proof. reflexivity. Qed.

Lemma contains_of_prefix (q p s : string) :
  contains q p = true -> String.prefix p s = true -> contains q s = true.
Proof.
  revert s. induction p as [|a p IH]; intros s Hq Hp.
  - simpl in Hq. rewrite orb_false_r in Hq.
    destruct q; [|discriminate]. destruct s; reflexivity.
  - destruct s as [|c s]; [discriminate|].
    rewrite contains_cons in Hq. apply orb_true_iff in Hq.
    rewrite contains_cons. apply orb_true_iff.
    destruct Hq as [Hq|Hq].
    + left. exact (prefix_trans _ _ _ Hq Hp).
    + right. simpl in Hp. destruct (ascii_dec a c); [|discriminate].
      exact (IH s Hq Hp).
Qed.

(** Containment is transitive. *)
Lemma contains_trans (q p s : string) :
  contains q p = true -> contains p s = true -> contains q s = true.
Proof.
  intros Hq. induction s as [|c s IH]; intros Hp.
  - change (String.prefix p "" || false = true) in Hp.
    rewrite orb_false_r in Hp.
    exact (contains_of_prefix _ _ _ Hq Hp).
  - rewrite contains_cons in Hp. apply orb_true_iff in Hp.
    destruct Hp as [Hp|Hp]; [exact (contains_of_prefix _ _ _ Hq Hp)|].
    rewrite contains_cons. rewrite (IH Hp). apply orb_true_r.
Qed.

(** X15.  [check_login_status] never raises.  It answers [True] exactly
    when it sets [is_logged_in], leaves the object as it is when it
    answers [False] (so it never clears the flag), and on an object
    without browser it answers [False] without touching the
    environment. *)
Theorem check_login_status_answer {W : Type} (env : Caps W)
  (self : LinkedInScraper) (s : state W) :
  exists (answer : bool) s',
    check_login_status env self s
    = (Ret (answer,
            if answer then Scraper (driver self) true else self), s')
    /\ (driver self = false -> answer = false /\ s' = s).
Proof.
  unfold check_login_status, try_except.
  destruct (driver self) eqn:Hd; cbn [negb]; unfold_monad; cbn [world trace].
  - destruct (driver_current_url env (world s)) as [u|e].
    2:{ exists false, s. split; [reflexivity | discriminate]. }
    destruct (contains "feed" u || contains "mynetwork" u || contains "in/" u).
    { exists true, s. split; [reflexivity | discriminate]. }
    destruct (driver_get env FEED_URL (world s)) as [[[]|e] w];
      cbn [world trace].
    2:{ eexists false, _. split; [reflexivity | discriminate]. }
    destruct (driver_current_url env w) as [u2|e].
    2:{ eexists false, _. split; [reflexivity | discriminate]. }
    destruct (contains "feed" u2).
    + eexists true, _. split; [reflexivity | discriminate].
    + eexists false, _. split; [reflexivity | discriminate].
  - exists false, s. split; [reflexivity | tauto].
Qed.

Lemma check_login_status_answer_witness :
  exists (answer : bool) s',
    check_login_status
      (sim_env (Some "key") (fun u => u) PROFILE_PAGE NAME_ONLY_REPLY)
      new_scraper start
    = (Ret (answer,
            if answer then Scraper (driver new_scraper) true
            else new_scraper), s')
    /\ (driver new_scraper = false -> answer = false /\ s' = start).
Proof.
  exact (check_login_status_answer
           (sim_env (Some "key") (fun u => u) PROFILE_PAGE NAME_ONLY_REPLY)
           new_scraper start).
Defined.

(** X16.  The two session tests disagree on every URL that contains
    [login/]: it contains [in/], so [check_login_status] takes it for a
    logged-in page at once, without navigating to the feed; and it
    contains [login], so [navigate_to_profile], landing on it, refuses
    the profile. *)
Theorem login_slash_counts_as_logged_in {W : Type} (env : Caps W)
  (self : LinkedInScraper) (s : state W) (current_url : string) :
  driver self = true ->
  driver_current_url env (world s) = Ret current_url ->
  contains "login/" current_url = true ->
  check_login_status env self s = (Ret (true, Scraper true true), s)
  /\ forall fuel url s0 w,
       driver_get env url (world s0) = (Ret tt, w) ->
       driver_current_url env w = Ret current_url ->
       exists message s',
         navigate_to_profile env fuel url s0
         = Some (Ret (false, message), s').
Proof.
  intros Hd Hu Hc.
  assert (Hin : contains "in/" current_url = true)
    by (exact (contains_trans "in/" "login/" _ eq_refl Hc)).
  assert (Hlogin : contains "login" current_url = true)
    by (exact (contains_trans "login" "login/" _ eq_refl Hc)).
  split.
  - unfold check_login_status, try_except. rewrite Hd. cbn [negb].
    unfold_monad. rewrite Hu, Hin, !orb_true_r. reflexivity.
  - intros fuel url s0 w Hget Hcur.
    unfold navigate_to_profile, human_like_delay, ptry_except.
    unfold pbind at 1. unfold finite at 1, call. rewrite Hget.
    unfold pbind at 1. unfold finite at 1, log. cbn [world trace].
    unfold pbind at 1. unfold finite at 1, read. cbn [world trace].
    rewrite Hcur, Hlogin.
    destruct (contains "checkpoint" current_url
              || contains "authwall" current_url);
      eexists _, _; reflexivity.
Qed.

Lemma login_slash_counts_as_logged_in_witness :
  check_login_status
    (sim_env (Some "key") (fun u => u) PROFILE_PAGE NAME_ONLY_REPLY)
    (Scraper true false) (State "https://www.linkedin.com/login/" [])
  = (Ret (true, Scraper true true),
     State "https://www.linkedin.com/login/" [])
  /\ forall fuel url s0 w,
       driver_get
         (sim_env (Some "key") (fun u => u) PROFILE_PAGE NAME_ONLY_REPLY)
         url (world s0) = (Ret tt, w) ->
       driver_current_url
         (sim_env (Some "key") (fun u => u) PROFILE_PAGE NAME_ONLY_REPLY) w
       = Ret "https://www.linkedin.com/login/" ->
       exists message s',
         navigate_to_profile
           (sim_env (Some "key") (fun u => u) PROFILE_PAGE NAME_ONLY_REPLY)
           fuel url s0
         = Some (Ret (false, message), s').
Proof.
  exact (login_slash_counts_as_logged_in
           (sim_env (Some "key") (fun u => u) PROFILE_PAGE NAME_ONLY_REPLY)
           (Scraper true false)
           (State "https://www.linkedin.com/login/" [])
           "https://www.linkedin.com/login/"
           eq_refl eq_refl eq_refl).
Defined.

(** X17.  [close] never raises, also when [quit] does.  Whatever
    [open_linkedin_for_login] did before, returned or raised, the object
    after [close] holds no browser; [check_login_status] then answers
    [False] without touching the environment, and a second [close]
    changes nothing. *)
Theorem close_ends_the_session {W : Type} (env : Caps W)
  (browser : BrowserCaps W) (self : LinkedInScraper) (s : state W) :
  let '(_, opened, s1) := open_linkedin_for_login env browser self s in
  exists closed s2,
    close browser opened s1 = (Ret closed, s2)
    /\ driver closed = false
    /\ check_login_status env closed s2 = (Ret (false, closed), s2)
    /\ close browser closed s2 = (Ret closed, s2).
Proof.
  destruct (open_linkedin_for_login env browser self s) as [[o opened] s1].
  unfold close.
  destruct (driver opened) eqn:Hd.
  - unfold quiet. destruct (driver_quit browser (world s1)) as [q w].
    eexists _, _. split; [reflexivity|]. repeat split.
  - exists opened, s1. split; [reflexivity|]. split; [exact Hd|].
    split.
    + unfold check_login_status, try_except. rewrite Hd. reflexivity.
    + rewrite Hd. reflexivity.
Qed.

(** ** The export *)

Lemma map_outcome_raises {A B : Type} (f : A -> outcome B) (l : list A)
  (a : A) (e : exn) :
  In a l -> f a = Raise e -> exists e', map_outcome f l = Raise e'.
Proof.
  intros Hin Hf. induction l as [|b l IH]; [contradiction|].
  simpl. destruct Hin as [->|Hin].
  - rewrite Hf. exists e. reflexivity.
  - destruct (f b) as [y|e0]; [|exists e0; reflexivity]. simpl.
    destruct (IH Hin) as [e' ->]. exists e'. reflexivity.
Qed.

Lemma map_outcome_rows {A B : Type} (f : A -> outcome B) (l : list A)
  (rows : list B) :
  map_outcome f l = Ret rows -> Forall2 (fun a b => f a = Ret b) l rows.
Proof.
  revert rows. induction l as [|a l IH]; intros rows; simpl.
  - intros H; injection H as <-. constructor.
  - destruct (f a) as [b|e] eqn:E; [|discriminate]. simpl.
    destruct (map_outcome f l) as [bs|e]; [|discriminate]. simpl.
    intros H; injection H as <-. constructor; [exact E | apply IH; reflexivity].
Qed.

Section ExportFacts.

Variable str_of : pyval -> string.

(** X18.  The export of a batch in which every URL failed has one row for
    each record, in order: the name [ERROR], the error message in the
    About column, the URL in the last column and [N/A] in every other
    column.  It never raises on such a batch. *)
Theorem format_failures (failures : list (string * string)) :
  format_profile_data_for_csv str_of
    (map (fun f => failure_record (fst f) (PStr (snd f))) failures)
  = Ret (map (fun f => failure_row (fst f) (snd f)) failures).
Proof.
  unfold format_profile_data_for_csv.
  induction failures as [|[url message] l IH]; [reflexivity|].
  simpl map. simpl map_outcome. rewrite IH. reflexivity.
Qed.

(** X19.  A success record and the export compose: when the parsed reply
    lacks the three sequence fields, the record the Prompter makes from
    it is exported with [N/A at N/A (N/A)] as experience, [N/A - N/A -
    N/A] as education and [N/A] as skills, and with its URL. *)
Theorem format_row_of_placeholders (d0 : dict) (url : string) (d : dict) :
  (forall s, str_of (PStr s) = s) ->
  finalize_record (PDict d0) url = Ret d ->
  (forall k, In k SEQUENCE_FIELDS -> dict_get d0 k = None) ->
  exists row,
    format_row str_of d = Ret row
    /\ dict_get row "Experience" = Some (PStr "N/A at N/A (N/A)")
    /\ dict_get row "Education" = Some (PStr "N/A - N/A - N/A")
    /\ dict_get row "Skills" = Some (PStr "N/A")
    /\ dict_get row "Profile URL" = Some (PStr url).
Proof.
  intros Hstr Hf Hnone.
  destruct (finalize_record_spec _ _ _ Hf) as [Hu [Hs [_ [Hseq _]]]].
  assert (Hget : forall k, In k SEQUENCE_FIELDS ->
                           dict_get d k = Some (placeholder k)).
  { intros k Hk. specialize (Hseq k Hk). unfold defaulted in Hseq.
    rewrite (Hnone k Hk) in Hseq. exact Hseq. }
  unfold format_row, get_or.
  rewrite Hs, Hu.
  rewrite (Hget "experiences"), (Hget "educations"), (Hget "skills")
    by (simpl; tauto).
  unfold placeholder, EXPERIENCES_DEFAULT, EDUCATIONS_DEFAULT, SKILLS_DEFAULT,
    NA.
  cbn -[append]. rewrite !Hstr. eexists. split; [reflexivity|].
  repeat split.
Qed.

Lemma format_row_no_get (result : dict) (items : list pyval) (v : pyval) :
  py_truthy (get_or result "success" (PBool false)) = true ->
  dict_get result "experiences" = Some (PList items) ->
  In v items -> is_dict v = false ->
  exists e, format_row str_of result = Raise e.
Proof.
  intros Hs He Hin Hv. unfold format_row. rewrite Hs.
  unfold get_or at 1. rewrite He. unfold flatten.
  assert (py_truthy (PList items) = true) as ->
    by (destruct items; [contradiction | reflexivity]).
  simpl py_iter. simpl obind at 1.
  destruct (map_outcome_raises (format_experience str_of) items v (NO_GET v) Hin)
    as [e' ->].
  { destruct v; try reflexivity. discriminate. }
  exists e'. reflexivity.
Qed.

(** X20.  The export has no handler: one success record whose
    experiences hold an item that is not an object (the Prompter returns
    the list as parsed, whatever its items) makes
    [format_profile_data_for_csv] raise, and no row is written for any
    record of the batch. *)
Theorem format_raises_on_bad_item (results : list dict) (result : dict)
  (items : list pyval) (v : pyval) :
  In result results ->
  py_truthy (get_or result "success" (PBool false)) = true ->
  dict_get result "experiences" = Some (PList items) ->
  In v items -> is_dict v = false ->
  exists e, format_profile_data_for_csv str_of results = Raise e.
Proof.
  intros Hin Hs He Hv Hd.
  destruct (format_row_no_get result items v Hs He Hv Hd) as [e Hr].
  exact (map_outcome_raises _ _ _ _ Hin Hr).
Qed.

(** X21.  When the export returns, it has one row for each record, in
    order; each row carries the URL of its record, and the rows of the
    records whose [success] is falsy are the error rows. *)
Theorem format_rows_in_order (results rows : list dict) :
  format_profile_data_for_csv str_of results = Ret rows ->
  length rows = length results
  /\ Forall2 (fun result row =>
                dict_get row "Profile URL"
                = Some (get_or result "profile_url" NA)
                /\ (py_truthy (get_or result "success" (PBool false)) = false
                    -> row = error_row result))
       results rows.
Proof.
  intros H. apply map_outcome_rows in H.
  split; [symmetry; exact (Forall2_length H)|].
  eapply Forall2_impl; [|exact H].
  intros result row Hrow. unfold format_row in Hrow.
  destruct (py_truthy (get_or result "success" (PBool false))).
  - destruct (flatten (format_experience str_of) _); [|discriminate].
    destruct (flatten (format_education str_of) _); [|discriminate].
    cbn [obind] in Hrow.
    destruct (if py_truthy (get_or result "skills" (PList []))
              then _ else _); [|discriminate].
    cbn [obind] in Hrow. injection Hrow as <-. split; [reflexivity | discriminate].
  - injection Hrow as <-. split; [reflexivity | intros _; reflexivity].
Qed.

End ExportFacts.

Lemma format_row_of_placeholders_witness :
  exists row,
    format_row sim_str_of
      [("name", PStr "Jane Doe"); ("profile_url", PStr PROFILE_URL);
       ("success", PBool true); ("error", PNone);
       ("experiences", EXPERIENCES_DEFAULT);
       ("educations", EDUCATIONS_DEFAULT); ("skills", SKILLS_DEFAULT)]
    = Ret row
    /\ dict_get row "Experience" = Some (PStr "N/A at N/A (N/A)")
    /\ dict_get row "Education" = Some (PStr "N/A - N/A - N/A")
    /\ dict_get row "Skills" = Some (PStr "N/A")
    /\ dict_get row "Profile URL" = Some (PStr PROFILE_URL).
Proof.
  apply (format_row_of_placeholders sim_str_of
           [("name", PStr "Jane Doe")] PROFILE_URL).
  - intros s. reflexivity.
  - reflexivity.
  - intros k Hk. simpl in Hk.
    repeat (destruct Hk as [<-|Hk]; [reflexivity|]). contradiction.
Defined.

Lemma format_raises_on_bad_item_witness :
  exists e,
    format_profile_data_for_csv sim_str_of
      [failure_record PROFILE_URL (PStr "Gemini extraction failed");
       [("profile_url", PStr PROFILE_URL); ("success", PBool true);
        ("experiences", PList [PStr "Engineer at Example"])]]
    = Raise e.
Proof.
  apply (format_raises_on_bad_item sim_str_of _
           [("profile_url", PStr PROFILE_URL); ("success", PBool true);
            ("experiences", PList [PStr "Engineer at Example"])]
           [PStr "Engineer at Example"] (PStr "Engineer at Example")).
  - right. left. reflexivity.
  - reflexivity.
  - reflexivity.
  - left. reflexivity.
  - reflexivity.
Defined.

Lemma format_rows_in_order_witness :
  length [failure_row PROFILE_URL "Gemini extraction failed"]
  = length [failure_record PROFILE_URL (PStr "Gemini extraction failed")]
  /\ Forall2 (fun result row =>
                dict_get row "Profile URL"
                = Some (get_or result "profile_url" NA)
                /\ (py_truthy (get_or result "success" (PBool false)) = false
                    -> row = error_row result))
       [failure_record PROFILE_URL (PStr "Gemini extraction failed")]
       [failure_row PROFILE_URL "Gemini extraction failed"].
Proof.
  apply (format_rows_in_order sim_str_of
           [failure_record PROFILE_URL (PStr "Gemini extraction failed")]
           [failure_row PROFILE_URL "Gemini extraction failed"]).
  reflexivity.
Defined.

(** ** The standard output *)

(** X22.  The handler of the Normalizer contains every exception but
    those of the prints: on a standard output that has the pictographs,
    [html_to_clean_text] returns a string or [None], whatever the parse,
    the text extraction and the preview write do, and it calls neither
    the model nor anything but the preview write; on an output without
    them it raises the [UnicodeEncodeError] of the print of its handler,
    with the state as it was. *)
Theorem html_to_clean_text_outcome {W : Type} (env : Caps W) (html : string)
  (s : state W) :
  if stdout_pictographs env
  then exists r s',
         html_to_clean_text env html s = (Ret r, s')
         /\ llm_calls (trace s') = llm_calls (trace s)
  else html_to_clean_text env html s
       = (Raise (Exn UnicodeEncodeError
                   (stdout_error env (Some CROSS_MARK)
                      ("HTML to text conversion error: "
                       ++ stdout_error env (Some PAGE)
                            "Converting HTML to clean text..." [])
                      [])),
          s).
Proof.
  destruct (stdout_pictographs env) eqn:Hp.
  - destruct (html_to_clean_text_cases env html s Hp) as [r [s' [E [Hc _]]]].
    exists r, s'. split; assumption.
  - unfold html_to_clean_text. print_on Hp. reflexivity.
Qed.



(** X24.  On a standard output without the pictographs no URL yields a
    record: whenever [extract_profile_data] ends it raises, and so does
    every batch of at least one URL that ends without a callback. *)
Theorem no_record_without_pictographs {W : Type} (env : Caps W)
  (fuel : nat) (url : string) (rest : list string) (s : state W) :
  stdout_pictographs env = false ->
  (forall o s', extract_profile_data env fuel url s = Some (o, s') ->
                exists e, o = Raise e)
  /\ (forall o s',
         scrape_multiple_profiles env fuel (url :: rest) None s
         = Some (o, s') ->
         exists e, o = Raise e).
Proof.
  intros Hp.
  assert (H1 : forall o s', extract_profile_data env fuel url s = Some (o, s')
                            -> exists e, o = Raise e).
  { intros [d|e] s' H; [|exists e; reflexivity].
    apply extract_profile_data_returns_on in H. congruence. }
  split; [exact H1|].
  intros o s'. unfold scrape_multiple_profiles. cbn [scrape_from].
  unfold pbind at 1. unfold finite at 1, ret. unfold pbind at 1.
  destruct (extract_profile_data env fuel url s) as [[[d|e] s1]|] eqn:E;
    [| |discriminate].
  - destruct (H1 _ _ eq_refl) as [e He]. discriminate He.
  - intros H; injection H as <- _. exists e; reflexivity.
Qed.

Lemma no_record_without_pictographs_witness :
  (forall o s',
      extract_profile_data
        (cp1252_console
           (sim_env (Some "key") (fun u => u) PROFILE_PAGE NAME_ONLY_REPLY))
        3 PROFILE_URL start = Some (o, s') ->
      exists e, o = Raise e)
  /\ (forall o s',
         scrape_multiple_profiles
           (cp1252_console
              (sim_env (Some "key") (fun u => u) PROFILE_PAGE
                 NAME_ONLY_REPLY))
           3 [PROFILE_URL; CHECKPOINT_URL] None start = Some (o, s') ->
         exists e, o = Raise e).
Proof.
  exact (no_record_without_pictographs
           (cp1252_console
              (sim_env (Some "key") (fun u => u) PROFILE_PAGE
                 NAME_ONLY_REPLY))
           3 PROFILE_URL [CHECKPOINT_URL] start eq_refl).
Defined.

